(** * Position-indexed task tools: the task store adapter and its orchestrators

    A shallow embedding of [src/mcp_server/server.py] (the task store
    adapter: the five [/tools/...] endpoints, [get_task_by_id] and
    [execute_tool]), of the tool loop of [src/backend/api/chat.py]
    ([get_task_position_from_id], [call_mcp_tool] and step 8 of
    [chat_endpoint]) and of the tool loop of
    [src/backend/ai_agent/agent.py] ([TodoAgent.process_message]),
    followed by the properties of the position protocol.

    The tool loops are embedded without the conversation tables, which
    they write but never read; the language model is a parameter: the
    first completion is given as its message, the second as a function
    of the messages sent.  The conversations of [chat.py]
    ([get_current_user], [get_openai_client], step 0 to 6 of
    [chat_endpoint] and the two endpoints that read them) are embedded
    on their own, in [Backend]; the table of tool invocations is left
    out. *)

From Stdlib Require Import ZArith String Ascii.
From stdpp Require Import gmap strings list pretty sorting.

Open Scope Z_scope.

(** ** Python values *)

(** A Python [str] is a sequence of Unicode code points. *)
Definition pystr := list N.

(** An ASCII literal of the source, as a [str]. *)
Definition py (s : string) : pystr :=
  N_of_ascii <$> list_ascii_of_string s.

(** [str(n)] and the [{n}] of an f-string, for an [int]. *)
Definition str_of_int (n : Z) : pystr := py (pretty n).

(** [not s] for a [str]: the empty string is falsy. *)
Definition falsy (s : pystr) : bool := bool_decide (s = []).

(** The characters [str.strip()] removes: those for which
    [Py_UNICODE_ISSPACE] holds. *)
Definition isspace (c : N) : bool :=
  bool_decide (c ∈ [9; 10; 11; 12; 13; 28; 29; 30; 31; 32; 133; 160;
                    5760; 8192; 8193; 8194; 8195; 8196; 8197; 8198;
                    8199; 8200; 8201; 8202; 8232; 8233; 8239; 8287;
                    12288]%N).

Fixpoint lstrip (s : pystr) : pystr :=
  match s with
  | c :: r => if isspace c then lstrip r else s
  | [] => []
  end.

Definition rstrip (s : pystr) : pystr := reverse (lstrip (reverse s)).

Definition strip (s : pystr) : pystr := rstrip (lstrip s).

(** JSON-like values: what [dict()] of a response model, [json.loads]
    and [response.json()] produce.  A [dict] keeps its keys in insertion
    order; [JDate] is a [datetime] (rendered as text on the wire). *)
#[warnings="-register-all"]
Inductive json :=
| JNull
| JBool (b : bool)
| JInt (n : Z)
| JStr (s : pystr)
| JDate (t : Z)
| JArr (l : list json)
| JObj (d : list (string * json)).

(** [d.get(k)] on a value that may or may not be a [dict]. *)
Fixpoint assoc_get (k : string) (d : list (string * json)) : option json :=
  match d with
  | [] => None
  | (k', v) :: r => if decide (k' = k) then Some v else assoc_get k r
  end.

Definition jget (k : string) (j : json) : option json :=
  match j with
  | JObj d => assoc_get k d
  | _ => None
  end.

(** ** The task table *)

(** The [Task] row of [backend.models.task_models] with the columns the
    tools read and write. *)
Module Task.
Record t := mk {
  id : pystr;
  title : pystr;
  description : pystr;
  completed : bool;
  user_id : pystr;
  created_at : Z;
  updated_at : Z
}.
End Task.

(** What the code takes from outside: the clock behind
    [datetime.utcnow()] ([utcnow n] is its n-th reading), the primary
    key the [Task] model gives to the n-th inserted row, which JSON
    values the request models accept for an [int], a [str] and a [bool]
    field, the error report for a body a request model rejects, the
    text of a response body, and the text an f-string gives for a JSON
    value that is not a [str]. *)
Record Env := {
  utcnow : nat → Z;
  new_id : nat → pystr;
  as_int : json → option Z;
  as_str : json → option pystr;
  as_bool : json → option bool;
  validation_detail : string → gmap string json → json;
  dumps : json → pystr;
  format_value : json → pystr
}.

(** The database as the tools see it: the task rows in the order a
    [select(Task)] without ordering clause returns them (rows are
    appended by an insert, and keep their place under an update), and
    how often the clock and the key supply have been used. *)
Record World := {
  tasks : list Task.t;
  clock_reads : nat;
  rows_inserted : nat
}.

(** A call either returns or raises [HTTPException(status_code, detail)]. *)
Inductive outcome (A : Type) :=
| Return (a : A)
| Raise (status_code : Z) (detail : pystr).
Arguments Return {A} a.
Arguments Raise {A} status_code detail.

Definition succeeded {A} (o : outcome A) : bool :=
  match o with Return _ => true | Raise _ _ => false end.

(** [str(e)] of an [HTTPException]: ["{status_code}: {detail}"]. *)
Definition str_of_exc (status_code : Z) (detail : pystr) : pystr :=
  str_of_int status_code ++ py ": " ++ detail.

(** The [except Exception as e: raise HTTPException(500, f"{prefix}{str(e)}")]
    that closes the [try] block of every tool: it also catches the
    [HTTPException] raised inside the block. *)
Definition except_Exception {A} (prefix : string)
    (r : outcome A * World) : outcome A * World :=
  match r with
  | (Raise status_code detail, w) =>
      (Raise 500 (py prefix ++ str_of_exc status_code detail), w)
  | _ => r
  end.

(** [tasks[i]] for [i >= 0]; an index past the end raises [IndexError]. *)
Definition index_exc : pystr := py "list index out of range".

Module Server.

(** [select(Task).where(Task.user_id == user_id)] followed by [.all()]. *)
Definition select_tasks (user_id : pystr) (w : World) : list Task.t :=
  filter (λ t, Task.user_id t = user_id) (tasks w).

Definition get_user_tasks (user_id : pystr) (w : World) : list Task.t :=
  select_tasks user_id w.

Definition not_found (position : Z) : pystr :=
  py "Task at position " ++ str_of_int position ++ py " not found".

Definition get_task_by_position (user_id : pystr) (position : Z)
    (w : World) : outcome (Task.t * Z) :=
  let tasks := select_tasks user_id w in
  if bool_decide (position < 1 ∨ position > Z.of_nat (length tasks)) then
    Raise 404 (not_found position)
  else
    match tasks !! Z.to_nat (position - 1) with
    | Some task => Return (task, position - 1)
    | None => Raise 500 index_exc
    end.

(** [session.add(db_task); session.commit()] for a new row. *)
Definition insert_row (task : Task.t) (w : World) : World :=
  {| tasks := tasks w ++ [task];
     clock_reads := clock_reads w;
     rows_inserted := S (rows_inserted w) |}.

(** [session.add(db_task); session.commit()] for a loaded row: the
    row with that primary key is rewritten. *)
Definition update_row (task : Task.t) (w : World) : World :=
  {| tasks := (λ r, if decide (Task.id r = Task.id task) then task else r)
                <$> tasks w;
     clock_reads := clock_reads w;
     rows_inserted := rows_inserted w |}.

(** [session.delete(db_task); session.commit()]. *)
Definition delete_row (task : Task.t) (w : World) : World :=
  {| tasks := filter (λ r, Task.id r ≠ Task.id task) (tasks w);
     clock_reads := clock_reads w;
     rows_inserted := rows_inserted w |}.

(** One [datetime.utcnow()]. *)
Definition read_clock (E : Env) (w : World) : Z * World :=
  (utcnow E (clock_reads w),
   {| tasks := tasks w;
      clock_reads := S (clock_reads w);
      rows_inserted := rows_inserted w |}).

(** The request models. *)
Record AddTaskRequest := {
  add_title : pystr;
  add_description : pystr;
  add_user_id : pystr
}.

Record ListTasksRequest := { list_user_id : pystr }.

Record UpdateTaskRequest := {
  upd_task_position : Z;
  upd_user_id : pystr;
  upd_title : option pystr;
  upd_description : option pystr
}.

Record CompleteTaskRequest := {
  cmp_task_position : Z;
  cmp_user_id : pystr;
  cmp_completed : bool
}.

Record DeleteTaskRequest := {
  del_task_position : Z;
  del_user_id : pystr
}.

(** [TaskResponse(id=..., ...).dict()]. *)
Definition task_response (task : Task.t) : list (string * json) :=
  [("id", JStr (Task.id task));
   ("title", JStr (Task.title task));
   ("description", JStr (Task.description task));
   ("completed", JBool (Task.completed task));
   ("user_id", JStr (Task.user_id task));
   ("created_at", JDate (Task.created_at task));
   ("updated_at", JDate (Task.updated_at task))].

Definition success_task (task : Task.t) : json :=
  JObj [("success", JBool true); ("task", JObj (task_response task))].

Definition add_task_tool (E : Env) (request : AddTaskRequest)
    (w : World) : outcome json * World :=
  if falsy (add_title request) || falsy (strip (add_title request)) then
    (Raise 400 (py "Title is required"), w)
  else if falsy (add_user_id request) then
    (Raise 400 (py "User ID is required"), w)
  else
    except_Exception "Error creating task: "
      (let '(created_at, w) := read_clock E w in
       let '(updated_at, w) := read_clock E w in
       let db_task :=
         Task.mk (new_id E (rows_inserted w))
                 (add_title request)
                 (add_description request)
                 false
                 (add_user_id request)
                 created_at
                 updated_at in
       let w := insert_row db_task w in
       (Return (success_task db_task), w)).

(** [enumerate(tasks, start)]. *)
Fixpoint enumerate {A} (start : Z) (l : list A) : list (Z * A) :=
  match l with
  | [] => []
  | x :: r => (start, x) :: enumerate (start + 1) r
  end.

(** [task_data] once [task_data['position'] = idx] is done. *)
Definition task_data (idx : Z) (task : Task.t) : json :=
  JObj (task_response task ++ [("position", JInt idx)]).

(** The body of [for idx, task in enumerate(tasks, 1)], on the pair
    [(pending_tasks, completed_tasks)]. *)
Definition separate (lists : list json * list json)
    (item : Z * Task.t) : list json * list json :=
  let '(pending_tasks, completed_tasks) := lists in
  let '(idx, task) := item in
  if Task.completed task then
    (pending_tasks, completed_tasks ++ [task_data idx task])
  else
    (pending_tasks ++ [task_data idx task], completed_tasks).

Definition list_tasks_tool (request : ListTasksRequest)
    (w : World) : outcome json * World :=
  if falsy (list_user_id request) then
    (Raise 400 (py "User ID is required"), w)
  else
    except_Exception "Error retrieving tasks: "
      (let tasks := select_tasks (list_user_id request) w in
       let '(pending_tasks, completed_tasks) :=
         foldl separate ([], []) (enumerate 1 tasks) in
       let task_list := pending_tasks ++ completed_tasks in
       (Return (JObj
          [("success", JBool true);
           ("tasks", JArr task_list);
           ("summary", JObj
              [("total", JInt (Z.of_nat (length tasks)));
               ("pending", JInt (Z.of_nat (length pending_tasks)));
               ("completed", JInt (Z.of_nat (length completed_tasks)))]);
           ("pending_tasks", JArr pending_tasks);
           ("completed_tasks", JArr completed_tasks)]), w)).

(** The lookup every position-addressed tool starts its [try] block
    with. *)
Definition task_at (user_id : pystr) (task_position : Z)
    (w : World) : outcome Task.t :=
  let tasks := select_tasks user_id w in
  if bool_decide (task_position < 1
                  ∨ task_position > Z.of_nat (length tasks)) then
    Raise 404 (not_found task_position)
  else
    match tasks !! Z.to_nat (task_position - 1) with
    | Some db_task => Return db_task
    | None => Raise 500 index_exc
    end.

Definition update_task_tool (E : Env) (request : UpdateTaskRequest)
    (w : World) : outcome json * World :=
  if falsy (upd_user_id request) then
    (Raise 400 (py "User ID is required"), w)
  else if bool_decide (upd_title request = None
                       ∧ upd_description request = None) then
    (Raise 400 (py "At least one field (title or description) must be provided for update"), w)
  else
    except_Exception "Error updating task: "
      (match task_at (upd_user_id request) (upd_task_position request) w with
       | Raise status_code detail => (Raise status_code detail, w)
       | Return db_task =>
           let title :=
             match upd_title request with
             | Some title => title
             | None => Task.title db_task
             end in
           let description :=
             match upd_description request with
             | Some description => description
             | None => Task.description db_task
             end in
           let '(updated_at, w) := read_clock E w in
           let db_task :=
             Task.mk (Task.id db_task) title description
                     (Task.completed db_task) (Task.user_id db_task)
                     (Task.created_at db_task) updated_at in
           let w := update_row db_task w in
           (Return (success_task db_task), w)
       end).

Definition complete_task_tool (E : Env) (request : CompleteTaskRequest)
    (w : World) : outcome json * World :=
  if falsy (cmp_user_id request) then
    (Raise 400 (py "User ID is required"), w)
  else
    except_Exception "Error updating task completion: "
      (match task_at (cmp_user_id request) (cmp_task_position request) w with
       | Raise status_code detail => (Raise status_code detail, w)
       | Return db_task =>
           let '(updated_at, w) := read_clock E w in
           let db_task :=
             Task.mk (Task.id db_task) (Task.title db_task)
                     (Task.description db_task) (cmp_completed request)
                     (Task.user_id db_task) (Task.created_at db_task)
                     updated_at in
           let w := update_row db_task w in
           (Return (success_task db_task), w)
       end).

Definition deleted_message (task_position : Z) : json :=
  JObj [("success", JBool true);
        ("message", JStr (py "Task at position "
                          ++ str_of_int task_position
                          ++ py " deleted successfully"))].

Definition delete_task_tool (request : DeleteTaskRequest)
    (w : World) : outcome json * World :=
  if falsy (del_user_id request) then
    (Raise 400 (py "User ID is required"), w)
  else
    except_Exception "Error deleting task: "
      (match task_at (del_user_id request) (del_task_position request) w with
       | Raise status_code detail => (Raise status_code detail, w)
       | Return db_task =>
           let w := delete_row db_task w in
           (Return (deleted_message (del_task_position request)), w)
       end).

(** *** The endpoints as the HTTP client sees them *)

(** A field of a request model: [required] when [dflt] is [None]. *)
Definition field {A} (coerce : json → option A) (dflt : option A)
    (k : string) (body : gmap string json) : option A :=
  match body !! k with
  | Some v => coerce v
  | None => dflt
  end.

(** An [Optional[str] = None] field. *)
Definition optional_str (E : Env) (v : json) : option (option pystr) :=
  match v with
  | JNull => Some None
  | _ => Some <$> as_str E v
  end.

Definition parse_add (E : Env) (body : gmap string json)
    : option AddTaskRequest :=
  title ← field (as_str E) None "title" body;
  description ← field (as_str E) (Some []) "description" body;
  user_id ← field (as_str E) None "user_id" body;
  Some {| add_title := title;
          add_description := description;
          add_user_id := user_id |}.

Definition parse_list (E : Env) (body : gmap string json)
    : option ListTasksRequest :=
  user_id ← field (as_str E) None "user_id" body;
  Some {| list_user_id := user_id |}.

Definition parse_update (E : Env) (body : gmap string json)
    : option UpdateTaskRequest :=
  task_position ← field (as_int E) None "task_position" body;
  user_id ← field (as_str E) None "user_id" body;
  title ← field (optional_str E) (Some None) "title" body;
  description ← field (optional_str E) (Some None) "description" body;
  Some {| upd_task_position := task_position;
          upd_user_id := user_id;
          upd_title := title;
          upd_description := description |}.

Definition parse_complete (E : Env) (body : gmap string json)
    : option CompleteTaskRequest :=
  task_position ← field (as_int E) None "task_position" body;
  user_id ← field (as_str E) None "user_id" body;
  completed ← field (as_bool E) (Some true) "completed" body;
  Some {| cmp_task_position := task_position;
          cmp_user_id := user_id;
          cmp_completed := completed |}.

Definition parse_delete (E : Env) (body : gmap string json)
    : option DeleteTaskRequest :=
  task_position ← field (as_int E) None "task_position" body;
  user_id ← field (as_str E) None "user_id" body;
  Some {| del_task_position := task_position;
          del_user_id := user_id |}.

(** A response: its status code and its JSON body. *)
Definition respond (r : outcome json * World) : (Z * json) * World :=
  match r with
  | (Return body, w) => ((200, body), w)
  | (Raise status_code detail, w) =>
      ((status_code, JObj [("detail", JStr detail)]), w)
  end.

Definition rejected (E : Env) (tool : string) (body : gmap string json)
    (w : World) : (Z * json) * World :=
  ((422, JObj [("detail", validation_detail E tool body)]), w).

(** [POST /tools/{tool}] with a JSON body, for the five routes. *)
Definition handle (E : Env) (tool : string) (body : gmap string json)
    (w : World) : (Z * json) * World :=
  if decide (tool = "add_task") then
    match parse_add E body with
    | Some request => respond (add_task_tool E request w)
    | None => rejected E tool body w
    end
  else if decide (tool = "list_tasks") then
    match parse_list E body with
    | Some request => respond (list_tasks_tool request w)
    | None => rejected E tool body w
    end
  else if decide (tool = "update_task") then
    match parse_update E body with
    | Some request => respond (update_task_tool E request w)
    | None => rejected E tool body w
    end
  else if decide (tool = "complete_task") then
    match parse_complete E body with
    | Some request => respond (complete_task_tool E request w)
    | None => rejected E tool body w
    end
  else if decide (tool = "delete_task") then
    match parse_delete E body with
    | Some request => respond (delete_task_tool request w)
    | None => rejected E tool body w
    end
  else
    ((404, JObj [("detail", JStr (py "Not Found"))]), w).

End Server.

(** ** The orchestrator of [backend/api/chat.py] *)

(** The task store behind its HTTP interface, and the requests that
    reached it: the route and the JSON body of each, latest last. *)
Record Net := {
  world : World;
  wire : list (string * gmap string json)
}.

(** [client.post(endpoint, json=body)], answered by the server above:
    the exchange itself does not fail. *)
Definition post (E : Env) (tool : string) (body : gmap string json)
    (n : Net) : (Z * json) * Net :=
  let '(response, w) := Server.handle E tool body (world n) in
  (response, {| world := w; wire := wire n ++ [(tool, body)] |}).

(** Truth value of a JSON value, and of the result of [d.get(k)]. *)
Definition truthy (v : json) : bool :=
  match v with
  | JNull => false
  | JBool b => b
  | JInt n => negb (bool_decide (n = 0))
  | JStr s => negb (falsy s)
  | JDate _ => true
  | JArr l => negb (bool_decide (l = []))
  | JObj d => negb (bool_decide (d = []))
  end.

Definition truthy_opt (v : option json) : bool :=
  match v with
  | Some v => truthy v
  | None => false
  end.

(** [==] between JSON values of the same kind, as used on task ids. *)
Fixpoint json_eqb (a b : json) : bool :=
  match a, b with
  | JNull, JNull => true
  | JBool x, JBool y => bool_decide (x = y)
  | JInt x, JInt y => bool_decide (x = y)
  | JStr x, JStr y => bool_decide (x = y)
  | JDate x, JDate y => bool_decide (x = y)
  | JArr l, JArr m =>
      (fix all2 (l m : list json) : bool :=
         match l, m with
         | [], [] => true
         | x :: l, y :: m => json_eqb x y && all2 l m
         | _, _ => false
         end) l m
  | JObj d, JObj e =>
      (fix all2 (d e : list (string * json)) : bool :=
         match d, e with
         | [], [] => true
         | (k, x) :: d, (k', y) :: e =>
             bool_decide (k = k') && json_eqb x y && all2 d e
         | _, _ => false
         end) d e
  | _, _ => false
  end.

(** A tool call of the model: [tool_call.id], [tool_call.function.name]
    and [json.loads(tool_call.function.arguments)], which is [None]
    when the text is not a JSON object (the assignment of [user_id]
    into it then raises). *)
Module ToolCall.
Record t := mk {
  id : pystr;
  name : string;
  arguments : option (gmap string json)
}.
End ToolCall.

(** [choices[0].message] of a completion. *)
Record ModelMessage := {
  content : option pystr;
  tool_calls : list ToolCall.t
}.

(** The messages sent to the model.  The content of a tool message is
    [json.dumps] of the value it carries. *)
Inductive Message :=
| Text (role : string) (content : option pystr)
| AssistantWithToolCalls (content : option pystr)
    (tool_calls : list ToolCall.t)
| ToolResult (content : json) (tool_call_id : pystr).

Record ChatResponse := {
  message : pystr;
  response_tool_calls : option (list ToolCall.t)
}.

(** [a or b] for an optional text. *)
Definition or_text (a : option pystr) (b : pystr) : pystr :=
  match a with
  | Some s => if falsy s then b else s
  | None => b
  end.

Module Chat.

Definition tool_endpoints : list string :=
  ["add_task"; "list_tasks"; "update_task"; "complete_task"; "delete_task"].

Definition error (text : pystr) : json := JObj [("error", JStr text)].

(** The first task of [tasks] whose id is [task_id] gives the position. *)
Fixpoint find_position (task_id : json) (tasks : list json) : option json :=
  match tasks with
  | [] => None
  | task :: rest =>
      if json_eqb (default JNull (jget "id" task)) task_id then
        match jget "position" task with
        | Some JNull | None => None
        | Some position => Some position
        end
      else find_position task_id rest
  end.

Definition get_task_position_from_id (E : Env) (task_id user_id : json)
    (n : Net) : option json * Net :=
  let '((status_code, result), n) :=
    post E "list_tasks" {[ "user_id" := user_id ]} n in
  if negb (bool_decide (status_code = 200)) then (None, n)
  else if negb (truthy_opt (jget "success" result)) then (None, n)
  else
    let tasks :=
      match jget "tasks" result with
      | Some (JArr tasks) => tasks
      | _ => []
      end in
    (find_position task_id tasks, n).

(** The request to the endpoint itself, once the arguments are ready. *)
Definition request_tool (E : Env) (tool_name : string)
    (transformed_args : gmap string json) (n : Net) : json * Net :=
  let '((status_code, body), n) := post E tool_name transformed_args n in
  if negb (bool_decide (status_code = 200)) then
    (error (py "Tool call failed: " ++ dumps E body), n)
  else (body, n).

Definition call_mcp_tool (E : Env) (tool_name : string)
    (tool_args : gmap string json) (n : Net) : json * Net :=
  if negb (bool_decide (tool_name ∈ tool_endpoints)) then
    (error (py "Unknown tool: " ++ py tool_name), n)
  else
    let transformed_args := tool_args in
    if bool_decide (tool_name ∈ ["update_task"; "complete_task"; "delete_task"])
       && bool_decide (is_Some (transformed_args !! "task_id"))
       && negb (bool_decide (is_Some (transformed_args !! "task_position")))
    then
      let task_id := default JNull (transformed_args !! "task_id") in
      let user_id := transformed_args !! "user_id" in
      if truthy_opt user_id then
        let '(position, n) :=
          get_task_position_from_id E task_id (default JNull user_id) n in
        match position with
        | Some position =>
            let transformed_args :=
              delete "task_id"
                (<["task_position" := position]> transformed_args) in
            request_tool E tool_name transformed_args n
        | None =>
            (error (py "Could not find task with ID: "
                    ++ match task_id with
                       | JStr s => s
                       | _ => format_value E task_id
                       end),
             n)
        end
      else (error (py "Missing user_id for task lookup"), n)
    else request_tool E tool_name transformed_args n.

(** The loop over [response_message.tool_calls]: the authenticated
    user's id is written into the arguments, the tool is called and
    its result is stored under the id of the call.  [None] when the
    loop raises. *)
Fixpoint run_tool_calls (E : Env) (current_user_id : pystr)
    (calls : list ToolCall.t) (tool_results_cache : gmap pystr json)
    (n : Net) : option (gmap pystr json) * Net :=
  match calls with
  | [] => (Some tool_results_cache, n)
  | tool_call :: rest =>
      match ToolCall.arguments tool_call with
      | None => (None, n)
      | Some function_args =>
          let function_args :=
            <["user_id" := JStr current_user_id]> function_args in
          let '(tool_result, n) :=
            call_mcp_tool E (ToolCall.name tool_call) function_args n in
          run_tool_calls E current_user_id rest
            (<[ToolCall.id tool_call := tool_result]> tool_results_cache) n
      end
  end.

(** One tool message per call, from the cached results. *)
Fixpoint tool_messages (tool_results_cache : gmap pystr json)
    (calls : list ToolCall.t) : option (list Message) :=
  match calls with
  | [] => Some []
  | tool_call :: rest =>
      tool_result ← tool_results_cache !! ToolCall.id tool_call;
      messages ← tool_messages tool_results_cache rest;
      Some (ToolResult tool_result (ToolCall.id tool_call) :: messages)
  end.

Definition operations_message (operations_count : nat) : pystr :=
  py "I've completed " ++ str_of_int (Z.of_nat operations_count)
  ++ py " task" ++ (if bool_decide (1 < operations_count)%nat then py "s" else [])
  ++ py " for you!".

Definition completed_successfully : pystr :=
  py "Operation completed successfully.".

(** The text taken from the second completion. *)
Definition final_content (response_message final_message : ModelMessage)
    : pystr :=
  let chat_response_content :=
    or_text (content final_message) completed_successfully in
  if falsy chat_response_content
     && negb (bool_decide (tool_calls final_message = [])) then
    if bool_decide (0 < length (tool_calls final_message))%nat then
      operations_message (length (tool_calls response_message))
    else completed_successfully
  else chat_response_content.

(** Step 8 to 10 of [chat_endpoint]: [messages] is the list prepared
    for the first completion, [response_message] its answer and
    [create] the second completion ([None]: the provider fails).  A
    raised turn is the 500 of the outer handler. *)
Definition chat_endpoint (E : Env) (current_user_id : pystr)
    (messages : list Message) (response_message : ModelMessage)
    (create : list Message → option ModelMessage)
    (n : Net) : option ChatResponse * Net :=
  if bool_decide (tool_calls response_message = []) then
    (Some {| message := or_text (content response_message)
                          (py "I processed your request.");
             response_tool_calls := None |}, n)
  else
    match run_tool_calls E current_user_id (tool_calls response_message) ∅ n with
    | (None, n) => (None, n)
    | (Some tool_results_cache, n) =>
        let assistant_with_tool_calls :=
          AssistantWithToolCalls (content response_message)
                                 (tool_calls response_message) in
        match tool_messages tool_results_cache (tool_calls response_message) with
        | None => (None, n)
        | Some results =>
            let api_messages :=
              messages ++ [assistant_with_tool_calls] ++ results in
            if bool_decide (0 < length (tool_calls response_message))%nat then
              match create api_messages with
              | None => (None, n)
              | Some final_message =>
                  (Some {| message :=
                             final_content response_message final_message;
                           response_tool_calls :=
                             Some (tool_calls response_message) |}, n)
              end
            else
              (Some {| message := or_text (content response_message)
                                    completed_successfully;
                       response_tool_calls :=
                         Some (tool_calls response_message) |}, n)
        end
    end.

End Chat.

(** ** The orchestrator of [backend/ai_agent/agent.py] *)

Module Agent.

(** The loop of [TodoAgent.process_message] over the tool calls:
    [call_mcp_tool] is the HTTP exchange of the method of that name,
    which sends the arguments it is given.  The result holds the calls
    made, in order, and the tool messages ([None] when the loop
    raises). *)
Fixpoint run_tool_calls (call_mcp_tool : string → gmap string json → json)
    (user_id : pystr) (calls : list ToolCall.t)
    : list (string * gmap string json) * option (list Message) :=
  match calls with
  | [] => ([], Some [])
  | tool_call :: rest =>
      match ToolCall.arguments tool_call with
      | None => ([], None)
      | Some function_args =>
          let function_args :=
            if bool_decide (is_Some (function_args !! "user_id"))
            then function_args
            else <["user_id" := JStr user_id]> function_args in
          let tool_response :=
            call_mcp_tool (ToolCall.name tool_call) function_args in
          let '(made, messages) :=
            run_tool_calls call_mcp_tool user_id rest in
          ((ToolCall.name tool_call, function_args) :: made,
           cons (ToolResult tool_response (ToolCall.id tool_call))
             <$> messages)
      end
  end.

(** [process_message] from the first completion on: [create] is the
    second completion.  The result holds the calls made and the text
    returned ([None] when the method raises). *)
Definition process_message (call_mcp_tool : string → gmap string json → json)
    (create : list Message → option ModelMessage)
    (user_id : pystr) (messages : list Message)
    (response_message : ModelMessage)
    : list (string * gmap string json) * option (option pystr) :=
  if bool_decide (tool_calls response_message = []) then
    ([], Some (content response_message))
  else
    let '(made, results) :=
      run_tool_calls call_mcp_tool user_id (tool_calls response_message) in
    (made,
     results ← results;
     final_message ←
       create (messages
               ++ [AssistantWithToolCalls (content response_message)
                                          (tool_calls response_message)]
               ++ results);
     Some (content final_message)).

End Agent.

(** ** A sample environment and sample tables *)

Module Sample.

(** A clock that ticks once per reading, ids [task-0], [task-1], ...,
    and request models that accept a JSON value of the field's own
    type only. *)
Definition env : Env :=
  {| utcnow := λ n, 1000 + Z.of_nat n;
     new_id := λ n, py "task-" ++ str_of_int (Z.of_nat n);
     as_int := λ v, match v with JInt n => Some n | _ => None end;
     as_str := λ v, match v with JStr s => Some s | _ => None end;
     as_bool := λ v, match v with JBool b => Some b | _ => None end;
     validation_detail := λ _ _, JArr [];
     dumps := λ _, py "{...}";
     format_value := λ _, py "None" |}.

Definition empty : World :=
  {| tasks := []; clock_reads := 0; rows_inserted := 0 |}.

Definition alice : pystr := py "alice".
Definition bob : pystr := py "bob".

Definition add (user_id : pystr) (title : string) (w : World) : World :=
  (Server.add_task_tool env
     {| Server.add_title := py title;
        Server.add_description := [];
        Server.add_user_id := user_id |} w).2.

(** Alice adds A, Bob adds X, Alice adds B and C. *)
Definition abc : World :=
  add alice "C" (add alice "B" (add bob "X" (add alice "A" empty))).

Definition titles (l : list Task.t) : list pystr := Task.title <$> l.

End Sample.

(** ** Vocabulary of the statements *)

(** What a position-addressed tool raises for a position out of range:
    the 404 of the range check, caught by the handler that closes the
    [try] block and raised again with status 500. *)
Definition caught_not_found (prefix : string) (k : Z) : outcome json :=
  Raise 500 (py prefix ++ str_of_exc 404 (Server.not_found k)).

(** The row [complete_task_tool] writes back. *)
Definition completed_row (E : Env) (completed : bool) (db_task : Task.t)
    (w : World) : Task.t :=
  Task.mk (Task.id db_task) (Task.title db_task) (Task.description db_task)
          completed (Task.user_id db_task) (Task.created_at db_task)
          (utcnow E (clock_reads w)).

(** The row [update_task_tool] writes back. *)
Definition updated_row (E : Env) (title description : option pystr)
    (db_task : Task.t) (w : World) : Task.t :=
  Task.mk (Task.id db_task)
          (default (Task.title db_task) title)
          (default (Task.description db_task) description)
          (Task.completed db_task) (Task.user_id db_task)
          (Task.created_at db_task)
          (utcnow E (clock_reads w)).

Definition some_field (title description : option pystr) : Prop :=
  title ≠ None ∨ description ≠ None.

(** The row [add_task_tool] inserts. *)
Definition new_row (E : Env) (request : Server.AddTaskRequest)
    (w : World) : Task.t :=
  Task.mk (new_id E (rows_inserted w))
          (Server.add_title request) (Server.add_description request)
          false (Server.add_user_id request)
          (utcnow E (clock_reads w)) (utcnow E (S (clock_reads w))).

Definition after_add (E : Env) (request : Server.AddTaskRequest)
    (w : World) : World :=
  {| tasks := tasks w ++ [new_row E request w];
     clock_reads := S (S (clock_reads w));
     rows_inserted := S (rows_inserted w) |}.

(** The inputs [add_task_tool] rejects. *)
Definition invalid_add (request : Server.AddTaskRequest) : Prop :=
  Server.add_title request = []
  ∨ strip (Server.add_title request) = []
  ∨ Server.add_user_id request = [].

(** The primary key: no two rows of the table have the same id. *)
Definition primary_key (w : World) : Prop := NoDup (Task.id <$> tasks w).

(** The store after an update of the row at index [i] of the table. *)
Definition row_replaced (i : nat) (task : Task.t) (w : World) : World :=
  {| tasks := <[i := task]> (tasks w);
     clock_reads := S (clock_reads w);
     rows_inserted := rows_inserted w |}.

(** The owner's scan with its positions, then its display order:
    pending first, completed last. *)
Definition tagged_scan (user_id : pystr) (w : World) : list (Z * Task.t) :=
  Server.enumerate 1 (Server.get_user_tasks user_id w).

Definition is_pending (item : Z * Task.t) : Prop :=
  Task.completed item.2 = false.

Definition is_completed (item : Z * Task.t) : Prop :=
  Task.completed item.2 = true.

Definition as_task_data (item : Z * Task.t) : json :=
  Server.task_data item.1 item.2.

Definition listing (items : list (Z * Task.t)) : json :=
  let pending_tasks := as_task_data <$> filter is_pending items in
  let completed_tasks := as_task_data <$> filter is_completed items in
  JObj [("success", JBool true);
        ("tasks", JArr (pending_tasks ++ completed_tasks));
        ("summary", JObj
           [("total", JInt (Z.of_nat (length items)));
            ("pending", JInt (Z.of_nat (length pending_tasks)));
            ("completed", JInt (Z.of_nat (length completed_tasks)))]);
        ("pending_tasks", JArr pending_tasks);
        ("completed_tasks", JArr completed_tasks)].

(** The title and the position of each entry of the [tasks] of a
    listing, in the order listed. *)
Definition entry_position (task : json) : option (pystr * Z) :=
  match jget "title" task, jget "position" task with
  | Some (JStr title), Some (JInt position) => Some (title, position)
  | _, _ => None
  end.

Definition listed_positions (r : outcome json) : list (pystr * Z) :=
  match r with
  | Return result =>
      match jget "tasks" result with
      | Some (JArr tasks) => omap entry_position tasks
      | _ => []
      end
  | Raise _ _ => []
  end.

(** A caller that deletes a set of positions: one [delete_task_tool]
    call per position of the list, in the order of the list, each on
    the store the previous call left.  The positions are not
    recomputed between the calls. *)
Fixpoint delete_each (user_id : pystr) (positions : list Z) (w : World)
    : list (outcome json) * World :=
  match positions with
  | [] => ([], w)
  | position :: rest =>
      let '(result, w) :=
        Server.delete_task_tool
          {| Server.del_task_position := position;
             Server.del_user_id := user_id |} w in
      let '(results, w) := delete_each user_id rest w in
      (result :: results, w)
  end.

(** The positions [N, N-1, ..., 1] and [1, 2, ..., N]. *)
Definition descending (N : nat) : list Z := Z.of_nat <$> reverse (seq 1 N).
Definition ascending (N : nat) : list Z := Z.of_nat <$> seq 1 N.

(** The elements at positions 2, 4, 6, ... of a list. *)
Fixpoint even_positions {A} (l : list A) : list A :=
  match l with
  | _ :: y :: r => y :: even_positions r
  | _ => []
  end.

(** What the [k]-th call of the ascending sequence answers on a scan of
    [N] tasks. *)
Definition ascending_result (N : nat) (k : Z) : outcome json :=
  if decide (2 * k - 1 ≤ Z.of_nat N) then Return (Server.deleted_message k)
  else caught_not_found "Error deleting task: " k.

(** *** The orchestrators *)

(** A tool call as the tool schema describes it: a known tool, a JSON
    object as arguments, and for the position-addressed tools no
    [task_id] standing in for a missing [task_position]. *)
Definition plain_call (tool_call : ToolCall.t) : Prop :=
  ∃ args,
    ToolCall.arguments tool_call = Some args
    ∧ ToolCall.name tool_call ∈ Chat.tool_endpoints
    ∧ (ToolCall.name tool_call ∈ ["update_task"; "complete_task"; "delete_task"] →
       is_Some (args !! "task_id") → is_Some (args !! "task_position")).

(** The request [chat_endpoint] sends for a plain call. *)
Definition injected (current_user_id : pystr) (tool_call : ToolCall.t)
    : string * gmap string json :=
  (ToolCall.name tool_call,
   <["user_id" := JStr current_user_id]>
     (default ∅ (ToolCall.arguments tool_call))).

(** The positions of the [delete_task] requests among the requests
    sent, in the order sent. *)
Definition delete_position (request : string * gmap string json) : option Z :=
  if decide (request.1 = "delete_task") then
    match request.2 !! "task_position" with
    | Some (JInt position) => Some position
    | _ => None
    end
  else None.

Definition deleted_positions (requests : list (string * gmap string json))
    : list Z :=
  omap delete_position requests.

Fixpoint strictly_descending (positions : list Z) : bool :=
  match positions with
  | a :: (b :: _) as rest => bool_decide (b < a) && strictly_descending rest
  | _ => true
  end.

(** The call [delete_task(task_position)] of the model. *)
Definition delete_call (id : pystr) (task_position : Z) : ToolCall.t :=
  ToolCall.mk id "delete_task" (Some {[ "task_position" := JInt task_position ]}).

(** The requests a run of the tool loop adds to those sent before. *)
Definition sent_by {A} (run : Net → A * Net) (n : Net)
    : list (string * gmap string json) :=
  drop (length (wire n)) (wire (run n).2).

(** A request whose body names [user_id] as owner. *)
Definition carries_user_id (user_id : pystr)
    (request : string * gmap string json) : Prop :=
  request.2 !! "user_id" = Some (JStr user_id).

(** Two tool calls that differ at most in the [user_id] of their
    arguments. *)
Definition same_but_user_id (c1 c2 : ToolCall.t) : Prop :=
  ToolCall.id c1 = ToolCall.id c2
  ∧ ToolCall.name c1 = ToolCall.name c2
  ∧ delete "user_id" <$> ToolCall.arguments c1
    = delete "user_id" <$> ToolCall.arguments c2.

(** Whether the text [s] occurs as a string in a JSON value. *)
Fixpoint mentions (s : pystr) (v : json) : bool :=
  match v with
  | JStr s' => bool_decide (s' = s)
  | JArr l =>
      (fix any (l : list json) : bool :=
         match l with
         | [] => false
         | x :: l => mentions s x || any l
         end) l
  | JObj d =>
      (fix any (d : list (string * json)) : bool :=
         match d with
         | [] => false
         | (_, x) :: d => mentions s x || any d
         end) d
  | _ => false
  end.

Definition message_mentions (s : pystr) (m : Message) : bool :=
  match m with
  | ToolResult content _ => mentions s content
  | _ => false
  end.

(** A model that answers the second completion with the [id] of the
    task object of the first tool message it is sent. *)
Fixpoint first_task_id (messages : list Message) : option pystr :=
  match messages with
  | [] => None
  | ToolResult content _ :: rest =>
      match jget "task" content ≫= jget "id" with
      | Some (JStr id) => Some id
      | _ => first_task_id rest
      end
  | _ :: rest => first_task_id rest
  end.

Definition echo_model (messages : list Message) : option ModelMessage :=
  Some {| content := first_task_id messages; tool_calls := [] |}.

(** A model whose second completion has no text and asks for one more
    tool call. *)
Definition silent_model (messages : list Message) : option ModelMessage :=
  Some {| content := None;
          tool_calls := [ToolCall.mk (py "call_3") "list_tasks" (Some ∅)] |}.

Module Turns.

Definition net (w : World) : Net := {| world := w; wire := [] |}.

Definition user_says (text : string) : list Message :=
  [Text "system" (Some (py "...")); Text "user" (Some (py text))].

(** The model asks for [delete_task(1)], then [delete_task(2)]. *)
Definition delete_1_2 : ModelMessage :=
  {| content := None;
     tool_calls := [delete_call (py "call_1") 1; delete_call (py "call_2") 2] |}.

(** The model asks for [add_task(title="Buy milk")]. *)
Definition add_milk : ModelMessage :=
  {| content := None;
     tool_calls :=
       [ToolCall.mk (py "call_1") "add_task"
          (Some {[ "title" := JStr (py "Buy milk") ]})] |}.

(** The model asks for [list_tasks(user_id="bob")]. *)
Definition list_as_bob : ModelMessage :=
  {| content := None;
     tool_calls :=
       [ToolCall.mk (py "call_1") "list_tasks"
          (Some {[ "user_id" := JStr Sample.bob ]})] |}.

End Turns.

(** ** More of [mcp_server/server.py] *)

(** [get_task_by_id]: the first row with that id and that owner. *)
Definition get_task_by_id (task_id user_id : pystr) (w : World)
    : outcome Task.t :=
  match filter (λ t, Task.id t = task_id ∧ Task.user_id t = user_id) (tasks w) with
  | task :: _ => Return task
  | [] => Raise 404 (py "Task with id " ++ task_id ++ py " not found")
  end.

(** *** Vocabulary of the further statements *)

(** The five tools on one request type. *)
Inductive tool_request :=
| AddTask (request : Server.AddTaskRequest)
| ListTasks (request : Server.ListTasksRequest)
| UpdateTask (request : Server.UpdateTaskRequest)
| CompleteTask (request : Server.CompleteTaskRequest)
| DeleteTask (request : Server.DeleteTaskRequest).

Definition run_tool (E : Env) (r : tool_request) (w : World)
    : outcome json * World :=
  match r with
  | AddTask request => Server.add_task_tool E request w
  | ListTasks request => Server.list_tasks_tool request w
  | UpdateTask request => Server.update_task_tool E request w
  | CompleteTask request => Server.complete_task_tool E request w
  | DeleteTask request => Server.delete_task_tool request w
  end.

Definition request_user_id (r : tool_request) : pystr :=
  match r with
  | AddTask request => Server.add_user_id request
  | ListTasks request => Server.list_user_id request
  | UpdateTask request => Server.upd_user_id request
  | CompleteTask request => Server.cmp_user_id request
  | DeleteTask request => Server.del_user_id request
  end.

(** The id the next inserted row gets is not in the table. *)
Definition fresh_id (E : Env) (w : World) : Prop :=
  new_id E (rows_inserted w) ∉ Task.id <$> tasks w.

(** The counts of the [summary] of a listing. *)
Definition summary_counts (r : outcome json) : option (Z * Z * Z) :=
  match r with
  | Return result =>
      match jget "summary" result with
      | Some summary =>
          match jget "total" summary, jget "pending" summary,
                jget "completed" summary with
          | Some (JInt total), Some (JInt pending), Some (JInt completed) =>
              Some (total, pending, completed)
          | _, _, _ => None
          end
      | None => None
      end
  | Raise _ _ => None
  end.

Definition listed_count (r : outcome json) : option nat :=
  match r with
  | Return result =>
      match jget "tasks" result with
      | Some (JArr tasks) => Some (length tasks)
      | _ => None
      end
  | Raise _ _ => None
  end.

(** The request models accept a JSON value of a field's own type as it
    is. *)
Definition accepts_own_types (E : Env) : Prop :=
  (∀ n, as_int E (JInt n) = Some n)
  ∧ (∀ s, as_str E (JStr s) = Some s)
  ∧ (∀ b, as_bool E (JBool b) = Some b).

(** The request [get_task_position_from_id] sends. *)
Definition list_request (user_id : pystr) : string * gmap string json :=
  ("list_tasks", {[ "user_id" := JStr user_id ]}).

(** The results of the calls of a tool loop, one after the other, each
    on the store the call before it left. *)
Fixpoint call_results (E : Env) (current_user_id : pystr)
    (calls : list ToolCall.t) (n : Net) : list json :=
  match calls with
  | [] => []
  | tool_call :: rest =>
      let '(tool_result, n) :=
        Chat.call_mcp_tool E (ToolCall.name tool_call)
          (<["user_id" := JStr current_user_id]>
             (default ∅ (ToolCall.arguments tool_call))) n in
      tool_result :: call_results E current_user_id rest n
  end.

Definition has_arguments (tool_call : ToolCall.t) : Prop :=
  is_Some (ToolCall.arguments tool_call).

Definition supplies_no_user_id (tool_call : ToolCall.t) : Prop :=
  ∃ args, ToolCall.arguments tool_call = Some args ∧ args !! "user_id" = None.

(** *** [execute_tool] *)

(** What [execute_tool] takes from the Python runtime: the text of the
    exceptions that are not [HTTPException]s, and the text SQLite
    compares a [user_id] column with when the value bound to the query
    is not a [str] ([None]: the driver cannot bind the value and
    raises). *)
Inductive fault :=
| JSONDecodeError
| AttributeError
| ValidationError (model : string)
| InterfaceError.

Record Runtime := {
  str_of_fault : fault → pystr;
  bind_text : json → option pystr
}.

(** [arguments] after
    [json.loads(arguments_str) if isinstance(arguments_str, str) else arguments_str]:
    a [dict], another value, or no value when the text is no JSON. *)
Inductive arguments :=
| Object (d : gmap string json)
| NotObject
| NotJson.

(** The characters of the answers that are not ASCII, and the newline. *)
Definition check_mark : pystr := [9989%N].
Definition cross_mark : pystr := [10060%N].
Definition memo : pystr := [128221%N].
Definition newline : pystr := [10%N].

(** A JSON value inside an f-string. *)
Definition fstr (E : Env) (v : json) : pystr :=
  match v with
  | JStr s => s
  | JInt n => str_of_int n
  | _ => format_value E v
  end.

(** [sep.join(l)]. *)
Fixpoint join (sep : pystr) (l : list pystr) : pystr :=
  match l with
  | [] => []
  | [s] => s
  | s :: rest => s ++ sep ++ join sep rest
  end.

Definition result_text (text : pystr) : json := JObj [("result", JStr text)].

(** The handler [except Exception as e] of [execute_tool]. *)
Definition error_executing (text : pystr) : json :=
  result_text (cross_mark ++ py " Error executing tool: " ++ text).

(** A tool called inside the [try] block: its [HTTPException] is caught
    by the handler, its result goes to [answer]. *)
Definition awaited (r : outcome json * World) (answer : json → json)
    : json * World :=
  match r with
  | (Return result, w) => (answer result, w)
  | (Raise status_code detail, w) =>
      (error_executing (str_of_exc status_code detail), w)
  end.

(** [task.get('title', 'Untitled Task')] of [result.get("task", {})]. *)
Definition task_title (E : Env) (result : json) : pystr :=
  fstr E (default (JStr (py "Untitled Task"))
            (jget "title" (default (JObj []) (jget "task" result)))).

Definition failed (E : Env) (what : string) (result : json) : json :=
  result_text (cross_mark ++ py what
               ++ fstr E (default (JStr (py "Unknown error"))
                            (jget "detail" result))).

(** The loop [for idx, task in enumerate(all_tasks, 1)] that looks for
    [task.id == task_id]. *)
Fixpoint position_of (task_id : json) (items : list (Z * Task.t))
    : option Z :=
  match items with
  | [] => None
  | (idx, task) :: rest =>
      if json_eqb (JStr (Task.id task)) task_id then Some idx
      else position_of task_id rest
  end.

(** The part three branches share: [task_id] and [user_id] are read,
    the user's tasks are scanned for the id, and [call] is run on the
    position found. *)
Definition by_task_id (R : Runtime) (d : gmap string json)
    (call : Z → json → World → json * World) (w : World) : json * World :=
  let user_id := d !! "user_id" in
  let task_id := d !! "task_id" in
  if truthy_opt task_id && truthy_opt user_id then
    match bind_text R (default JNull user_id) with
    | None => (error_executing (str_of_fault R InterfaceError), w)
    | Some owner =>
        let all_tasks := Server.select_tasks owner w in
        match position_of (default JNull task_id)
                (Server.enumerate 1 all_tasks) with
        | Some task_position =>
            if bool_decide (task_position = 0) then
              (result_text (cross_mark ++ py " Task not found"), w)
            else call task_position (default JNull user_id) w
        | None => (result_text (cross_mark ++ py " Task not found"), w)
        end
    end
  else (result_text (cross_mark ++ py " Missing user_id or task_id"), w).

Definition task_line (E : Env) (task : json) : pystr :=
  (if truthy_opt (jget "completed" task) then check_mark else memo)
  ++ py " " ++ fstr E (default (JStr []) (jget "position" task))
  ++ py ". " ++ fstr E (default (JStr (py "Untitled Task")) (jget "title" task)).

Definition is_tool (tool_name : json) (name : string) : bool :=
  json_eqb tool_name (JStr (py name)).

Definition execute_object (E : Env) (R : Runtime) (tool_name : json)
    (d : gmap string json) (w : World) : json * World :=
  if is_tool tool_name "create_task" then
    match as_str E (default (JStr []) (d !! "title")),
          as_str E (default (JStr []) (d !! "description")),
          as_str E (default JNull (d !! "user_id")) with
    | Some title, Some description, Some user_id =>
        awaited
          (Server.add_task_tool E
             {| Server.add_title := title;
                Server.add_description := description;
                Server.add_user_id := user_id |} w)
          (λ result,
             if truthy_opt (jget "success" result) then
               result_text (check_mark ++ py " Task added: "
                            ++ task_title E result)
             else failed E " Failed to add task: " result)
    | _, _, _ =>
        (error_executing (str_of_fault R (ValidationError "AddTaskRequest")), w)
    end
  else if is_tool tool_name "get_tasks" then
    match as_str E (default JNull (d !! "user_id")) with
    | Some user_id =>
        awaited
          (Server.list_tasks_tool {| Server.list_user_id := user_id |} w)
          (λ result,
             if truthy_opt (jget "success" result) then
               let tasks :=
                 match jget "tasks" result with
                 | Some (JArr tasks) => tasks
                 | _ => []
                 end in
               let summary := default (JObj []) (jget "summary" result) in
               let pending_count :=
                 default (JInt 0) (jget "pending" summary) in
               let completed_count :=
                 default (JInt 0) (jget "completed" summary) in
               if bool_decide (tasks = []) then
                 result_text (py "You don't have any tasks yet.")
               else
                 result_text
                   (py "You have " ++ str_of_int (Z.of_nat (length tasks))
                    ++ py " tasks:" ++ newline
                    ++ join newline (task_line E <$> tasks)
                    ++ newline ++ newline ++ py "Summary: "
                    ++ fstr E pending_count ++ py " pending, "
                    ++ fstr E completed_count ++ py " completed")
             else failed E " Failed to retrieve tasks: " result)
    | None =>
        (error_executing (str_of_fault R (ValidationError "ListTasksRequest")), w)
    end
  else if is_tool tool_name "update_task" then
    by_task_id R d
      (λ task_position user_id w,
         match as_str E user_id,
               Server.optional_str E (default JNull (d !! "title")),
               Server.optional_str E (default JNull (d !! "description")) with
         | Some user_id, Some title, Some description =>
             awaited
               (Server.update_task_tool E
                  {| Server.upd_task_position := task_position;
                     Server.upd_user_id := user_id;
                     Server.upd_title := title;
                     Server.upd_description := description |} w)
               (λ result,
                  if truthy_opt (jget "success" result) then
                    result_text (check_mark ++ py " Task updated: "
                                 ++ task_title E result)
                  else failed E " Failed to update task: " result)
         | _, _, _ =>
             (error_executing
                (str_of_fault R (ValidationError "UpdateTaskRequest")), w)
         end) w
  else if is_tool tool_name "toggle_task_completion" then
    let completed := default (JBool true) (d !! "completed") in
    by_task_id R d
      (λ task_position user_id w,
         match as_str E user_id, as_bool E completed with
         | Some user_id, Some flag =>
             awaited
               (Server.complete_task_tool E
                  {| Server.cmp_task_position := task_position;
                     Server.cmp_user_id := user_id;
                     Server.cmp_completed := flag |} w)
               (λ result,
                  if truthy_opt (jget "success" result) then
                    result_text
                      (check_mark ++ py " Task "
                       ++ (if truthy completed then py "completed"
                           else py "marked as incomplete")
                       ++ py ": " ++ task_title E result)
                  else failed E " Failed to update task: " result)
         | _, _ =>
             (error_executing
                (str_of_fault R (ValidationError "CompleteTaskRequest")), w)
         end) w
  else if is_tool tool_name "delete_task" then
    by_task_id R d
      (λ task_position user_id w,
         match as_str E user_id with
         | Some user_id =>
             awaited
               (Server.delete_task_tool
                  {| Server.del_task_position := task_position;
                     Server.del_user_id := user_id |} w)
               (λ result,
                  if truthy_opt (jget "success" result) then
                    result_text (check_mark ++ py " Task deleted successfully!")
                  else failed E " Failed to delete task: " result)
         | None =>
             (error_executing
                (str_of_fault R (ValidationError "DeleteTaskRequest")), w)
         end) w
  else
    (JObj [("error", JStr (py "Unknown tool: " ++ fstr E tool_name));
           ("success", JBool false)], w).

Definition known_tool (tool_name : json) : bool :=
  is_tool tool_name "create_task" || is_tool tool_name "get_tasks"
  || is_tool tool_name "update_task"
  || is_tool tool_name "toggle_task_completion"
  || is_tool tool_name "delete_task".

(** [POST /api/execute_tool]: [tool_name] is [request.get("name")]
    ([JNull] when the key is missing). *)
Definition execute_tool (E : Env) (R : Runtime) (tool_name : json)
    (args : arguments) (w : World) : json * World :=
  match args with
  | NotJson => (error_executing (str_of_fault R JSONDecodeError), w)
  | NotObject =>
      if known_tool tool_name then
        (error_executing (str_of_fault R AttributeError), w)
      else
        (JObj [("error", JStr (py "Unknown tool: " ++ fstr E tool_name));
               ("success", JBool false)], w)
  | Object d => execute_object E R tool_name d w
  end.

(** A sample runtime: values that are no [str] are not bound. *)
Definition sample_runtime : Runtime :=
  {| str_of_fault := λ _, py "error";
     bind_text := λ v, match v with JStr s => Some s | _ => None end |}.

(** The runtime binds a [str] as it is. *)
Definition binds_str (R : Runtime) : Prop :=
  ∀ s, bind_text R (JStr s) = Some s.

(** The owner a request of [execute_tool] acts for: the request models
    accept the value of [user_id] as that owner. *)
Definition acts_for (E : Env) (args : arguments) (owner : pystr) : Prop :=
  ∃ d, args = Object d
       ∧ as_str E (default JNull (d !! "user_id")) = Some owner.

(** An answer of [execute_tool] that reports a change made. *)
Definition reports_done (answer : json) : Prop :=
  ∃ text, answer = result_text (check_mark ++ text).

(** The flag a [toggle_task_completion] request asks for: [True] when
    [completed] is missing. *)
Definition completed_flag (d : gmap string json) : option bool :=
  match d !! "completed" with
  | None => Some true
  | Some (JBool b) => Some b
  | Some _ => None
  end.

(** ** The conversations of [backend/api/chat.py] *)

(** The columns [chat.py] reads or writes of the [User], [Conversation]
    and [Message] models; the ids are [str]s, as the code compares them
    with the [str]s of the path.  A role is written from a literal of
    the source only. *)
Module User.
Record t := mk {
  id : pystr
}.
End User.

Module Conversation.
Record t := mk {
  id : pystr;
  user_id : pystr;
  created_at : Z
}.
End Conversation.

Module MessageRow.
Record t := mk {
  id : pystr;
  conversation_id : pystr;
  role : string;
  content : pystr;
  timestamp : Z
}.
End MessageRow.

Module Backend.

(** The settings of [core.config] that [chat.py] reads. *)
Record Settings := {
  openrouter_api_key : option pystr;
  openrouter_base_url : option pystr;
  groq_api_key : option pystr;
  openai_api_key : option pystr;
  openai_base_url : option pystr
}.

(** The keyword arguments [client_params] of [AsyncOpenAI]; [base_url]
    is [None] when the key is not in the dict. *)
Record ClientParams := {
  api_key : pystr;
  base_url : option pystr
}.

(** What the backend takes from outside: the payload [verify_token]
    finds in a token ([None]: the token is not valid), the n-th value
    of [str(uuid4())], the n-th reading of [datetime.utcnow()], and the
    text of the exception [AsyncOpenAI] raises for some parameters
    ([None]: the client is created). *)
Record Outside := {
  verify_token : pystr → option (gmap string json);
  uuid4 : nat → pystr;
  utcnow : nat → Z;
  client_error : ClientParams → option pystr
}.

(** The tables in the order a [select] without ordering clause returns
    their rows, and how many ids and clock readings have been drawn. *)
Record Database := {
  users : list User.t;
  conversations : list Conversation.t;
  messages : list MessageRow.t;
  uuids : nat;
  clock_reads : nat
}.

(** [s.startswith(prefix)] and [s.removeprefix(prefix)]. *)
Definition startswith (prefix s : pystr) : bool :=
  bool_decide (take (length prefix) s = prefix).

Definition removeprefix (prefix s : pystr) : pystr :=
  if startswith prefix s then drop (length prefix) s else s.

Definition invalid_credentials {A} : outcome A :=
  Raise 401 (py "Invalid authentication credentials").

(** [R] gives the text SQLite compares [User.id] with; an exception of
    the driver leaves the function as it is, and the framework answers
    500. *)
Definition get_current_user (O : Outside) (R : Runtime)
    (authorization : pystr) (db : Database) : outcome User.t :=
  if negb (startswith (py "Bearer ") authorization) then invalid_credentials
  else
    let token := removeprefix (py "Bearer ") authorization in
    match verify_token O token with
    | None => invalid_credentials
    | Some payload =>
        let user_id := payload !! "sub" in
        if negb (truthy_opt user_id) then invalid_credentials
        else
          match bind_text R (default JNull user_id) with
          | None => Raise 500 (py "Internal Server Error")
          | Some key =>
              match head (filter (λ user, User.id user = key) (users db)) with
              | None => Raise 401 (py "User not found")
              | Some user => Return user
              end
          end
    end.

(** Truth value of a setting. *)
Definition is_set (v : option pystr) : bool :=
  match v with
  | Some s => negb (falsy s)
  | None => false
  end.

Definition client_params (api_key : pystr) (base_url : option pystr)
    : ClientParams :=
  {| api_key := api_key;
     base_url := if is_set base_url then base_url else None |}.

Definition groq_url : pystr := py "https://api.groq.com/openai/v1".

(** The client is given by the parameters it is created with. *)
Definition get_openai_client (O : Outside) (S : Settings)
    : outcome ClientParams :=
  let create (provider_name : string) (api_key : option pystr)
             (base_url : option pystr) :=
    let client_params := client_params (default [] api_key) base_url in
    match client_error O client_params with
    | None => Return client_params
    | Some e =>
        Raise 500 (py "Failed to initialize " ++ py provider_name
                   ++ py " client: " ++ e)
    end in
  if is_set (openrouter_api_key S) then
    create "OpenRouter" (openrouter_api_key S) (openrouter_base_url S)
  else if is_set (groq_api_key S) then
    create "Groq" (groq_api_key S)
           (Some (or_text (openai_base_url S) groq_url))
  else if is_set (openai_api_key S) then
    create "OpenAI" (openai_api_key S) (openai_base_url S)
  else
    Raise 500 (py "API key not configured (OPENROUTER_API_KEY, GROQ_API_KEY, or OPENAI_API_KEY)").

(** Step 7 of [chat_endpoint]: the model asked, [MODEL_NAME] being the
    environment variable of that name. *)
Definition model_name (S : Settings) (MODEL_NAME : option pystr) : pystr :=
  if is_set (openrouter_api_key S) then
    default (py "openai/gpt-4o-mini") MODEL_NAME
  else if is_set (groq_api_key S) then
    default (py "llama3-8b-8192") MODEL_NAME
  else
    default (py "gpt-4-turbo-preview") MODEL_NAME.

(** [order_by(column)]: the rows by ascending [column].  Rows of equal
    [column], which a database may return in any order, keep the order
    of the scan. *)
Fixpoint insert_by {A} (column : A → Z) (row : A) (rows : list A) : list A :=
  match rows with
  | [] => [row]
  | row' :: rest =>
      if decide (column row ≤ column row') then row :: rows
      else row' :: insert_by column row rest
  end.

Definition order_by {A} (column : A → Z) (rows : list A) : list A :=
  foldr (insert_by column) [] rows.

(** [order_by(column.desc())]. *)
Definition order_by_desc {A} (column : A → Z) (rows : list A) : list A :=
  order_by (λ row, - column row) rows.

(** [select(Message).where(Message.conversation_id == conversation_id)
    .order_by(Message.timestamp)]. *)
Definition select_messages (conversation_id : pystr) (db : Database)
    : list MessageRow.t :=
  order_by MessageRow.timestamp
    (filter (λ msg, MessageRow.conversation_id msg = conversation_id)
            (messages db)).

Definition reconstruct_conversation_history (conversation_id : pystr)
    (db : Database) : list Message :=
  match head (filter (λ c, Conversation.id c = conversation_id)
                     (conversations db)) with
  | None => []
  | Some conversation =>
      (λ msg, Text (MessageRow.role msg) (Some (MessageRow.content msg)))
        <$> select_messages conversation_id db
  end.

Definition save_message_to_db (O : Outside) (conversation_id : pystr)
    (role : string) (content : pystr) (db : Database)
    : MessageRow.t * Database :=
  let message :=
    {| MessageRow.id := uuid4 O (uuids db);
       MessageRow.conversation_id := conversation_id;
       MessageRow.role := role;
       MessageRow.content := content;
       MessageRow.timestamp := utcnow O (clock_reads db) |} in
  (message,
   {| users := users db;
      conversations := conversations db;
      messages := messages db ++ [message];
      uuids := S (uuids db);
      clock_reads := S (clock_reads db) |}).

(** Step 1 of [chat_endpoint]: find or create a conversation of the
    user. *)
Definition find_or_create (O : Outside) (user_id : pystr) (db : Database)
    : Conversation.t * Database :=
  match head (filter (λ c, Conversation.user_id c = user_id)
                     (conversations db)) with
  | Some conversation => (conversation, db)
  | None =>
      let conversation :=
        {| Conversation.id := uuid4 O (uuids db);
           Conversation.user_id := user_id;
           Conversation.created_at := utcnow O (clock_reads db) |} in
      (conversation,
       {| users := users db;
          conversations := conversations db ++ [conversation];
          messages := messages db;
          uuids := S (uuids db);
          clock_reads := S (clock_reads db) |})
  end.

(** What [chat_endpoint] has prepared when it asks the model. *)
Record Prepared := {
  conversation_id : pystr;
  client : ClientParams;
  first_messages : list Message
}.

(** Step 0 to 6 of [chat_endpoint]: the check of the path, the
    conversation, the user's message saved, the history, the client and
    the messages for the first completion.  [system_instructions] is
    the text of step 5.  The 403 is raised before the [try] block; what
    [get_openai_client] raises is caught by the handler that closes the
    block. *)
Definition chat_endpoint (O : Outside) (S : Settings)
    (system_instructions : pystr) (user_id message : pystr)
    (current_user : User.t) (db : Database) : outcome Prepared * Database :=
  if bool_decide (User.id current_user ≠ user_id) then
    (Raise 403 (py "Not authorized to access this user's conversations"), db)
  else
    let '(conversation, db) := find_or_create O user_id db in
    let conversation_id := Conversation.id conversation in
    let db := (save_message_to_db O conversation_id "user" message db).2 in
    let history := reconstruct_conversation_history conversation_id db in
    match get_openai_client O S with
    | Raise status_code detail =>
        (Raise 500 (py "Error processing chat request: "
                    ++ str_of_exc status_code detail), db)
    | Return openai_client =>
        let messages :=
          [Text "system" (Some system_instructions)] ++ history
          ++ [Text "user" (Some message)] in
        (Return {| conversation_id := conversation_id;
                   client := openai_client;
                   first_messages := messages |}, db)
    end.

(** The rows are returned with the columns they have. *)
Definition get_user_conversations (user_id : pystr) (current_user : User.t)
    (db : Database) : outcome (list Conversation.t) :=
  if bool_decide (User.id current_user ≠ user_id) then
    Raise 403 (py "Not authorized")
  else
    Return (order_by_desc Conversation.created_at
              (filter (λ c, Conversation.user_id c = user_id)
                      (conversations db))).

Definition get_conversation_history (user_id conversation_id : pystr)
    (current_user : User.t) (db : Database) : outcome (list MessageRow.t) :=
  if bool_decide (User.id current_user ≠ user_id) then
    Raise 403 (py "Not authorized")
  else
    match head (filter (λ c, Conversation.user_id c = user_id)
                  (filter (λ c, Conversation.id c = conversation_id)
                          (conversations db))) with
    | None => Raise 404 (py "Conversation not found")
    | Some conversation => Return (select_messages conversation_id db)
    end.

End Backend.

(** A sample backend: tokens [tok-<user>] are valid for [<user>], ids
    are [id-0], [id-1], ..., the clock ticks once per reading and every
    client is created. *)
Module SampleBackend.

Definition outside : Backend.Outside :=
  {| Backend.verify_token := λ token,
       if Backend.startswith (py "tok-") token then
         Some {[ "sub" := JStr (Backend.removeprefix (py "tok-") token) ]}
       else None;
     Backend.uuid4 := λ n, py "id-" ++ str_of_int (Z.of_nat n);
     Backend.utcnow := λ n, 2000 + Z.of_nat n;
     Backend.client_error := λ _, None |}.

Definition groq_only : Backend.Settings :=
  {| Backend.openrouter_api_key := None;
     Backend.openrouter_base_url := Some (py "https://openrouter.ai/api/v1");
     Backend.groq_api_key := Some (py "gsk");
     Backend.openai_api_key := Some (py "sk");
     Backend.openai_base_url := None |}.

Definition no_key : Backend.Settings :=
  {| Backend.openrouter_api_key := None;
     Backend.openrouter_base_url := None;
     Backend.groq_api_key := Some [];
     Backend.openai_api_key := None;
     Backend.openai_base_url := None |}.

Definition registered : Backend.Database :=
  {| Backend.users := [User.mk Sample.alice; User.mk Sample.bob];
     Backend.conversations := [];
     Backend.messages := [];
     Backend.uuids := 0;
     Backend.clock_reads := 0 |}.

(** One prepared turn of [user_id] saying [text]. *)
Definition says (user_id : pystr) (text : string) (db : Backend.Database)
    : Backend.Database :=
  (Backend.chat_endpoint outside groq_only (py "...") user_id (py text)
     (User.mk user_id) db).2.

(** Alice says hello, Bob says hi, Alice says bye. *)
Definition hello : Backend.Database := says Sample.alice "hello" registered.
Definition hello_hi : Backend.Database := says Sample.bob "hi" hello.
Definition talked : Backend.Database := says Sample.alice "bye" hello_hi.

(** What is prepared for a turn saying [text] in the conversation
    [id-0] whose stored user messages are [history]. *)
Definition prepared (text : string) (history : list string)
    : Backend.Prepared :=
  {| Backend.conversation_id := py "id-0";
     Backend.client :=
       {| Backend.api_key := py "gsk";
          Backend.base_url := Some Backend.groq_url |};
     Backend.first_messages :=
       [Text "system" (Some (py "..."))]
       ++ ((λ said, Text "user" (Some (py said))) <$> history)
       ++ [Text "user" (Some (py text))] |}.

End SampleBackend.

(** The message table lists its rows by strictly ascending timestamp,
    and the next reading of the clock is later than all of them. *)
Definition in_saving_order (db : Backend.Database) : Prop :=
  StronglySorted (λ a b, MessageRow.timestamp a < MessageRow.timestamp b)
                 (Backend.messages db).

Definition clock_ahead (O : Backend.Outside) (db : Backend.Database) : Prop :=
  ∀ msg, msg ∈ Backend.messages db →
         MessageRow.timestamp msg < Backend.utcnow O (Backend.clock_reads db).

Definition has_conversation (conversation_id : pystr)
    (db : Backend.Database) : Prop :=
  ∃ c, c ∈ Backend.conversations db ∧ Conversation.id c = conversation_id.

(** The conversations of a user. *)
Definition conversations_of (user_id : pystr) (db : Backend.Database)
    : list Conversation.t :=
  filter (λ c, Conversation.user_id c = user_id) (Backend.conversations db).

(** The row [chat_endpoint] saves for the user's message. *)
Definition user_row (conversation_id message : pystr)
    (row : MessageRow.t) : Prop :=
  MessageRow.conversation_id row = conversation_id
  ∧ MessageRow.role row = "user"
  ∧ MessageRow.content row = message.
#[local] Arguments py : simpl never.
#[local] Arguments str_of_int : simpl never.

(** ** Position lookup *)

Section Lookup.
Context (user_id : pystr) (w : World).

Lemma task_at_in_range (k : Z) :
  1 ≤ k ≤ Z.of_nat (length (Server.select_tasks user_id w)) →
  ∃ task, Server.select_tasks user_id w !! Z.to_nat (k - 1) = Some task
          ∧ Server.task_at user_id k w = Return task.
Proof.
  intros Hk. unfold Server.task_at.
  rewrite bool_decide_eq_false_2 by lia.
  destruct (lookup_lt_is_Some_2 (Server.select_tasks user_id w)
              (Z.to_nat (k - 1))) as [task Htask]; [lia|].
  exists task. by rewrite Htask.
Qed.

Lemma task_at_out_of_range (k : Z) :
  ¬ (1 ≤ k ≤ Z.of_nat (length (Server.select_tasks user_id w))) →
  Server.task_at user_id k w = Raise 404 (Server.not_found k).
Proof.
  intros Hk. unfold Server.task_at.
  by rewrite bool_decide_eq_true_2 by lia.
Qed.

Lemma get_task_by_position_task_at (k : Z) :
  Server.get_task_by_position user_id k w
  = match Server.task_at user_id k w with
    | Return task => Return (task, k - 1)
    | Raise status_code detail => Raise status_code detail
    end.
Proof.
  unfold Server.get_task_by_position, Server.task_at.
  case_bool_decide; [done|]. by destruct (_ !! _).
Qed.

End Lookup.

Lemma falsy_false (s : pystr) : s ≠ [] → falsy s = false.
Proof. intros. unfold falsy. by apply bool_decide_eq_false_2. Qed.

Lemma falsy_true (s : pystr) : falsy s = true ↔ s = [].
Proof. unfold falsy. apply bool_decide_eq_true. Qed.

Lemma delete_task_tool_in_range (user_id : pystr) (k : Z) (w : World) :
  user_id ≠ [] →
  1 ≤ k ≤ Z.of_nat (length (Server.select_tasks user_id w)) →
  ∃ task, Server.select_tasks user_id w !! Z.to_nat (k - 1) = Some task
    ∧ Server.delete_task_tool
        {| Server.del_task_position := k; Server.del_user_id := user_id |} w
      = (Return (Server.deleted_message k), Server.delete_row task w).
Proof.
  intros Hu Hk. destruct (task_at_in_range user_id w k Hk) as (task & Ht & Hat).
  exists task. split; [done|].
  unfold Server.delete_task_tool. cbn [Server.del_user_id Server.del_task_position].
  by rewrite falsy_false, Hat.
Qed.

Lemma delete_task_tool_out_of_range (user_id : pystr) (k : Z) (w : World) :
  user_id ≠ [] →
  ¬ (1 ≤ k ≤ Z.of_nat (length (Server.select_tasks user_id w))) →
  Server.delete_task_tool
    {| Server.del_task_position := k; Server.del_user_id := user_id |} w
  = (caught_not_found "Error deleting task: " k, w).
Proof.
  intros Hu Hk. unfold Server.delete_task_tool.
  cbn [Server.del_user_id Server.del_task_position].
  by rewrite falsy_false, task_at_out_of_range.
Qed.

Lemma complete_task_tool_in_range (E : Env) (user_id : pystr) (k : Z)
    (completed : bool) (w : World) :
  user_id ≠ [] →
  1 ≤ k ≤ Z.of_nat (length (Server.select_tasks user_id w)) →
  ∃ task, Server.select_tasks user_id w !! Z.to_nat (k - 1) = Some task
    ∧ Server.complete_task_tool E
        {| Server.cmp_task_position := k; Server.cmp_user_id := user_id;
           Server.cmp_completed := completed |} w
      = (Return (Server.success_task (completed_row E completed task w)),
         Server.update_row (completed_row E completed task w)
           (Server.read_clock E w).2).
Proof.
  intros Hu Hk. destruct (task_at_in_range user_id w k Hk) as (task & Ht & Hat).
  exists task. split; [done|].
  unfold Server.complete_task_tool.
  cbn [Server.cmp_user_id Server.cmp_task_position Server.cmp_completed].
  by rewrite falsy_false, Hat.
Qed.

Lemma complete_task_tool_out_of_range (E : Env) (user_id : pystr) (k : Z)
    (completed : bool) (w : World) :
  user_id ≠ [] →
  ¬ (1 ≤ k ≤ Z.of_nat (length (Server.select_tasks user_id w))) →
  Server.complete_task_tool E
    {| Server.cmp_task_position := k; Server.cmp_user_id := user_id;
       Server.cmp_completed := completed |} w
  = (caught_not_found "Error updating task completion: " k, w).
Proof.
  intros Hu Hk. unfold Server.complete_task_tool.
  cbn [Server.cmp_user_id Server.cmp_task_position].
  by rewrite falsy_false, task_at_out_of_range.
Qed.

Lemma update_task_tool_in_range (E : Env) (user_id : pystr) (k : Z)
    (title description : option pystr) (w : World) :
  user_id ≠ [] → some_field title description →
  1 ≤ k ≤ Z.of_nat (length (Server.select_tasks user_id w)) →
  ∃ task, Server.select_tasks user_id w !! Z.to_nat (k - 1) = Some task
    ∧ Server.update_task_tool E
        {| Server.upd_task_position := k; Server.upd_user_id := user_id;
           Server.upd_title := title;
           Server.upd_description := description |} w
      = (Return (Server.success_task (updated_row E title description task w)),
         Server.update_row (updated_row E title description task w)
           (Server.read_clock E w).2).
Proof.
  intros Hu Hf Hk.
  destruct (task_at_in_range user_id w k Hk) as (task & Ht & Hat).
  exists task. split; [done|].
  unfold Server.update_task_tool.
  cbn [Server.upd_user_id Server.upd_task_position Server.upd_title
       Server.upd_description].
  rewrite falsy_false by done.
  rewrite bool_decide_eq_false_2 by (intros [? ?]; by destruct Hf).
  rewrite Hat. unfold updated_row.
  by destruct title, description.
Qed.

Lemma update_task_tool_out_of_range (E : Env) (user_id : pystr) (k : Z)
    (title description : option pystr) (w : World) :
  user_id ≠ [] → some_field title description →
  ¬ (1 ≤ k ≤ Z.of_nat (length (Server.select_tasks user_id w))) →
  Server.update_task_tool E
    {| Server.upd_task_position := k; Server.upd_user_id := user_id;
       Server.upd_title := title; Server.upd_description := description |} w
  = (caught_not_found "Error updating task: " k, w).
Proof.
  intros Hu Hf Hk. unfold Server.update_task_tool.
  cbn [Server.upd_user_id Server.upd_task_position Server.upd_title
       Server.upd_description].
  rewrite falsy_false by done.
  rewrite bool_decide_eq_false_2 by (intros [? ?]; by destruct Hf).
  by rewrite task_at_out_of_range.
Qed.

(** C3.  For an owner whose fresh scan holds [N] tasks and every integer
    [k], [get_task_by_position] returns the task of rank [k] of that
    scan (with its index [k - 1]) when [1 ≤ k ≤ N], and raises the 404
    "not found" exactly when [k < 1] or [k > N], hence for every [k]
    when [N = 0].  The same range check decides [update_task_tool],
    [complete_task_tool] and [delete_task_tool]: for a non-empty owner
    (and an update that names a field) each succeeds on the task of rank
    [k] exactly when [1 ≤ k ≤ N]; out of range it changes nothing and
    raises the 404 of the check, which reaches the client wrapped by the
    handler of the [try] block. *)
Theorem position_lookup_range (E : Env) (user_id : pystr) (k : Z) (w : World) :
  let scan := Server.get_user_tasks user_id w in
  let N := Z.of_nat (length scan) in
  (1 ≤ k ≤ N →
     ∃ task, scan !! Z.to_nat (k - 1) = Some task
       ∧ Server.get_task_by_position user_id k w = Return (task, k - 1))
  ∧ (Server.get_task_by_position user_id k w = Raise 404 (Server.not_found k)
       ↔ k < 1 ∨ k > N)
  ∧ (N = 0 →
       Server.get_task_by_position user_id k w = Raise 404 (Server.not_found k))
  ∧ (user_id ≠ [] →
     (∀ title description, some_field title description →
        let r := Server.update_task_tool E
                   {| Server.upd_task_position := k;
                      Server.upd_user_id := user_id;
                      Server.upd_title := title;
                      Server.upd_description := description |} w in
        (succeeded r.1 = true ↔ 1 ≤ k ≤ N)
        ∧ (k < 1 ∨ k > N → r = (caught_not_found "Error updating task: " k, w)))
     ∧ (∀ completed,
        let r := Server.complete_task_tool E
                   {| Server.cmp_task_position := k;
                      Server.cmp_user_id := user_id;
                      Server.cmp_completed := completed |} w in
        (succeeded r.1 = true ↔ 1 ≤ k ≤ N)
        ∧ (k < 1 ∨ k > N →
             r = (caught_not_found "Error updating task completion: " k, w)))
     ∧ (let r := Server.delete_task_tool
                   {| Server.del_task_position := k;
                      Server.del_user_id := user_id |} w in
        (succeeded r.1 = true ↔ 1 ≤ k ≤ N)
        ∧ (k < 1 ∨ k > N → r = (caught_not_found "Error deleting task: " k, w)))).
Proof.
  intros scan N. subst scan N. unfold Server.get_user_tasks.
  set (N := Z.of_nat (length (Server.select_tasks user_id w))).
  assert (Hget_out : ¬ (1 ≤ k ≤ N) →
            Server.get_task_by_position user_id k w
            = Raise 404 (Server.not_found k)).
  { intros Hk. rewrite get_task_by_position_task_at.
    by rewrite task_at_out_of_range. }
  assert (Hget_in : 1 ≤ k ≤ N →
            ∃ task, Server.select_tasks user_id w !! Z.to_nat (k - 1) = Some task
              ∧ Server.get_task_by_position user_id k w = Return (task, k - 1)).
  { intros Hk. destruct (task_at_in_range user_id w k Hk) as (task & Ht & Hat).
    exists task. split; [done|].
    by rewrite get_task_by_position_task_at, Hat. }
  split; [done|]. split.
  { split; [|intros; apply Hget_out; lia].
    intros Hr. destruct (decide (1 ≤ k ≤ N)) as [Hk|Hk]; [|lia].
    destruct (Hget_in Hk) as (task & _ & Heq). congruence. }
  split; [intros HN; apply Hget_out; lia|].
  intros Hu. split; [|split].
  - intros title description Hf. split.
    + split.
      * intros Hs. destruct (decide (1 ≤ k ≤ N)) as [Hk|Hk]; [done|].
        rewrite (update_task_tool_out_of_range E user_id k title description w)
          in Hs by done. done.
      * intros Hk.
        destruct (update_task_tool_in_range E user_id k title description w)
          as (task & _ & ->); done.
    + intros Hk. apply update_task_tool_out_of_range; [done..|]. fold N. lia.
  - intros completed. split.
    + split.
      * intros Hs. destruct (decide (1 ≤ k ≤ N)) as [Hk|Hk]; [done|].
        rewrite (complete_task_tool_out_of_range E user_id k completed w)
          in Hs by done. done.
      * intros Hk.
        destruct (complete_task_tool_in_range E user_id k completed w)
          as (task & _ & ->); done.
    + intros Hk. apply complete_task_tool_out_of_range; [done|]. fold N. lia.
  - split.
    + split.
      * intros Hs. destruct (decide (1 ≤ k ≤ N)) as [Hk|Hk]; [done|].
        rewrite (delete_task_tool_out_of_range user_id k w) in Hs by done.
        done.
      * intros Hk.
        destruct (delete_task_tool_in_range user_id k w)
          as (task & _ & ->); done.
    + intros Hk. apply delete_task_tool_out_of_range; [done|]. fold N. lia.
Qed.


Lemma position_lookup_range_witness :
  1 ≤ 2 ≤ 3 ∧ Sample.alice ≠ []
  ∧ (∃ task,
       Server.get_user_tasks Sample.alice Sample.abc !! Z.to_nat (2 - 1)
       = Some task
       ∧ Server.get_task_by_position Sample.alice 2 Sample.abc
         = Return (task, 2 - 1))
  ∧ succeeded
      (Server.delete_task_tool
         {| Server.del_task_position := 2;
            Server.del_user_id := Sample.alice |} Sample.abc).1 = true
  ∧ Server.delete_task_tool
      {| Server.del_task_position := 4;
         Server.del_user_id := Sample.alice |} Sample.abc
    = (caught_not_found "Error deleting task: " 4, Sample.abc).
Proof.
  assert (Hk : 1 ≤ 2 ≤ 3) by lia.
  assert (Hu : Sample.alice ≠ []) by (intros H; vm_compute in H; discriminate H).
  split; [exact Hk|]. split; [exact Hu|].
  destruct (position_lookup_range Sample.env Sample.alice 2 Sample.abc)
    as (Hin & _ & _ & Htools).
  destruct (position_lookup_range Sample.env Sample.alice 4 Sample.abc)
    as (_ & _ & _ & Htools4).
  split; [exact (Hin Hk)|]. split.
  - exact (proj2 (proj1 (proj2 (proj2 (Htools Hu)))) Hk).
  - apply (proj2 (proj2 (proj2 (Htools4 Hu)))). right.
    vm_compute. reflexivity.
Defined.

(** ** Adding a task *)

Lemma lstrip_nil (s : pystr) :
  lstrip s = [] ↔ Forall (λ c, isspace c = true) s.
Proof.
  induction s as [|c s IH]; simpl; [by split|].
  destruct (isspace c) eqn:Hc.
  - rewrite IH. split; [by constructor|]. by inversion 1.
  - split; [done|]. inversion 1; congruence.
Qed.

Lemma lstrip_head (s : pystr) (c : N) (r : pystr) :
  lstrip s = c :: r → isspace c = false.
Proof.
  induction s as [|c' s IH]; simpl; [done|].
  destruct (isspace c') eqn:Hc; [done|]. congruence.
Qed.

(** A title is blank for [add_task_tool] exactly when all its
    characters are whitespace. *)
Lemma strip_nil (s : pystr) :
  strip s = [] ↔ Forall (λ c, isspace c = true) s.
Proof.
  unfold strip, rstrip. rewrite <- lstrip_nil.
  split.
  - intros H. apply (f_equal reverse) in H. rewrite reverse_involutive in H.
    simpl in H. apply lstrip_nil in H. rewrite Forall_reverse in H.
    destruct (lstrip s) as [|c r] eqn:Hs; [done|].
    apply lstrip_head in Hs. inversion H; congruence.
  - by intros ->.
Qed.

Lemma add_task_tool_rejects (E : Env) (request : Server.AddTaskRequest)
    (w : World) :
  invalid_add request →
  ∃ detail, Server.add_task_tool E request w = (Raise 400 detail, w).
Proof.
  unfold invalid_add, Server.add_task_tool. intros Hbad.
  destruct (falsy (Server.add_title request)) eqn:H1; simpl; [by eexists|].
  destruct (falsy (strip (Server.add_title request))) eqn:H2; simpl;
    [by eexists|].
  destruct (falsy (Server.add_user_id request)) eqn:H3; simpl; [by eexists|].
  exfalso. destruct Hbad as [H|[H|H]]; apply falsy_true in H; congruence.
Qed.

Lemma add_task_tool_accepts (E : Env) (request : Server.AddTaskRequest)
    (w : World) :
  ¬ invalid_add request →
  Server.add_task_tool E request w
  = (Return (Server.success_task (new_row E request w)), after_add E request w).
Proof.
  unfold invalid_add, Server.add_task_tool. intros Hok.
  rewrite !falsy_false by tauto. done.
Qed.

Lemma parse_add_missing (E : Env) (body : gmap string json) :
  body !! "title" = None ∨ body !! "user_id" = None →
  Server.parse_add E body = None.
Proof.
  unfold Server.parse_add, Server.field. intros [H|H]; rewrite H; [done|].
  destruct (body !! "title") as [v|]; [|done].
  destruct (as_str E v); [|done]. simpl.
  destruct (body !! "description") as [v'|]; [|done].
  by destruct (as_str E v').
Qed.

(** C7.  [add_task_tool] raises the 400 validation error and leaves the
    table (and the whole store) as it was whenever the title is empty or
    blank after [strip], or the owner is empty; a request body without
    a title or without an owner is rejected before the tool runs, with
    the store as it was.  On every other request the tool succeeds, and
    the table afterwards is the old one followed by exactly one new row,
    which is not completed and carries the request's owner. *)
Theorem add_task_validation (E : Env) (request : Server.AddTaskRequest)
    (w : World) :
  (invalid_add request →
     ∃ detail, Server.add_task_tool E request w = (Raise 400 detail, w))
  ∧ (∀ body, body !! "title" = None ∨ body !! "user_id" = None →
       Server.handle E "add_task" body w
       = ((422, JObj [("detail", validation_detail E "add_task" body)]), w))
  ∧ (¬ invalid_add request →
     ∃ task w',
       Server.add_task_tool E request w = (Return (Server.success_task task), w')
       ∧ tasks w' = tasks w ++ [task]
       ∧ Task.completed task = false
       ∧ Task.user_id task = Server.add_user_id request).
Proof.
  split; [apply add_task_tool_rejects|]. split.
  - intros body Hmissing. unfold Server.handle.
    rewrite decide_True by done. by rewrite parse_add_missing.
  - intros Hok. exists (new_row E request w), (after_add E request w).
    by rewrite add_task_tool_accepts.
Qed.

Lemma add_task_validation_witness :
  let blank := {| Server.add_title := py "   ";
                  Server.add_description := [];
                  Server.add_user_id := Sample.alice |} in
  let milk := {| Server.add_title := py "Buy milk";
                 Server.add_description := [];
                 Server.add_user_id := Sample.alice |} in
  invalid_add blank ∧ ¬ invalid_add milk
  ∧ (∃ detail, Server.add_task_tool Sample.env blank Sample.abc
               = (Raise 400 detail, Sample.abc))
  ∧ (∃ task w',
       Server.add_task_tool Sample.env milk Sample.abc
       = (Return (Server.success_task task), w')
       ∧ tasks w' = tasks Sample.abc ++ [task]
       ∧ Task.completed task = false
       ∧ Task.user_id task = Sample.alice).
Proof.
  intros blank milk.
  assert (Hblank : invalid_add blank) by (right; left; reflexivity).
  assert (Hmilk : ¬ invalid_add milk).
  { intros [H|[H|H]]; vm_compute in H; discriminate H. }
  split; [exact Hblank|]. split; [exact Hmilk|].
  split.
  - exact (proj1 (add_task_validation Sample.env blank Sample.abc) Hblank).
  - exact (proj2 (proj2 (add_task_validation Sample.env milk Sample.abc)) Hmilk).
Defined.

(** C10.  For a request whose title is not blank after [strip] (and whose
    owner is given, so that a row is stored), the title of the stored row
    is the title of the request as supplied, surrounding whitespace
    included: [strip] is applied in the validation only. *)
Theorem add_task_keeps_title (E : Env) (request : Server.AddTaskRequest)
    (w : World) :
  strip (Server.add_title request) ≠ [] →
  Server.add_user_id request ≠ [] →
  ∃ task w',
    Server.add_task_tool E request w = (Return (Server.success_task task), w')
    ∧ tasks w' = tasks w ++ [task]
    ∧ Task.title task = Server.add_title request.
Proof.
  intros Ht Hu. exists (new_row E request w), (after_add E request w).
  rewrite add_task_tool_accepts; [done|].
  intros [H|[H|H]]; [|done..]. by rewrite H in Ht.
Qed.

Lemma add_task_keeps_title_witness :
  let request := {| Server.add_title := py " Buy milk ";
                    Server.add_description := [];
                    Server.add_user_id := Sample.alice |} in
  strip (Server.add_title request) ≠ []
  ∧ Server.add_user_id request ≠ []
  ∧ ∃ task w',
      Server.add_task_tool Sample.env request Sample.empty
      = (Return (Server.success_task task), w')
      ∧ tasks w' = tasks Sample.empty ++ [task]
      ∧ Task.title task = py " Buy milk ".
Proof.
  intros request.
  assert (Ht : strip (Server.add_title request) ≠ [])
    by (intros H; vm_compute in H; discriminate H).
  assert (Hu : Server.add_user_id request ≠ [])
    by (intros H; vm_compute in H; discriminate H).
  split; [exact Ht|]. split; [exact Hu|].
  exact (add_task_keeps_title Sample.env request Sample.empty Ht Hu).
Defined.

(** ** Updating a task *)

Lemma update_row_insert (l : list Task.t) (i : nat) (task task' : Task.t)
    (key : pystr) :
  NoDup (Task.id <$> l) → l !! i = Some task → key = Task.id task →
  (λ r, if decide (Task.id r = key) then task' else r) <$> l
  = <[i := task']> l.
Proof.
  intros Hnd Hi ->. apply list_eq. intros j.
  rewrite list_lookup_fmap. destruct (decide (i = j)) as [<-|Hij].
  - rewrite list_lookup_insert_eq by (by eapply lookup_lt_Some).
    rewrite Hi. simpl. by rewrite decide_True.
  - rewrite list_lookup_insert_ne by done.
    destruct (l !! j) as [r|] eqn:Hj; [|done]. simpl.
    case_decide as Hr; [|done]. exfalso. apply Hij.
    eapply (NoDup_lookup _ i j (Task.id task)); [done|..];
      rewrite list_lookup_fmap.
    + by rewrite Hi.
    + rewrite Hj. simpl. congruence.
Qed.

Lemma select_tasks_lookup (user_id : pystr) (w : World) (j : nat)
    (task : Task.t) :
  Server.select_tasks user_id w !! j = Some task →
  Task.user_id task = user_id ∧ ∃ i, tasks w !! i = Some task.
Proof.
  intros Hj. apply list_elem_of_lookup_2 in Hj.
  apply list_elem_of_filter in Hj as [Hu Hin].
  split; [done|]. by apply list_elem_of_lookup_1.
Qed.

(** C8.  [update_task_tool] called with neither a title nor a
    description raises the 400 validation error and returns the store
    as it was: no row, no field and no timestamp changes.  Called with
    at least one of them, for a non-empty owner and a position in range
    (on a table with a primary key), it rewrites the row of the task at
    that position and no other: the fields given are set, the title or
    description not given and the id, completion flag, owner and creation
    time are kept, and [updated_at] is the clock reading of the call. *)
Theorem update_task_fields (E : Env) (user_id : pystr) (k : Z) (w : World) :
  (∃ detail,
     Server.update_task_tool E
       {| Server.upd_task_position := k; Server.upd_user_id := user_id;
          Server.upd_title := None; Server.upd_description := None |} w
     = (Raise 400 detail, w))
  ∧ (∀ title description,
       some_field title description → user_id ≠ [] → primary_key w →
       1 ≤ k ≤ Z.of_nat (length (Server.get_user_tasks user_id w)) →
       ∃ task i,
         Server.get_user_tasks user_id w !! Z.to_nat (k - 1) = Some task
         ∧ tasks w !! i = Some task
         ∧ Server.update_task_tool E
             {| Server.upd_task_position := k; Server.upd_user_id := user_id;
                Server.upd_title := title;
                Server.upd_description := description |} w
           = (Return (Server.success_task (updated_row E title description task w)),
              row_replaced i (updated_row E title description task w) w)
         ∧ updated_row E title description task w
           = Task.mk (Task.id task)
               (match title with Some s => s | None => Task.title task end)
               (match description with
                | Some s => s
                | None => Task.description task
                end)
               (Task.completed task) (Task.user_id task)
               (Task.created_at task) (utcnow E (clock_reads w))).
Proof.
  split.
  - unfold Server.update_task_tool. simpl.
    destruct (falsy user_id); by eexists.
  - intros title description Hf Hu Hpk Hk.
    destruct (update_task_tool_in_range E user_id k title description w
                Hu Hf Hk) as (task & Ht & ->).
    destruct (select_tasks_lookup _ _ _ _ Ht) as [_ [i Hi]].
    exists task, i. split; [done|]. split; [done|]. split.
    + f_equal. unfold Server.update_row, row_replaced. simpl. f_equal.
      by apply (update_row_insert _ i task).
    + unfold updated_row. by destruct title, description.
Qed.

Lemma update_task_fields_witness :
  some_field (Some (py "Buy oat milk")) None
  ∧ Sample.alice ≠ [] ∧ primary_key Sample.abc
  ∧ 1 ≤ 2 ≤ Z.of_nat (length (Server.get_user_tasks Sample.alice Sample.abc))
  ∧ ∃ task i,
      Server.get_user_tasks Sample.alice Sample.abc !! Z.to_nat (2 - 1)
      = Some task
      ∧ tasks Sample.abc !! i = Some task
      ∧ Server.update_task_tool Sample.env
          {| Server.upd_task_position := 2;
             Server.upd_user_id := Sample.alice;
             Server.upd_title := Some (py "Buy oat milk");
             Server.upd_description := None |} Sample.abc
        = (Return (Server.success_task
                     (updated_row Sample.env (Some (py "Buy oat milk")) None
                        task Sample.abc)),
           row_replaced i
             (updated_row Sample.env (Some (py "Buy oat milk")) None
                task Sample.abc) Sample.abc)
      ∧ updated_row Sample.env (Some (py "Buy oat milk")) None task Sample.abc
        = Task.mk (Task.id task) (py "Buy oat milk") (Task.description task)
            (Task.completed task) (Task.user_id task) (Task.created_at task)
            (utcnow Sample.env (clock_reads Sample.abc)).
Proof.
  assert (Hf : some_field (Some (py "Buy oat milk")) None)
    by (left; discriminate).
  assert (Hu : Sample.alice ≠ []) by (intros H; vm_compute in H; discriminate H).
  assert (Hpk : primary_key Sample.abc) by compute_done.
  assert (Hk : 1 ≤ 2 ≤ Z.of_nat (length (Server.get_user_tasks Sample.alice
                                            Sample.abc)))
    by (vm_compute; split; discriminate).
  split; [exact Hf|]. split; [exact Hu|]. split; [exact Hpk|].
  split; [exact Hk|].
  exact (proj2 (update_task_fields Sample.env Sample.alice 2 Sample.abc)
           (Some (py "Buy oat milk")) None Hf Hu Hpk Hk).
Defined.

(** ** Listing tasks *)

Lemma foldl_separate (items : list (Z * Task.t)) (pending completed : list json) :
  foldl Server.separate (pending, completed) items
  = (pending ++ (as_task_data <$> filter is_pending items),
     completed ++ (as_task_data <$> filter is_completed items)).
Proof.
  revert pending completed.
  induction items as [|[idx task] items IH]; intros pending completed.
  - simpl. by rewrite !app_nil_r.
  - rewrite !filter_cons. cbn [foldl Server.separate].
    destruct (decide (is_pending (idx, task))) as [Hp|Hp];
      destruct (decide (is_completed (idx, task))) as [Hc|Hc];
      unfold is_pending, is_completed in Hp, Hc; simpl in Hp, Hc.
    + congruence.
    + rewrite Hp, IH, fmap_cons, <- app_assoc. done.
    + rewrite Hc, IH, fmap_cons, <- app_assoc. done.
    + by destruct (Task.completed task).
Qed.

Lemma length_enumerate {A} (start : Z) (l : list A) :
  length (Server.enumerate start l) = length l.
Proof. revert start. induction l; intros; simpl; [done|]. by rewrite IHl. Qed.

Lemma enumerate_lookup {A} (start : Z) (l : list A) (i : nat) :
  Server.enumerate start l !! i
  = (λ x, (start + Z.of_nat i, x)) <$> l !! i.
Proof.
  revert start i. induction l as [|x l IH]; intros start [|i]; simpl; try done.
  - by rewrite Z.add_0_r.
  - rewrite IH. destruct (l !! i); simpl; [|done]. do 2 f_equal. lia.
Qed.

Lemma enumerate_fmap {A B} (f : A → B) (start : Z) (l : list A) :
  Server.enumerate start (f <$> l)
  = (λ item, (item.1, f item.2)) <$> Server.enumerate start l.
Proof. revert start. induction l; intros; simpl; [done|]. by rewrite IHl. Qed.

Lemma elem_of_enumerate {A} (l : list A) (idx : Z) (x : A) :
  (idx, x) ∈ Server.enumerate 1 l
  ↔ 1 ≤ idx ∧ l !! Z.to_nat (idx - 1) = Some x.
Proof.
  rewrite list_elem_of_lookup. split.
  - intros [i Hi]. rewrite enumerate_lookup in Hi.
    destruct (l !! i) as [y|] eqn:Hy; simplify_eq/=.
    split; [lia|]. by replace (Z.to_nat (1 + Z.of_nat i - 1)) with i by lia.
  - intros [Hidx Hx]. exists (Z.to_nat (idx - 1)).
    rewrite enumerate_lookup, Hx. simpl. do 2 f_equal. lia.
Qed.

Lemma list_tasks_tool_listing (user_id : pystr) (w : World) :
  user_id ≠ [] →
  Server.list_tasks_tool {| Server.list_user_id := user_id |} w
  = (Return (listing (tagged_scan user_id w)), w).
Proof.
  intros Hu. unfold Server.list_tasks_tool. simpl.
  rewrite falsy_false by done. rewrite foldl_separate. simpl.
  unfold listing, tagged_scan, Server.get_user_tasks.
  by rewrite length_enumerate.
Qed.

Lemma filter_update_ids (l : list Task.t) (user_id key : pystr)
    (task' : Task.t) :
  Task.id task' = key →
  (∀ r, r ∈ l → Task.id r = key → Task.user_id r = Task.user_id task') →
  Task.id <$> filter (λ t, Task.user_id t = user_id)
                ((λ r, if decide (Task.id r = key) then task' else r) <$> l)
  = Task.id <$> filter (λ t, Task.user_id t = user_id) l.
Proof.
  intros Hkey.
  set (f := λ r, if decide (Task.id r = key) then task' else r).
  induction l as [|r l IH]; intros Hl; [done|].
  specialize (IH (λ r' Hr', Hl r' (list_elem_of_further _ _ _ Hr'))).
  rewrite fmap_cons, !filter_cons.
  assert (Task.id (f r) = Task.id r ∧ Task.user_id (f r) = Task.user_id r)
    as [Hid Huser].
  { unfold f. case_decide as Hr; [|done]. split; [congruence|].
    symmetry. apply Hl; [by left|done]. }
  rewrite Huser. case_decide; [|done].
  rewrite !fmap_cons. by rewrite IH, Hid.
Qed.

Lemma primary_key_user (w : World) (i : nat) (task r : Task.t) :
  primary_key w → tasks w !! i = Some task → r ∈ tasks w →
  Task.id r = Task.id task → r = task.
Proof.
  intros Hpk Hi Hr Hid. apply list_elem_of_lookup_1 in Hr as [j Hj].
  assert (j = i) as ->; [|congruence].
  eapply (NoDup_lookup _ j i (Task.id task)); [exact Hpk|..];
    rewrite list_lookup_fmap.
  - rewrite Hj. simpl. congruence.
  - by rewrite Hi.
Qed.

(** C6.  For a non-empty owner, [list_tasks_tool] answers with the
    listing of the position-tagged scan: every task is tagged with its
    rank in the scan (from 1) before the split into pending and
    completed, so an entry [(idx, task)] of the displayed sequence
    (pending first, completed last) is exactly a task at rank [idx] of
    the scan.  Completing a task keeps the id found at every position of
    the scan.  For A, B, C added in that order (another owner's task in
    between), the listing gives A:1, B:2, C:3, and after completing B it
    gives A:1, C:3, B:2. *)
Theorem list_tasks_positions (E : Env) (user_id : pystr) (w : World) :
  user_id ≠ [] →
  let items := tagged_scan user_id w in
  Server.list_tasks_tool {| Server.list_user_id := user_id |} w
    = (Return (listing items), w)
  ∧ (∀ idx task,
       (idx, task) ∈ filter is_pending items ++ filter is_completed items
       ↔ 1 ≤ idx
         ∧ Server.get_user_tasks user_id w !! Z.to_nat (idx - 1) = Some task)
  ∧ (∀ k completed,
       primary_key w →
       1 ≤ k ≤ Z.of_nat (length (Server.get_user_tasks user_id w)) →
       ∃ result w',
         Server.complete_task_tool E
           {| Server.cmp_task_position := k; Server.cmp_user_id := user_id;
              Server.cmp_completed := completed |} w = (Return result, w')
         ∧ Server.enumerate 1 (Task.id <$> Server.get_user_tasks user_id w')
           = Server.enumerate 1 (Task.id <$> Server.get_user_tasks user_id w))
  ∧ listed_positions
      (Server.list_tasks_tool {| Server.list_user_id := Sample.alice |}
         Sample.abc).1
    = [(py "A", 1); (py "B", 2); (py "C", 3)]
  ∧ listed_positions
      (Server.list_tasks_tool {| Server.list_user_id := Sample.alice |}
         (Server.complete_task_tool Sample.env
            {| Server.cmp_task_position := 2;
               Server.cmp_user_id := Sample.alice;
               Server.cmp_completed := true |} Sample.abc).2).1
    = [(py "A", 1); (py "C", 3); (py "B", 2)].
Proof.
  intros Hu items. split; [by apply list_tasks_tool_listing|].
  split; [|split; [|by vm_compute]].
  - intros idx task. unfold items, tagged_scan.
    rewrite <- elem_of_enumerate, elem_of_app, !list_elem_of_filter.
    unfold is_pending, is_completed. simpl.
    destruct (Task.completed task); intuition congruence.
  - intros k completed Hpk Hk.
    destruct (complete_task_tool_in_range E user_id k completed w Hu Hk)
      as (task & Ht & ->).
    eexists _, _. split; [done|]. f_equal.
    destruct (select_tasks_lookup _ _ _ _ Ht) as [_ [i Hi]].
    unfold Server.get_user_tasks, Server.select_tasks, Server.update_row.
    cbn [tasks Server.read_clock snd].
    apply filter_update_ids; [done|].
    intros r Hr Hid. by rewrite (primary_key_user w i task r).
Qed.

Lemma list_tasks_positions_witness :
  Sample.alice ≠ []
  ∧ Server.list_tasks_tool {| Server.list_user_id := Sample.alice |} Sample.abc
    = (Return (listing (tagged_scan Sample.alice Sample.abc)), Sample.abc)
  ∧ Task.title <$> (tagged_scan Sample.alice Sample.abc).*2
    = [py "A"; py "B"; py "C"]
  ∧ (tagged_scan Sample.alice Sample.abc).*1 = [1; 2; 3].
Proof.
  assert (Hu : Sample.alice ≠ []) by (intros H; vm_compute in H; discriminate H).
  split; [exact Hu|].
  split; [exact (proj1 (list_tasks_positions Sample.env Sample.alice
                          Sample.abc Hu))|].
  split; vm_compute; reflexivity.
Defined.

(** ** Bulk deletion *)

Lemma filter_key_notin (l : list Task.t) (key : pystr) :
  key ∉ Task.id <$> l → filter (λ r, Task.id r ≠ key) l = l.
Proof.
  induction l as [|r l IH]; [done|].
  rewrite fmap_cons, not_elem_of_cons. intros [Hr Hl].
  rewrite filter_cons, decide_True by done. f_equal. by apply IH.
Qed.

Lemma filter_key_delete (l : list Task.t) (j : nat) (task : Task.t) :
  NoDup (Task.id <$> l) → l !! j = Some task →
  filter (λ r, Task.id r ≠ Task.id task) l = delete j l.
Proof.
  revert j. induction l as [|r l IH]; intros [|j] Hnd Hj; simplify_eq/=;
    apply NoDup_cons in Hnd as [Hnotin Hnd].
  - rewrite filter_cons, decide_False by (by intros ?).
    by apply filter_key_notin.
  - rewrite filter_cons, decide_True.
    + f_equal. by apply IH.
    + intros Heq. apply Hnotin. rewrite Heq.
      apply list_elem_of_fmap_2. by eapply list_elem_of_lookup_2.
Qed.

Lemma filter_comm {A} (P Q : A → Prop) `{!∀ x, Decision (P x)}
    `{!∀ x, Decision (Q x)} (l : list A) :
  filter P (filter Q l) = filter Q (filter P l).
Proof. rewrite !list_filter_filter. apply list_filter_iff. tauto. Qed.

Section DeleteRow.
Context (w : World) (Hpk : primary_key w).

Lemma primary_key_select (user_id : pystr) :
  NoDup (Task.id <$> Server.select_tasks user_id w).
Proof.
  eapply sublist_NoDup; [exact Hpk|]. apply fmap_sublist, sublist_filter.
Qed.

Lemma primary_key_delete_row (task : Task.t) :
  primary_key (Server.delete_row task w).
Proof.
  eapply sublist_NoDup; [exact Hpk|]. apply fmap_sublist, sublist_filter.
Qed.

Lemma select_delete_row (user_id : pystr) (j : nat) (task : Task.t) :
  Server.select_tasks user_id w !! j = Some task →
  Server.select_tasks user_id (Server.delete_row task w)
  = delete j (Server.select_tasks user_id w).
Proof.
  intros Hj. unfold Server.select_tasks, Server.delete_row. simpl.
  rewrite filter_comm. apply filter_key_delete; [|done].
  apply primary_key_select.
Qed.

Lemma select_delete_row_other (other : pystr) (task : Task.t) :
  task ∈ tasks w → Task.user_id task ≠ other →
  Server.select_tasks other (Server.delete_row task w)
  = Server.select_tasks other w.
Proof.
  intros Hin Hother. unfold Server.select_tasks, Server.delete_row. simpl.
  rewrite filter_comm. apply filter_key_notin.
  intros (r & Hid & Hr)%list_elem_of_fmap.
  apply list_elem_of_filter in Hr as [Hu Hr].
  apply list_elem_of_lookup_1 in Hin as [i Hi].
  rewrite (primary_key_user w i task r) in Hu; done.
Qed.

End DeleteRow.

Lemma delete_each_cons (user_id : pystr) (position : Z) (rest : list Z)
    (w : World) :
  delete_each user_id (position :: rest) w
  = let r := Server.delete_task_tool
               {| Server.del_task_position := position;
                  Server.del_user_id := user_id |} w in
    ((r.1 :: (delete_each user_id rest r.2).1),
     (delete_each user_id rest r.2).2).
Proof.
  simpl. destruct (Server.delete_task_tool _ w) as [result w1]. simpl.
  by destruct (delete_each user_id rest w1).
Qed.

Lemma delete_each_seq (user_id : pystr) (p m : nat) (w : World) :
  delete_each user_id (Z.of_nat <$> seq p (S m)) w
  = let r := Server.delete_task_tool
               {| Server.del_task_position := Z.of_nat p;
                  Server.del_user_id := user_id |} w in
    ((r.1 :: (delete_each user_id (Z.of_nat <$> seq (S p) m) r.2).1),
     (delete_each user_id (Z.of_nat <$> seq (S p) m) r.2).2).
Proof. apply delete_each_cons. Qed.

Lemma descending_S (N : nat) :
  descending (S N) = Z.of_nat (S N) :: descending N.
Proof. unfold descending. by rewrite seq_S, reverse_snoc. Qed.

(** Deleting from the highest position down: every call finds its
    position in range. *)
Lemma delete_descending (user_id : pystr) (N : nat) (w : World) :
  user_id ≠ [] → primary_key w →
  length (Server.select_tasks user_id w) = N →
  (delete_each user_id (descending N) w).1
    = (λ k, Return (Server.deleted_message k)) <$> descending N
  ∧ Server.select_tasks user_id (delete_each user_id (descending N) w).2 = []
  ∧ ∀ other, other ≠ user_id →
      Server.select_tasks other (delete_each user_id (descending N) w).2
      = Server.select_tasks other w.
Proof.
  intros Hu. revert w. induction N as [|N IH]; intros w Hpk Hlen.
  - simpl. split; [done|]. split; [|done]. by apply nil_length_inv.
  - rewrite descending_S, delete_each_cons.
    destruct (delete_task_tool_in_range user_id (Z.of_nat (S N)) w Hu)
      as (task & Ht & ->); [lia|].
    replace (Z.to_nat (Z.of_nat (S N) - 1)) with N in Ht by lia.
    destruct (select_tasks_lookup _ _ _ _ Ht) as [Htu [i Hi]].
    destruct (IH (Server.delete_row task w)) as (Hres & Hnil & Hothers).
    { by apply primary_key_delete_row. }
    { rewrite (select_delete_row w Hpk user_id N task Ht), length_delete; [|done].
      lia. }
    cbn [fst snd]. split; [by rewrite Hres|]. split; [done|].
    intros other Hother. rewrite Hothers by done.
    apply select_delete_row_other; [done| |congruence].
    by eapply list_elem_of_lookup_2.
Qed.

(** Calls for positions past the end of the scan change nothing. *)
Lemma delete_each_past_end (user_id : pystr) (m p : nat) (w : World) :
  user_id ≠ [] →
  (length (Server.select_tasks user_id w) < p)%nat →
  (delete_each user_id (Z.of_nat <$> seq p m) w).2 = w.
Proof.
  intros Hu. revert p. induction m as [|m IH]; intros p Hp; [done|].
  rewrite delete_each_seq, delete_task_tool_out_of_range by (done || lia).
  cbn [fst snd]. apply IH. lia.
Qed.

(** Which calls of an ascending run succeed. *)
Lemma delete_ascending_results (user_id : pystr) (m p : nat) (w : World) :
  user_id ≠ [] → primary_key w → (1 ≤ p)%nat →
  (delete_each user_id (Z.of_nat <$> seq p m) w).1
  = (λ q, if decide (2 * q - Z.of_nat p
                     ≤ Z.of_nat (length (Server.select_tasks user_id w)))
          then Return (Server.deleted_message q)
          else caught_not_found "Error deleting task: " q)
      <$> (Z.of_nat <$> seq p m).
Proof.
  intros Hu. revert p w. induction m as [|m IH]; intros p w Hpk Hp; [done|].
  rewrite delete_each_seq. cbn [seq]. rewrite !fmap_cons.
  destruct (decide (p ≤ length (Server.select_tasks user_id w))%nat) as [Hin|Hout].
  - destruct (delete_task_tool_in_range user_id (Z.of_nat p) w Hu)
      as (task & Ht & ->); [lia|].
    cbn [fst snd]. rewrite decide_True by lia. f_equal.
    rewrite IH by (by apply primary_key_delete_row || lia).
    rewrite (select_delete_row w Hpk user_id _ task Ht), length_delete
      by (by rewrite Ht).
    apply list_fmap_ext. intros i q Hq. repeat case_decide; done || lia.
  - rewrite delete_task_tool_out_of_range by (done || lia).
    cbn [fst snd]. rewrite decide_False by lia. f_equal.
    rewrite IH by (done || lia).
    apply list_fmap_ext. intros i q Hq.
    rewrite list_lookup_fmap in Hq.
    destruct (seq (S p) m !! i) as [q'|] eqn:Hq'; simplify_eq/=.
    apply lookup_seq in Hq' as [-> _].
    repeat case_decide; done || lia.
Qed.

(** Where an ascending run leaves the scan: of the part not yet
    reached, the tasks at odd offsets are deleted. *)
Lemma delete_ascending_scan (user_id : pystr) (m : nat) :
  user_id ≠ [] →
  ∀ (s pre : list Task.t) (w : World),
    primary_key w →
    Server.select_tasks user_id w = pre ++ s →
    (length s ≤ m)%nat →
    Server.select_tasks user_id
      (delete_each user_id (Z.of_nat <$> seq (S (length pre)) m) w).2
    = pre ++ even_positions s.
Proof.
  intros Hu. induction m as [|m IH]; intros s pre w Hpk Hscan Hlen.
  - destruct s; [|simpl in Hlen; lia]. by simpl.
  - destruct s as [|x s].
    { rewrite delete_each_past_end; [done..|].
      rewrite Hscan, length_app. simpl. lia. }
    rewrite delete_each_seq.
    destruct (delete_task_tool_in_range user_id (Z.of_nat (S (length pre))) w Hu)
      as (task & Ht & ->); [rewrite Hscan, length_app; simpl; lia|].
    replace (Z.to_nat (Z.of_nat (S (length pre)) - 1)) with (length pre)
      in Ht by lia.
    pose proof (select_delete_row w Hpk user_id _ task Ht) as Hscan'.
    rewrite Hscan in Hscan'.
    rewrite delete_take_drop, take_app_length in Hscan'.
    rewrite cons_middle, app_assoc, drop_app_length' in Hscan'
      by (rewrite length_app; simpl; lia).
    cbn [fst snd].
    destruct s as [|y s].
    + rewrite delete_each_past_end; [by rewrite Hscan'|done|].
      rewrite Hscan', length_app. simpl. lia.
    + specialize (IH s (pre ++ [y]) (Server.delete_row task w)
                    (primary_key_delete_row w Hpk task)).
      rewrite length_app in IH. simpl in IH.
      replace (length pre + 1)%nat with (S (length pre)) in IH by lia.
      rewrite IH.
      * by rewrite <- app_assoc.
      * by rewrite Hscan', <- app_assoc.
      * simpl in Hlen. lia.
Qed.

Lemma even_positions_elem {A} (l : list A) (x : A) :
  (x ∈ even_positions l → x ∈ tail l)
  ∧ (∀ a, x ∈ even_positions (a :: l) → x ∈ l).
Proof.
  induction l as [|y l [IH1 IH2]]; simpl.
  - split; [done|]. by intros _ ?%elem_of_nil.
  - split; [exact (IH2 y)|].
    intros _ [->|Hx]%elem_of_cons; [by left|].
    right. destruct l; [done|]. right. by apply IH1.
Qed.

Lemma even_positions_second {A} (l : list A) (x : A) :
  l !! 1%nat = Some x → x ∈ even_positions l.
Proof. destruct l as [|x1 [|x2 l]]; intros; simplify_eq/=. by left. Qed.

Lemma even_positions_third {A} (l : list A) (x : A) :
  NoDup l → l !! 2%nat = Some x → x ∉ even_positions l.
Proof.
  destruct l as [|x1 [|x2 [|x3 l]]]; intros Hnd Hx Hin; simplify_eq/=.
  apply NoDup_cons in Hnd as [_ Hnd].
  apply NoDup_cons in Hnd as [H2 Hnd].
  apply NoDup_cons in Hnd as [H3 Hnd].
  apply elem_of_cons in Hin as [->|Hin].
  - apply H2. by left.
  - apply H3. by apply (proj2 (even_positions_elem l x) x).
Qed.

(** C1.  For a non-empty owner with [N] tasks (on a table with a primary
    key), the calls [delete_task_tool] for the positions [N, N-1, ..., 1]
    in that order, each resolving its position on the scan the previous
    call left, all succeed and leave the owner without tasks and every
    other owner's scan as it was.  The same positions in ascending order,
    not recomputed, go wrong from the second call on: the call for
    position [k] succeeds only while [2k - 1 ≤ N] and then deletes the
    task that was at position [2k - 1]; the run leaves exactly the tasks
    that were at the even positions, so the task first at position 2
    survives and the one first at position 3 is deleted. *)
Theorem bulk_delete_order (user_id : pystr) (w : World) :
  user_id ≠ [] → primary_key w →
  let scan := Server.get_user_tasks user_id w in
  let N := length scan in
  let down := delete_each user_id (descending N) w in
  let up := delete_each user_id (ascending N) w in
  down.1 = (λ k, Return (Server.deleted_message k)) <$> descending N
  ∧ Server.get_user_tasks user_id down.2 = []
  ∧ (∀ other, other ≠ user_id →
       Server.get_user_tasks other down.2 = Server.get_user_tasks other w)
  ∧ up.1 = ascending_result N <$> ascending N
  ∧ Server.get_user_tasks user_id up.2 = even_positions scan
  ∧ (∀ task, scan !! 1%nat = Some task →
       task ∈ Server.get_user_tasks user_id up.2)
  ∧ (∀ task, scan !! 2%nat = Some task →
       task ∉ Server.get_user_tasks user_id up.2).
Proof.
  intros Hu Hpk scan N down up. unfold Server.get_user_tasks in *.
  destruct (delete_descending user_id N w Hu Hpk eq_refl)
    as (Hres & Hnil & Hothers).
  assert (Hup : Server.select_tasks user_id up.2 = even_positions scan).
  { apply (delete_ascending_scan user_id N Hu scan [] w Hpk); done. }
  split; [done|]. split; [done|]. split; [done|]. split; [|split; [done|]].
  - unfold up, ascending. rewrite delete_ascending_results by done.
    apply list_fmap_ext. intros i q _. unfold ascending_result.
    fold scan. fold N. repeat case_decide; done || lia.
  - rewrite Hup. split.
    + apply even_positions_second.
    + intros task. apply even_positions_third.
      eapply NoDup_fmap_1, primary_key_select, Hpk.
Qed.

Lemma bulk_delete_order_witness :
  Sample.alice ≠ [] ∧ primary_key Sample.abc
  ∧ Server.get_user_tasks Sample.alice
      (delete_each Sample.alice [3; 2; 1] Sample.abc).2 = []
  ∧ Server.get_user_tasks Sample.alice
      (delete_each Sample.alice [1; 2; 3] Sample.abc).2
    = even_positions (Server.get_user_tasks Sample.alice Sample.abc)
  ∧ Sample.titles (even_positions (Server.get_user_tasks Sample.alice Sample.abc))
    = [py "B"].
Proof.
  assert (Hu : Sample.alice ≠ []) by (intros H; vm_compute in H; discriminate H).
  assert (Hpk : primary_key Sample.abc) by compute_done.
  split; [exact Hu|]. split; [exact Hpk|].
  destruct (bulk_delete_order Sample.alice Sample.abc Hu Hpk)
    as (_ & Hdown & _ & _ & Hup & _).
  split; [exact Hdown|]. split; [exact Hup|].
  vm_compute. reflexivity.
Defined.

(** ** The tool loop of [chat_endpoint] *)

Lemma wire_post (E : Env) (tool : string) (body : gmap string json) (n : Net) :
  wire (post E tool body n).2 = wire n ++ [(tool, body)].
Proof. unfold post. by destruct (Server.handle E tool body (world n)). Qed.

Lemma wire_request_tool (E : Env) (tool_name : string)
    (args : gmap string json) (n : Net) :
  wire (Chat.request_tool E tool_name args n).2 = wire n ++ [(tool_name, args)].
Proof.
  unfold Chat.request_tool.
  pose proof (wire_post E tool_name args n) as Hw.
  destruct (post E tool_name args n) as [[status_code body] n'].
  simpl in *. by case_match.
Qed.

Lemma call_mcp_tool_plain (E : Env) (tool_name : string)
    (args : gmap string json) (n : Net) :
  tool_name ∈ Chat.tool_endpoints →
  (tool_name ∈ ["update_task"; "complete_task"; "delete_task"] →
   is_Some (args !! "task_id") → is_Some (args !! "task_position")) →
  Chat.call_mcp_tool E tool_name args n = Chat.request_tool E tool_name args n.
Proof.
  intros Hknown Hplain. unfold Chat.call_mcp_tool.
  rewrite bool_decide_eq_true_2 by done. simpl.
  destruct (bool_decide (tool_name ∈ _)) eqn:H1; [|done].
  destruct (bool_decide (is_Some (args !! "task_id"))) eqn:H2; [|done].
  apply bool_decide_eq_true in H1, H2.
  by rewrite (bool_decide_eq_true_2 _ (Hplain H1 H2)).
Qed.

Lemma sent_by_app {A} (run : Net → A * Net) (n : Net)
    (new : list (string * gmap string json)) :
  wire (run n).2 = wire n ++ new → sent_by run n = new.
Proof. unfold sent_by. intros ->. by rewrite drop_app_length. Qed.

(** On plain calls the loop sends one request per call, in the order of
    the calls. *)
Lemma run_tool_calls_plain (E : Env) (current_user_id : pystr)
    (calls : list ToolCall.t) (cache : gmap pystr json) (n : Net) :
  Forall plain_call calls →
  is_Some (Chat.run_tool_calls E current_user_id calls cache n).1
  ∧ wire (Chat.run_tool_calls E current_user_id calls cache n).2
    = wire n ++ (injected current_user_id <$> calls).
Proof.
  intros Hplain. revert cache n.
  induction Hplain as [|tool_call calls (args & Hargs & Hknown & Hpos) _ IH];
    intros cache n.
  - simpl. split; [done|]. by rewrite app_nil_r.
  - simpl. rewrite Hargs.
    rewrite call_mcp_tool_plain; [|done|].
    2:{ intros Hp. rewrite !lookup_insert_ne by done. by apply Hpos. }
    pose proof (wire_request_tool E (ToolCall.name tool_call)
                  (<["user_id" := JStr current_user_id]> args) n) as Hw.
    destruct (Chat.request_tool E (ToolCall.name tool_call) _ n)
      as [tool_result n'].
    destruct (IH (<[ToolCall.id tool_call := tool_result]> cache) n')
      as [Hsome Hwire].
    split; [done|]. rewrite Hwire. simpl in Hw. rewrite Hw, <- app_assoc.
    unfold injected at 2. by rewrite Hargs.
Qed.

Lemma delete_call_plain (id : pystr) (task_position : Z) :
  plain_call (delete_call id task_position).
Proof.
  eexists. split; [done|]. split; [compute_done|].
  intros _ [v Hv]. by rewrite lookup_singleton_ne in Hv.
Qed.

Lemma delete_position_delete_call (current_user_id id : pystr) (position : Z) :
  delete_position (injected current_user_id (delete_call id position))
  = Some position.
Proof.
  unfold delete_position, injected, delete_call.
  cbn [fst snd ToolCall.name ToolCall.arguments default from_option
       Datatypes.id].
  rewrite decide_True by done.
  rewrite lookup_insert_ne by done. by rewrite lookup_singleton_eq.
Qed.

Lemma deleted_positions_delete_calls (current_user_id : pystr)
    (calls : list (pystr * Z)) :
  deleted_positions
    (injected current_user_id <$> (uncurry delete_call <$> calls))
  = calls.*2.
Proof.
  induction calls as [|[id position] calls IH]; [done|].
  rewrite !fmap_cons. unfold deleted_positions in *.
  cbn [omap list_omap uncurry].
  by rewrite delete_position_delete_call, IH.
Qed.

(** C2 (as the code has it).  The tool loop of [chat_endpoint] applies
    no order of its own: for tool calls as the schema describes them it
    sends exactly one request per call, in the order in which the model
    returned the calls, with only [user_id] written into the arguments.
    For a turn of [delete_task] calls the positions deleted are
    therefore the model's positions in the model's order, descending
    exactly when the model returned them so. *)
Theorem tool_calls_sent_in_model_order (E : Env) (current_user_id : pystr)
    (cache : gmap pystr json) (n : Net) :
  (∀ calls, Forall plain_call calls →
     is_Some (Chat.run_tool_calls E current_user_id calls cache n).1
     ∧ sent_by (Chat.run_tool_calls E current_user_id calls cache) n
       = injected current_user_id <$> calls)
  ∧ (∀ deletions : list (pystr * Z),
       let calls := uncurry delete_call <$> deletions in
       let sent := sent_by (Chat.run_tool_calls E current_user_id calls cache) n in
       deleted_positions sent = deletions.*2
       ∧ strictly_descending (deleted_positions sent)
         = strictly_descending deletions.*2).
Proof.
  assert (Hgen : ∀ calls, Forall plain_call calls →
     is_Some (Chat.run_tool_calls E current_user_id calls cache n).1
     ∧ sent_by (Chat.run_tool_calls E current_user_id calls cache) n
       = injected current_user_id <$> calls).
  { intros calls Hplain.
    destruct (run_tool_calls_plain E current_user_id calls cache n Hplain)
      as [Hsome Hwire].
    split; [done|]. by apply sent_by_app. }
  split; [done|]. intros deletions calls sent.
  assert (deleted_positions sent = deletions.*2) as ->; [|done].
  unfold sent. destruct (Hgen calls) as [_ ->].
  - apply Forall_fmap, Forall_forall. intros [id position] _.
    apply delete_call_plain.
  - apply deleted_positions_delete_calls.
Qed.

Lemma tool_calls_sent_in_model_order_witness :
  Forall plain_call (tool_calls Turns.delete_1_2)
  ∧ sent_by (Chat.run_tool_calls Sample.env Sample.alice
               (tool_calls Turns.delete_1_2) ∅) (Turns.net Sample.abc)
    = injected Sample.alice <$> tool_calls Turns.delete_1_2.
Proof.
  assert (Hplain : Forall plain_call (tool_calls Turns.delete_1_2)).
  { repeat constructor; apply delete_call_plain. }
  split; [exact Hplain|].
  exact (proj2 (proj1 (tool_calls_sent_in_model_order Sample.env Sample.alice
                         ∅ (Turns.net Sample.abc)) _ Hplain)).
Defined.

(** The model returns [delete_task(1)] before [delete_task(2)]: the
    requests are sent in that ascending order, and of Alice's tasks
    A, B, C the second call deletes C, leaving B. *)
Lemma deletions_sent_ascending :
  let run := Chat.run_tool_calls Sample.env Sample.alice
               (tool_calls Turns.delete_1_2) ∅ in
  let n := Turns.net Sample.abc in
  deleted_positions (sent_by run n) = [1; 2]
  ∧ strictly_descending (deleted_positions (sent_by run n)) = false
  ∧ Sample.titles (Server.get_user_tasks Sample.alice (world (run n).2))
    = [py "B"].
Proof. by vm_compute. Qed.

(** ** The owner of a tool call *)

Lemma call_mcp_tool_wire (E : Env) (user_id : pystr) (tool_name : string)
    (args : gmap string json) (n : Net) :
  args !! "user_id" = Some (JStr user_id) →
  ∃ new, wire (Chat.call_mcp_tool E tool_name args n).2 = wire n ++ new
         ∧ Forall (carries_user_id user_id) new.
Proof.
  intros Hu. unfold Chat.call_mcp_tool.
  destruct (negb _); [exists []; by rewrite app_nil_r|].
  destruct (_ && _ && _).
  - rewrite Hu. cbn [truthy_opt truthy default from_option Datatypes.id].
    destruct (falsy user_id); cbn [negb];
      [exists []; by rewrite app_nil_r|].
    unfold Chat.get_task_position_from_id.
    pose proof (wire_post E "list_tasks" {["user_id" := JStr user_id]} n) as Hw.
    destruct (post E "list_tasks" _ n) as [[status_code result] n1].
    simpl in Hw.
    assert (Hlist : Forall (carries_user_id user_id)
                      [("list_tasks",
                        ({["user_id" := JStr user_id]} : gmap string json))]).
    { repeat constructor. }
    assert (Hnone : ∃ new, wire n1 = wire n ++ new
                           ∧ Forall (carries_user_id user_id) new)
      by (by eexists).
    destruct (negb (bool_decide (status_code = 200))); [done|].
    destruct (negb (truthy_opt (jget "success" result))); [done|].
    destruct (Chat.find_position _ _) as [position|]; [|done].
    rewrite wire_request_tool, Hw, <- app_assoc.
    eexists. split; [done|].
    apply Forall_app. split; [done|]. apply Forall_singleton.
    unfold carries_user_id. cbn [snd].
    rewrite lookup_delete_ne by done. by rewrite lookup_insert_ne by done.
  - rewrite wire_request_tool. eexists. split; [done|].
    by apply Forall_singleton.
Qed.

Lemma run_tool_calls_wire (E : Env) (current_user_id : pystr)
    (calls : list ToolCall.t) (cache : gmap pystr json) (n : Net) :
  ∃ new,
    wire (Chat.run_tool_calls E current_user_id calls cache n).2 = wire n ++ new
    ∧ Forall (carries_user_id current_user_id) new.
Proof.
  revert cache n. induction calls as [|tool_call calls IH]; intros cache n.
  - exists []. by rewrite app_nil_r.
  - simpl. destruct (ToolCall.arguments tool_call) as [args|];
      [|exists []; by rewrite app_nil_r].
    destruct (call_mcp_tool_wire E current_user_id (ToolCall.name tool_call)
                (<["user_id" := JStr current_user_id]> args) n)
      as (new1 & Hw1 & Hnew1); [by rewrite lookup_insert_eq|].
    destruct (Chat.call_mcp_tool E _ _ n) as [tool_result n1].
    destruct (IH (<[ToolCall.id tool_call := tool_result]> cache) n1)
      as (new2 & Hw2 & Hnew2).
    exists (new1 ++ new2). simpl in Hw1. rewrite Hw2, Hw1, <- app_assoc.
    split; [done|]. by apply Forall_app.
Qed.

Lemma run_tool_calls_same_but_user_id (E : Env) (current_user_id : pystr)
    (calls1 calls2 : list ToolCall.t) (cache : gmap pystr json) (n : Net) :
  Forall2 same_but_user_id calls1 calls2 →
  Chat.run_tool_calls E current_user_id calls1 cache n
  = Chat.run_tool_calls E current_user_id calls2 cache n.
Proof.
  intros Hsame. revert cache n.
  induction Hsame as [|c1 c2 calls1 calls2 (Hid & Hname & Hargs) _ IH];
    intros cache n; [done|].
  cbn [Chat.run_tool_calls].
  destruct (ToolCall.arguments c1) as [args1|],
           (ToolCall.arguments c2) as [args2|]; try done.
  injection Hargs as Hargs.
  assert (<["user_id" := JStr current_user_id]> args1
          = <["user_id" := JStr current_user_id]> args2) as ->.
  { rewrite <- (insert_delete_eq args1), <- (insert_delete_eq args2).
    by rewrite Hargs. }
  rewrite Hid, Hname. destruct (Chat.call_mcp_tool _ _ _ _). apply IH.
Qed.

(** C4.  In the tool loop of [chat_endpoint] every request sent to the
    task store carries the authenticated user's id as [user_id],
    whatever the arguments of the model hold, and two lists of calls
    that differ only in the [user_id] the model supplied run alike:
    same results, same store, same requests.  In
    [TodoAgent.process_message] the id is written only when the model
    supplied none: a [user_id] of the model is sent as it is, so that
    for the user Alice a call [list_tasks(user_id="bob")] is sent with
    Bob as owner. *)
Theorem user_id_of_tool_calls :
  (∀ E current_user_id calls cache n,
     Forall (carries_user_id current_user_id)
       (sent_by (Chat.run_tool_calls E current_user_id calls cache) n))
  ∧ (∀ E current_user_id calls1 calls2 cache n,
       Forall2 same_but_user_id calls1 calls2 →
       Chat.run_tool_calls E current_user_id calls1 cache n
       = Chat.run_tool_calls E current_user_id calls2 cache n)
  ∧ (∀ call_mcp_tool user_id tool_call args supplied,
       ToolCall.arguments tool_call = Some args →
       args !! "user_id" = Some supplied →
       (Agent.run_tool_calls call_mcp_tool user_id [tool_call]).1
       = [(ToolCall.name tool_call, args)])
  ∧ (Agent.process_message (λ _ _, JNull) echo_model Sample.alice
       (Turns.user_says "show my tasks") Turns.list_as_bob).1
    = [("list_tasks", {[ "user_id" := JStr Sample.bob ]})].
Proof.
  split; [|split; [|split]].
  - intros E current_user_id calls cache n.
    destruct (run_tool_calls_wire E current_user_id calls cache n)
      as (new & Hw & Hnew).
    by rewrite (sent_by_app _ n new Hw).
  - intros. by apply run_tool_calls_same_but_user_id.
  - intros call_mcp_tool user_id tool_call args supplied Hargs Hsupplied.
    simpl. rewrite Hargs.
    by rewrite bool_decide_eq_true_2 by (by eexists).
  - by vm_compute.
Qed.

(** ** What the model is sent *)

Lemma success_task_id (task : Task.t) :
  jget "task" (Server.success_task task) ≫= jget "id"
  = Some (JStr (Task.id task)).
Proof. done. Qed.

Lemma task_data_id (idx : Z) (task : Task.t) :
  jget "id" (Server.task_data idx task) = Some (JStr (Task.id task)).
Proof. done. Qed.

Lemma or_text_not_falsy (a : option pystr) (b : pystr) :
  b ≠ [] → falsy (or_text a b) = false.
Proof.
  intros Hb. unfold or_text. destruct a as [s|]; [|by apply falsy_false].
  destruct (falsy s) eqn:Hs; [by apply falsy_false|done].
Qed.

(** The branch of [final_content] that names the count is never taken. *)
Lemma final_content_or_text (response_message final_message : ModelMessage) :
  Chat.final_content response_message final_message
  = or_text (content final_message) Chat.completed_successfully.
Proof.
  unfold Chat.final_content. by rewrite or_text_not_falsy.
Qed.

(** C5 (as the code has it).  The result of a tool is sent to the
    second completion as it came from the task store, and the task
    objects in it carry the storage id: for a turn with one [add_task]
    call that the store accepts, the model is sent the task object of
    the stored row, whose [id] is that row's id; the same holds for
    every task object of an update, a completion and a listing.  Only
    the result of a deletion is free of it: a message made of the
    position alone. *)
Theorem tool_results_carry_task_id (E : Env) (current_user_id : pystr)
    (messages : list Message) (id : pystr) (args : gmap string json)
    (text : option pystr) (create : list Message → option ModelMessage)
    (n : Net) (request : Server.AddTaskRequest) :
  Server.parse_add E (<["user_id" := JStr current_user_id]> args) = Some request →
  ¬ invalid_add request →
  let tool_call := ToolCall.mk id "add_task" (Some args) in
  let response_message := {| content := text; tool_calls := [tool_call] |} in
  let row := new_row E request (world n) in
  Chat.chat_endpoint E current_user_id messages response_message create n
  = ((λ final_message,
        {| message := or_text (content final_message)
                        Chat.completed_successfully;
           response_tool_calls := Some [tool_call] |})
       <$> create (messages
                   ++ [AssistantWithToolCalls text [tool_call];
                       ToolResult (Server.success_task row) id]),
     {| world := after_add E request (world n);
        wire := wire n
                ++ [("add_task", <["user_id" := JStr current_user_id]> args)] |})
  ∧ row ∈ tasks (after_add E request (world n))
  ∧ (∀ task, jget "task" (Server.success_task task) ≫= jget "id"
             = Some (JStr (Task.id task)))
  ∧ (∀ idx task, jget "id" (Server.task_data idx task)
                 = Some (JStr (Task.id task)))
  ∧ (∀ user_id k w,
       user_id ≠ [] →
       1 ≤ k ≤ Z.of_nat (length (Server.get_user_tasks user_id w)) →
       (Server.delete_task_tool
          {| Server.del_task_position := k; Server.del_user_id := user_id |} w).1
       = Return (Server.deleted_message k)).
Proof.
  intros Hparse Hvalid tool_call response_message row.
  split; [|split; [|split; [|split]]].
  - unfold Chat.chat_endpoint. simpl.
    unfold Chat.call_mcp_tool.
    rewrite (bool_decide_eq_true_2 ("add_task" ∈ Chat.tool_endpoints))
      by compute_done.
    rewrite (bool_decide_eq_false_2
               ("add_task" ∈ ["update_task"; "complete_task"; "delete_task"]))
      by compute_done.
    simpl. unfold Chat.request_tool, post, Server.handle.
    rewrite decide_True by done. rewrite Hparse.
    rewrite add_task_tool_accepts by done. simpl.
    rewrite lookup_insert_eq. simpl.
    destruct (create _) as [final_message|]; [|done]. simpl.
    by rewrite final_content_or_text.
  - unfold after_add. cbn [tasks]. apply elem_of_app. right. by left.
  - done.
  - done.
  - intros user_id k w Hu Hk.
    by destruct (delete_task_tool_in_range user_id k w Hu Hk) as (task & _ & ->).
Qed.

Lemma tool_results_carry_task_id_witness :
  let args : gmap string json := {[ "title" := JStr (py "Buy milk") ]} in
  let request := {| Server.add_title := py "Buy milk";
                    Server.add_description := [];
                    Server.add_user_id := Sample.alice |} in
  Server.parse_add Sample.env (<["user_id" := JStr Sample.alice]> args)
  = Some request
  ∧ ¬ invalid_add request
  ∧ new_row Sample.env request Sample.empty
    ∈ tasks (after_add Sample.env request Sample.empty)
  ∧ Task.id (new_row Sample.env request Sample.empty) = py "task-0".
Proof.
  intros args request.
  assert (Hparse : Server.parse_add Sample.env
                     (<["user_id" := JStr Sample.alice]> args) = Some request)
    by (vm_compute; reflexivity).
  assert (Hvalid : ¬ invalid_add request).
  { intros [H|[H|H]]; vm_compute in H; discriminate H. }
  split; [exact Hparse|]. split; [exact Hvalid|].
  split; [|vm_compute; reflexivity].
  exact (proj1 (proj2 (tool_results_carry_task_id Sample.env Sample.alice
                         (Turns.user_says "add task Buy milk") (py "call_1")
                         args None echo_model (Turns.net Sample.empty) request
                         Hparse Hvalid))).
Defined.

(** The model asks for [add_task] and answers the second completion
    with the [id] it reads in the tool result: the reply to the user is
    the storage id of the new task. *)
Lemma task_id_reaches_model_and_reply :
  let r := Chat.chat_endpoint Sample.env Sample.alice
             (Turns.user_says "add task Buy milk") Turns.add_milk echo_model
             (Turns.net Sample.empty) in
  Task.id <$> tasks (world r.2) = [py "task-0"]
  ∧ message <$> r.1 = Some (py "task-0").
Proof. by vm_compute. Qed.

(** ** The reply when the second completion has no text *)

Lemma completed_successfully_no_count (operations_count : nat) :
  Chat.completed_successfully ≠ Chat.operations_message operations_count.
Proof. unfold Chat.completed_successfully, Chat.operations_message. done. Qed.

(** The loop raises only on arguments that are no JSON object; when it
    returns, the cache holds a result for the id of every call. *)
Lemma run_tool_calls_cache (E : Env) (current_user_id : pystr)
    (calls : list ToolCall.t) (cache : gmap pystr json) (n : Net) :
  Forall (λ tool_call, is_Some (ToolCall.arguments tool_call)) calls →
  ∃ cache' n',
    Chat.run_tool_calls E current_user_id calls cache n = (Some cache', n')
    ∧ (∀ id, is_Some (cache !! id) → is_Some (cache' !! id))
    ∧ Forall (λ tool_call, is_Some (cache' !! ToolCall.id tool_call)) calls.
Proof.
  intros Hobj. revert cache n.
  induction Hobj as [|tool_call calls [args Hargs] _ IH]; intros cache n.
  - by exists cache, n.
  - cbn [Chat.run_tool_calls]. rewrite Hargs.
    destruct (Chat.call_mcp_tool E _ _ n) as [tool_result n1].
    destruct (IH (<[ToolCall.id tool_call := tool_result]> cache) n1)
      as (cache' & n' & -> & Hmono & Hall).
    exists cache', n'. split; [done|]. split.
    + intros id Hid. apply Hmono.
      destruct (decide (ToolCall.id tool_call = id)) as [->|Hne].
      * by rewrite lookup_insert_eq.
      * by rewrite lookup_insert_ne.
    + constructor; [|done]. apply Hmono. by rewrite lookup_insert_eq.
Qed.

Lemma tool_messages_is_Some (cache : gmap pystr json)
    (calls : list ToolCall.t) :
  Forall (λ tool_call, is_Some (cache !! ToolCall.id tool_call)) calls →
  is_Some (Chat.tool_messages cache calls).
Proof.
  induction 1 as [|tool_call calls [tool_result Hr] _ [messages IH]]; [done|].
  cbn [Chat.tool_messages]. rewrite Hr, IH. by eexists.
Qed.

(** C9 (the code at the failing input).  In a turn whose tool calls
    were executed and whose second completion has no text, the reply of
    [chat_endpoint] is the fixed text
    ["Operation completed successfully."], which does not name the count
    of operations: the text is put in place of the missing content
    before the test that guards the count message, so that test never
    holds.  For a turn of two deletions whose second completion is
    empty but for a further tool call, the reply is that fixed text and
    not ["I've completed 2 tasks for you!"]. *)
Theorem reply_without_text (E : Env) (current_user_id : pystr)
    (messages : list Message) (response_message : ModelMessage)
    (create : list Message → option ModelMessage) (n : Net) :
  tool_calls response_message ≠ [] →
  Forall (λ tool_call, is_Some (ToolCall.arguments tool_call))
    (tool_calls response_message) →
  (∀ api_messages, ∃ final_message,
     create api_messages = Some final_message
     ∧ (content final_message = None ∨ content final_message = Some [])) →
  message <$> (Chat.chat_endpoint E current_user_id messages response_message
                 create n).1
    = Some Chat.completed_successfully
  ∧ Chat.completed_successfully
    ≠ Chat.operations_message (length (tool_calls response_message))
  ∧ message <$> (Chat.chat_endpoint Sample.env Sample.alice
                   (Turns.user_says "delete tasks 1 and 2")
                   Turns.delete_1_2 silent_model (Turns.net Sample.abc)).1
    = Some (py "Operation completed successfully.")
  ∧ Chat.operations_message (length (tool_calls Turns.delete_1_2))
    = py "I've completed 2 tasks for you!".
Proof.
  intros Hcalls Hobj Hsilent.
  split; [|split; [apply completed_successfully_no_count|split; by vm_compute]].
  unfold Chat.chat_endpoint.
  rewrite bool_decide_eq_false_2 by done.
  destruct (run_tool_calls_cache E current_user_id
              (tool_calls response_message) ∅ n Hobj)
    as (cache' & n' & -> & _ & Hall).
  destruct (tool_messages_is_Some cache' _ Hall) as [results ->].
  rewrite bool_decide_eq_true_2
    by (destruct (tool_calls response_message); [done|simpl; lia]).
  destruct (Hsilent (messages
                     ++ [AssistantWithToolCalls (content response_message)
                           (tool_calls response_message)] ++ results))
    as (final_message & -> & Hempty).
  cbn [fst fmap option_fmap option_map message]. f_equal.
  rewrite final_content_or_text. by destruct Hempty as [-> | ->].
Qed.

Lemma reply_without_text_witness :
  tool_calls Turns.delete_1_2 ≠ []
  ∧ Forall (λ tool_call, is_Some (ToolCall.arguments tool_call))
      (tool_calls Turns.delete_1_2)
  ∧ (∀ api_messages, ∃ final_message,
       silent_model api_messages = Some final_message
       ∧ (content final_message = None ∨ content final_message = Some []))
  ∧ message <$> (Chat.chat_endpoint Sample.env Sample.alice
                   (Turns.user_says "delete tasks 1 and 2")
                   Turns.delete_1_2 silent_model (Turns.net Sample.abc)).1
    = Some Chat.completed_successfully.
Proof.
  assert (Hcalls : tool_calls Turns.delete_1_2 ≠ []) by discriminate.
  assert (Hobj : Forall (λ tool_call, is_Some (ToolCall.arguments tool_call))
                   (tool_calls Turns.delete_1_2)).
  { repeat constructor; eexists; reflexivity. }
  assert (Hsilent : ∀ api_messages, ∃ final_message,
            silent_model api_messages = Some final_message
            ∧ (content final_message = None
               ∨ content final_message = Some [])).
  { intros api_messages. eexists. split; [reflexivity|]. left. reflexivity. }
  split; [exact Hcalls|]. split; [exact Hobj|]. split; [exact Hsilent|].
  exact (proj1 (reply_without_text Sample.env Sample.alice
                  (Turns.user_says "delete tasks 1 and 2") Turns.delete_1_2
                  silent_model (Turns.net Sample.abc) Hcalls Hobj Hsilent)).
Defined.

(** * Further properties of the task store *)

Lemma filter_fmap_preserve {A} (P : A → Prop) `{!∀ x, Decision (P x)}
    (f : A → A) (l : list A) :
  (∀ x, x ∈ l → P (f x) ↔ P x) →
  filter P (f <$> l) = f <$> filter P l.
Proof.
  induction l as [|x l IH]; intros Hf; [done|].
  rewrite fmap_cons, !filter_cons.
  rewrite IH by (intros; apply Hf; by right).
  destruct (decide (P (f x))) as [Hfx|Hfx], (decide (P x)) as [Hx|Hx];
    try done; exfalso; apply (Hf x) in Hfx || apply (Hf x) in Hx;
    done || by left.
Qed.

(** The scan of an owner after [update_row], for a row that keeps id and
    owner. *)
Lemma select_update_row (user_id : pystr) (w w0 : World) (j : nat)
    (task task' : Task.t) :
  primary_key w → tasks w0 = tasks w →
  Server.select_tasks user_id w !! j = Some task →
  Task.id task' = Task.id task → Task.user_id task' = Task.user_id task →
  Server.select_tasks user_id (Server.update_row task' w0)
  = <[j := task']> (Server.select_tasks user_id w).
Proof.
  intros Hpk Hw0 Hj Hid Huser.
  unfold Server.select_tasks, Server.update_row. cbn [tasks]. rewrite Hw0.
  destruct (select_tasks_lookup _ _ _ _ Hj) as [Hu [i Hi]].
  rewrite filter_fmap_preserve.
  - apply (update_row_insert _ j task); [|done..].
    by apply primary_key_select.
  - intros r Hr. case_decide as Hkey; [|done].
    rewrite Hid in Hkey. rewrite (primary_key_user w i task r) by done.
    by rewrite Huser.
Qed.

Lemma select_update_row_other (other : pystr) (w w0 : World) (i : nat)
    (task task' : Task.t) :
  primary_key w → tasks w0 = tasks w → tasks w !! i = Some task →
  Task.id task' = Task.id task → Task.user_id task' = Task.user_id task →
  Task.user_id task ≠ other →
  Server.select_tasks other (Server.update_row task' w0)
  = Server.select_tasks other w.
Proof.
  intros Hpk Hw0 Hi Hid Huser Hother.
  unfold Server.select_tasks, Server.update_row. cbn [tasks]. rewrite Hw0.
  rewrite filter_fmap_preserve.
  - rewrite <- (list_fmap_id (filter _ (tasks w))) at 2.
    apply list_fmap_ext. intros k r Hk. apply list_elem_of_lookup_2 in Hk.
    apply list_elem_of_filter in Hk as [Hu Hr].
    case_decide as Hkey; [|done]. rewrite Hid in Hkey.
    rewrite (primary_key_user w i task r) in Hu by done. done.
  - intros r Hr. case_decide as Hkey; [|done].
    rewrite Hid in Hkey. rewrite (primary_key_user w i task r) by done.
    by rewrite Huser.
Qed.

Lemma update_row_ids (task' : Task.t) (w : World) :
  Task.id <$> tasks (Server.update_row task' w) = Task.id <$> tasks w.
Proof.
  unfold Server.update_row. cbn [tasks]. rewrite <- list_fmap_compose.
  apply list_fmap_ext. intros i r _. simpl. case_decide; congruence.
Qed.

(** What each position-addressed tool does to the store, by cases on the
    range check. *)
Lemma update_task_tool_store (E : Env) (request : Server.UpdateTaskRequest)
    (w : World) :
  (Server.update_task_tool E request w).2 = w
  ∨ ∃ task, Server.select_tasks (Server.upd_user_id request) w
              !! Z.to_nat (Server.upd_task_position request - 1) = Some task
      ∧ Server.update_task_tool E request w
        = (Return (Server.success_task
                     (updated_row E (Server.upd_title request)
                        (Server.upd_description request) task w)),
           Server.update_row
             (updated_row E (Server.upd_title request)
                (Server.upd_description request) task w)
             (Server.read_clock E w).2).
Proof.
  destruct request as [k user_id title description].
  destruct (decide (user_id = [])) as [->|Hu]; [by left|].
  destruct (decide (some_field title description)) as [Hf|Hf].
  - destruct (decide (1 ≤ k ≤ Z.of_nat (length (Server.select_tasks user_id w))))
      as [Hk|Hk].
    + right. by apply update_task_tool_in_range.
    + left. by rewrite update_task_tool_out_of_range.
  - left. unfold Server.update_task_tool. cbn.
    rewrite falsy_false by done.
    rewrite bool_decide_eq_true_2; [done|].
    unfold some_field in Hf. destruct title, description; naive_solver.
Qed.

Lemma complete_task_tool_store (E : Env) (request : Server.CompleteTaskRequest)
    (w : World) :
  (Server.complete_task_tool E request w).2 = w
  ∨ ∃ task, Server.select_tasks (Server.cmp_user_id request) w
              !! Z.to_nat (Server.cmp_task_position request - 1) = Some task
      ∧ Server.complete_task_tool E request w
        = (Return (Server.success_task
                     (completed_row E (Server.cmp_completed request) task w)),
           Server.update_row
             (completed_row E (Server.cmp_completed request) task w)
             (Server.read_clock E w).2).
Proof.
  destruct request as [k user_id completed].
  destruct (decide (user_id = [])) as [->|Hu]; [by left|].
  destruct (decide (1 ≤ k ≤ Z.of_nat (length (Server.select_tasks user_id w))))
    as [Hk|Hk].
  - right. by apply complete_task_tool_in_range.
  - left. by rewrite complete_task_tool_out_of_range.
Qed.

Lemma delete_task_tool_store (request : Server.DeleteTaskRequest) (w : World) :
  (Server.delete_task_tool request w).2 = w
  ∨ ∃ task, Server.select_tasks (Server.del_user_id request) w
              !! Z.to_nat (Server.del_task_position request - 1) = Some task
      ∧ Server.delete_task_tool request w
        = (Return (Server.deleted_message (Server.del_task_position request)),
           Server.delete_row task w).
Proof.
  destruct request as [k user_id].
  destruct (decide (user_id = [])) as [->|Hu]; [by left|].
  destruct (decide (1 ≤ k ≤ Z.of_nat (length (Server.select_tasks user_id w))))
    as [Hk|Hk].
  - right. by apply delete_task_tool_in_range.
  - left. by rewrite delete_task_tool_out_of_range.
Qed.

Lemma add_task_tool_store (E : Env) (request : Server.AddTaskRequest)
    (w : World) :
  (Server.add_task_tool E request w).2 = w
  ∨ (¬ invalid_add request
     ∧ Server.add_task_tool E request w
       = (Return (Server.success_task (new_row E request w)),
          after_add E request w)).
Proof.
  destruct (decide (Server.add_title request = [])) as [H1|H1].
  { left. destruct (add_task_tool_rejects E request w) as [d ->]; [|done].
    by left. }
  destruct (decide (strip (Server.add_title request) = [])) as [H2|H2].
  { left. destruct (add_task_tool_rejects E request w) as [d ->]; [|done].
    right. by left. }
  destruct (decide (Server.add_user_id request = [])) as [H3|H3].
  { left. destruct (add_task_tool_rejects E request w) as [d ->]; [|done].
    right. by right. }
  right. assert (Hok : ¬ invalid_add request) by (intros [?|[?|?]]; done).
  split; [done|]. by apply add_task_tool_accepts.
Qed.

Lemma list_tasks_tool_store (request : Server.ListTasksRequest) (w : World) :
  (Server.list_tasks_tool request w).2 = w.
Proof.
  destruct request as [user_id].
  destruct (decide (user_id = [])) as [->|Hu]; [done|].
  by rewrite list_tasks_tool_listing.
Qed.

Lemma run_tool_raise_store (E : Env) (r : tool_request) (w : World)
    (status_code : Z) (detail : pystr) :
  (run_tool E r w).1 = Raise status_code detail → (run_tool E r w).2 = w.
Proof.
  intros Hraise. destruct r as [rq|rq|rq|rq|rq]; simpl in *.
  - destruct (add_task_tool_store E rq w) as [?|[_ Heq]]; [done|].
    by rewrite Heq in Hraise.
  - apply list_tasks_tool_store.
  - destruct (update_task_tool_store E rq w) as [?|(task & _ & Heq)]; [done|].
    by rewrite Heq in Hraise.
  - destruct (complete_task_tool_store E rq w) as [?|(task & _ & Heq)]; [done|].
    by rewrite Heq in Hraise.
  - destruct (delete_task_tool_store rq w) as [?|(task & _ & Heq)]; [done|].
    by rewrite Heq in Hraise.
Qed.

(** X1.  A tool that raises leaves the store as it was: whatever the
    request, an [HTTPException] from one of the five tools comes with
    the table, the clock readings and the key supply unchanged, and
    [list_tasks_tool] never changes the store at all. *)
Theorem raising_tool_keeps_store (E : Env) (r : tool_request) (w : World) :
  (∀ status_code detail,
     (run_tool E r w).1 = Raise status_code detail → (run_tool E r w).2 = w)
  ∧ (∀ request, (Server.list_tasks_tool request w).2 = w).
Proof.
  split; [apply run_tool_raise_store|intros; apply list_tasks_tool_store].
Qed.

Lemma raising_tool_keeps_store_witness :
  let r := DeleteTask {| Server.del_task_position := 7;
                         Server.del_user_id := Sample.alice |} in
  (run_tool Sample.env r Sample.abc).1
    = caught_not_found "Error deleting task: " 7
  ∧ (run_tool Sample.env r Sample.abc).2 = Sample.abc.
Proof.
  intros r.
  assert (Hraise : (run_tool Sample.env r Sample.abc).1
                   = caught_not_found "Error deleting task: " 7)
    by (vm_compute; reflexivity).
  split; [exact Hraise|].
  exact (proj1 (raising_tool_keeps_store Sample.env r Sample.abc) _ _ Hraise).
Defined.

(** X2.  The tools keep the primary key: on a table without two rows of
    the same id, an update, a completion, a deletion and a listing leave
    such a table, whatever the request; so does an insertion whenever
    the id given to the new row is not in the table yet. *)
Theorem tools_keep_primary_key (E : Env) (r : tool_request) (w : World) :
  primary_key w →
  (∀ request, r = AddTask request → fresh_id E w) →
  primary_key (run_tool E r w).2.
Proof.
  intros Hpk Hfresh. destruct r as [rq|rq|rq|rq|rq]; simpl.
  - destruct (add_task_tool_store E rq w) as [->|[_ ->]]; [done|].
    unfold primary_key, after_add. cbn [snd tasks].
    rewrite fmap_app. apply NoDup_app. split; [done|]. split.
    + intros x Hx Hx'. apply list_elem_of_singleton in Hx'. subst x.
      by apply (Hfresh rq).
    + apply NoDup_singleton.
  - by rewrite list_tasks_tool_store.
  - destruct (update_task_tool_store E rq w) as [->|(task & _ & ->)]; [done|].
    unfold primary_key. cbn [snd]. by rewrite update_row_ids.
  - destruct (complete_task_tool_store E rq w) as [->|(task & _ & ->)]; [done|].
    unfold primary_key. cbn [snd]. by rewrite update_row_ids.
  - destruct (delete_task_tool_store rq w) as [->|(task & _ & ->)]; [done|].
    by apply primary_key_delete_row.
Qed.

Lemma tools_keep_primary_key_witness :
  let r := AddTask {| Server.add_title := py "D";
                      Server.add_description := [];
                      Server.add_user_id := Sample.bob |} in
  primary_key Sample.abc
  ∧ fresh_id Sample.env Sample.abc
  ∧ primary_key (run_tool Sample.env r Sample.abc).2
  ∧ length (tasks (run_tool Sample.env r Sample.abc).2) = 5%nat.
Proof.
  intros r.
  assert (Hpk : primary_key Sample.abc) by compute_done.
  assert (Hfresh : fresh_id Sample.env Sample.abc) by compute_done.
  split; [exact Hpk|]. split; [exact Hfresh|].
  split; [|vm_compute; reflexivity].
  exact (tools_keep_primary_key Sample.env r Sample.abc Hpk (λ _ _, Hfresh)).
Defined.

Lemma run_tool_other_owners (E : Env) (r : tool_request) (other : pystr)
    (w : World) :
  primary_key w → request_user_id r ≠ other →
  Server.select_tasks other (run_tool E r w).2 = Server.select_tasks other w.
Proof.
  intros Hpk Hother. destruct r as [rq|rq|rq|rq|rq]; simpl in *.
  - destruct (add_task_tool_store E rq w) as [->|[_ ->]]; [done|].
    unfold Server.select_tasks, after_add. cbn [snd tasks].
    rewrite filter_app, filter_cons, decide_False by done.
    by rewrite filter_nil, app_nil_r.
  - by rewrite list_tasks_tool_store.
  - destruct (update_task_tool_store E rq w) as [->|(task & Ht & ->)]; [done|].
    destruct (select_tasks_lookup _ _ _ _ Ht) as [Hu [i Hi]].
    apply (select_update_row_other other w _ i task); try done. congruence.
  - destruct (complete_task_tool_store E rq w) as [->|(task & Ht & ->)]; [done|].
    destruct (select_tasks_lookup _ _ _ _ Ht) as [Hu [i Hi]].
    apply (select_update_row_other other w _ i task); try done. congruence.
  - destruct (delete_task_tool_store rq w) as [->|(task & Ht & ->)]; [done|].
    destruct (select_tasks_lookup _ _ _ _ Ht) as [Hu [i Hi]].
    apply select_delete_row_other; [done| |congruence].
    by eapply list_elem_of_lookup_2.
Qed.

(** X3.  The tools touch the rows of the request's owner only: on a
    table with a primary key, whatever one of the five tools does for
    the owner of its request, the scan of every other owner is the same
    afterwards, rows and order. *)
Theorem tools_keep_other_owners (E : Env) (r : tool_request) (other : pystr)
    (w : World) :
  primary_key w → request_user_id r ≠ other →
  Server.get_user_tasks other (run_tool E r w).2
  = Server.get_user_tasks other w.
Proof. apply run_tool_other_owners. Qed.

Lemma tools_keep_other_owners_witness :
  let r := DeleteTask {| Server.del_task_position := 1;
                         Server.del_user_id := Sample.alice |} in
  primary_key Sample.abc
  ∧ request_user_id r ≠ Sample.bob
  ∧ Server.get_user_tasks Sample.bob (run_tool Sample.env r Sample.abc).2
    = Server.get_user_tasks Sample.bob Sample.abc
  ∧ Sample.titles (Server.get_user_tasks Sample.bob Sample.abc) = [py "X"].
Proof.
  intros r.
  assert (Hpk : primary_key Sample.abc) by compute_done.
  assert (Hother : request_user_id r ≠ Sample.bob)
    by (intros H; vm_compute in H; discriminate H).
  split; [exact Hpk|]. split; [exact Hother|].
  split; [|vm_compute; reflexivity].
  exact (tools_keep_other_owners Sample.env r Sample.bob Sample.abc Hpk Hother).
Defined.

(** X4.  An added task goes to the end of its owner's list: after an
    accepted [add_task_tool] the owner's scan is the old scan followed
    by the new row, so the new task is found at position [N + 1] and
    every position from 1 to [N] still finds the task it found before. *)
Theorem add_task_last_position (E : Env) (request : Server.AddTaskRequest)
    (w : World) :
  ¬ invalid_add request →
  let user_id := Server.add_user_id request in
  let N := Z.of_nat (length (Server.get_user_tasks user_id w)) in
  let w' := (Server.add_task_tool E request w).2 in
  Server.get_user_tasks user_id w'
    = Server.get_user_tasks user_id w ++ [new_row E request w]
  ∧ Server.get_task_by_position user_id (N + 1) w'
    = Return (new_row E request w, N)
  ∧ (∀ k, 1 ≤ k ≤ N →
       Server.get_task_by_position user_id k w'
       = Server.get_task_by_position user_id k w).
Proof.
  intros Hok user_id N w'. unfold w'. rewrite add_task_tool_accepts by done.
  cbn [snd].
  assert (Hscan : Server.select_tasks user_id (after_add E request w)
                  = Server.select_tasks user_id w ++ [new_row E request w]).
  { unfold Server.select_tasks, after_add. cbn [tasks].
    rewrite filter_app, filter_cons, decide_True by done.
    by rewrite filter_nil. }
  split; [done|]. split.
  - rewrite get_task_by_position_task_at.
    destruct (task_at_in_range user_id (after_add E request w) (N + 1))
      as (task & Ht & ->).
    { rewrite Hscan, length_app. simpl. unfold N, Server.get_user_tasks. lia. }
    rewrite Hscan in Ht.
    replace (Z.to_nat (N + 1 - 1))
      with (length (Server.select_tasks user_id w) + 0)%nat in Ht
      by (unfold N, Server.get_user_tasks; lia).
    rewrite lookup_app_r, Nat.add_comm, Nat.add_sub in Ht by lia.
    simpl in Ht. simplify_eq. do 2 f_equal. lia.
  - intros k Hk. unfold N, Server.get_user_tasks in Hk.
    rewrite !get_task_by_position_task_at.
    destruct (task_at_in_range user_id w k Hk) as (task & Ht & ->).
    destruct (task_at_in_range user_id (after_add E request w) k)
      as (task' & Ht' & ->).
    { rewrite Hscan, length_app. simpl. lia. }
    rewrite Hscan, lookup_app_l in Ht' by lia. congruence.
Qed.

Lemma add_task_last_position_witness :
  let request := {| Server.add_title := py "D";
                    Server.add_description := [];
                    Server.add_user_id := Sample.alice |} in
  ¬ invalid_add request
  ∧ Server.get_task_by_position Sample.alice (3 + 1)
      (Server.add_task_tool Sample.env request Sample.abc).2
    = Return (new_row Sample.env request Sample.abc, 3)
  ∧ Task.title (new_row Sample.env request Sample.abc) = py "D".
Proof.
  intros request.
  assert (Hok : ¬ invalid_add request).
  { intros [H|[H|H]]; vm_compute in H; discriminate H. }
  split; [exact Hok|]. split; [|reflexivity].
  exact (proj1 (proj2 (add_task_last_position Sample.env request Sample.abc Hok))).
Defined.

Lemma get_task_by_position_Return (user_id : pystr) (j : Z) (w : World)
    (task : Task.t) (i : Z) :
  Server.get_task_by_position user_id j w = Return (task, i)
  ↔ 1 ≤ j ∧ i = j - 1
    ∧ Server.select_tasks user_id w !! Z.to_nat (j - 1) = Some task.
Proof.
  rewrite get_task_by_position_task_at.
  destruct (decide (1 ≤ j ≤ Z.of_nat (length (Server.select_tasks user_id w))))
    as [Hj|Hj].
  - destruct (task_at_in_range user_id w j Hj) as (task' & Ht & ->).
    rewrite Ht. split.
    + intros ?; simplify_eq. split; [lia|done].
    + intros (_ & -> & ?); by simplify_eq.
  - rewrite task_at_out_of_range by done. split; [done|].
    intros (Hj1 & _ & Ht). apply lookup_lt_Some in Ht. lia.
Qed.

(** X5.  A deletion shifts the positions behind it: after
    [delete_task_tool] for a position [k] in range the owner has one
    task less, every position before [k] finds the task it found
    before, every position [j] from [k] on finds the task that was at
    [j + 1], and the old last position is out of range. *)
Theorem delete_shifts_positions (user_id : pystr) (k : Z) (w : World) :
  user_id ≠ [] → primary_key w →
  let N := Z.of_nat (length (Server.get_user_tasks user_id w)) in
  1 ≤ k ≤ N →
  let w' := (Server.delete_task_tool
               {| Server.del_task_position := k;
                  Server.del_user_id := user_id |} w).2 in
  Z.of_nat (length (Server.get_user_tasks user_id w')) = N - 1
  ∧ (∀ j, 1 ≤ j < k →
       Server.get_task_by_position user_id j w'
       = Server.get_task_by_position user_id j w)
  ∧ (∀ j task, k ≤ j →
       Server.get_task_by_position user_id (j + 1) w = Return (task, j) →
       Server.get_task_by_position user_id j w' = Return (task, j - 1))
  ∧ Server.get_task_by_position user_id N w' = Raise 404 (Server.not_found N).
Proof.
  intros Hu Hpk N Hk w'. unfold N, Server.get_user_tasks in *.
  destruct (delete_task_tool_in_range user_id k w Hu Hk) as (task0 & Ht0 & Heq).
  assert (Hscan : Server.select_tasks user_id w'
                  = delete (Z.to_nat (k - 1)) (Server.select_tasks user_id w)).
  { unfold w'. rewrite Heq. cbn [snd]. by apply select_delete_row. }
  assert (Hlen : Z.of_nat (length (Server.select_tasks user_id w'))
                 = Z.of_nat (length (Server.select_tasks user_id w)) - 1).
  { rewrite Hscan, length_delete by done. lia. }
  split; [done|]. split; [|split].
  - intros j Hj. rewrite !get_task_by_position_task_at.
    destruct (task_at_in_range user_id w j) as (t & Ht & ->); [lia|].
    destruct (task_at_in_range user_id w' j) as (t' & Ht' & ->); [lia|].
    rewrite Hscan, list_lookup_delete_lt in Ht' by lia. congruence.
  - intros j task Hj Hget.
    apply get_task_by_position_Return in Hget as (_ & _ & Ht).
    apply get_task_by_position_Return. split; [lia|]. split; [done|].
    rewrite Hscan, list_lookup_delete_ge by lia.
    by replace (S (Z.to_nat (j - 1))) with (Z.to_nat (j + 1 - 1)) by lia.
  - rewrite get_task_by_position_task_at.
    by rewrite task_at_out_of_range by lia.
Qed.

Lemma delete_shifts_positions_witness :
  Sample.alice ≠ [] ∧ primary_key Sample.abc
  ∧ 1 ≤ 1 ≤ Z.of_nat (length (Server.get_user_tasks Sample.alice Sample.abc))
  ∧ Z.of_nat (length (Server.get_user_tasks Sample.alice
       (Server.delete_task_tool
          {| Server.del_task_position := 1;
             Server.del_user_id := Sample.alice |} Sample.abc).2)) = 3 - 1
  ∧ Sample.titles (Server.get_user_tasks Sample.alice
       (Server.delete_task_tool
          {| Server.del_task_position := 1;
             Server.del_user_id := Sample.alice |} Sample.abc).2)
    = [py "B"; py "C"].
Proof.
  assert (Hu : Sample.alice ≠ []) by (intros H; vm_compute in H; discriminate H).
  assert (Hpk : primary_key Sample.abc) by compute_done.
  assert (Hk : 1 ≤ 1 ≤ Z.of_nat (length (Server.get_user_tasks Sample.alice
                                            Sample.abc)))
    by (vm_compute; split; discriminate).
  split; [exact Hu|]. split; [exact Hpk|]. split; [exact Hk|].
  split; [|vm_compute; reflexivity].
  exact (proj1 (delete_shifts_positions Sample.alice 1 Sample.abc Hu Hpk Hk)).
Defined.

(** X6.  Completing is idempotent on the flag: for a position in range,
    [complete_task_tool] with the same value twice in a row succeeds
    both times; after either call the task at that position has the
    given flag and its former id, title, description, owner and creation
    time, the second call moves [updated_at] to the next clock reading,
    and no other position of the owner changes. *)
Theorem complete_task_twice (E : Env) (user_id : pystr) (k : Z)
    (completed : bool) (w : World) :
  user_id ≠ [] → primary_key w →
  1 ≤ k ≤ Z.of_nat (length (Server.get_user_tasks user_id w)) →
  let request := {| Server.cmp_task_position := k;
                    Server.cmp_user_id := user_id;
                    Server.cmp_completed := completed |} in
  let r1 := Server.complete_task_tool E request w in
  let r2 := Server.complete_task_tool E request r1.2 in
  ∃ task,
    Server.get_user_tasks user_id w !! Z.to_nat (k - 1) = Some task
    ∧ let after (reading : nat) :=
        Task.mk (Task.id task) (Task.title task) (Task.description task)
          completed (Task.user_id task) (Task.created_at task)
          (utcnow E reading) in
      r1.1 = Return (Server.success_task (after (clock_reads w)))
      ∧ r2.1 = Return (Server.success_task (after (S (clock_reads w))))
      ∧ Server.get_user_tasks user_id r1.2
        = <[Z.to_nat (k - 1) := after (clock_reads w)]>
            (Server.get_user_tasks user_id w)
      ∧ Server.get_user_tasks user_id r2.2
        = <[Z.to_nat (k - 1) := after (S (clock_reads w))]>
            (Server.get_user_tasks user_id w).
Proof.
  intros Hu Hpk Hk request r1 r2. unfold Server.get_user_tasks in *.
  destruct (complete_task_tool_in_range E user_id k completed w Hu Hk)
    as (task & Ht & Heq1).
  exists task. split; [done|].
  set (after := λ reading : nat,
         Task.mk (Task.id task) (Task.title task) (Task.description task)
           completed (Task.user_id task) (Task.created_at task)
           (utcnow E reading)).
  set (j := Z.to_nat (k - 1)) in *.
  assert (Hrow1 : completed_row E completed task w = after (clock_reads w))
    by done.
  assert (Hscan1 : Server.select_tasks user_id r1.2
                   = <[j := after (clock_reads w)]>
                       (Server.select_tasks user_id w)).
  { unfold r1, request. rewrite Heq1. cbn [snd]. rewrite Hrow1.
    by apply (select_update_row user_id w _ j task). }
  assert (Hpk1 : primary_key r1.2).
  { unfold r1, request. rewrite Heq1. cbn [snd]. unfold primary_key.
    by rewrite update_row_ids. }
  assert (Hk1 : 1 ≤ k ≤ Z.of_nat (length (Server.select_tasks user_id r1.2)))
    by (by rewrite Hscan1, length_insert).
  destruct (complete_task_tool_in_range E user_id k completed r1.2 Hu Hk1)
    as (task1 & Ht1 & Heq2).
  fold j in Ht1. rewrite Hscan1, list_lookup_insert_eq in Ht1
    by (by eapply lookup_lt_Some).
  injection Ht1 as <-.
  assert (Hclock : clock_reads r1.2 = S (clock_reads w))
    by (unfold r1, request; by rewrite Heq1).
  assert (Hrow2 : completed_row E completed (after (clock_reads w)) r1.2
                  = after (S (clock_reads w))).
  { unfold completed_row. by rewrite Hclock. }
  split; [unfold r1, request; by rewrite Heq1|].
  split; [unfold r2, request; by rewrite Heq2, Hrow2|].
  split; [done|].
  unfold r2, request. rewrite Heq2, Hrow2. cbn [snd].
  rewrite (select_update_row user_id r1.2 _ j (after (clock_reads w)));
    try done.
  - rewrite Hscan1. apply list_insert_insert_eq.
  - rewrite Hscan1. apply list_lookup_insert_eq. by eapply lookup_lt_Some.
Qed.

Lemma complete_task_twice_witness :
  Sample.alice ≠ [] ∧ primary_key Sample.abc
  ∧ 1 ≤ 2 ≤ Z.of_nat (length (Server.get_user_tasks Sample.alice Sample.abc))
  ∧ ∃ task,
      Server.get_user_tasks Sample.alice Sample.abc !! Z.to_nat (2 - 1)
      = Some task
      ∧ (Server.complete_task_tool Sample.env
           {| Server.cmp_task_position := 2;
              Server.cmp_user_id := Sample.alice;
              Server.cmp_completed := true |} Sample.abc).1
        = Return (Server.success_task
                    (Task.mk (Task.id task) (Task.title task)
                       (Task.description task) true (Task.user_id task)
                       (Task.created_at task)
                       (utcnow Sample.env (clock_reads Sample.abc)))).
Proof.
  assert (Hu : Sample.alice ≠ []) by (intros H; vm_compute in H; discriminate H).
  assert (Hpk : primary_key Sample.abc) by compute_done.
  assert (Hk : 1 ≤ 2 ≤ Z.of_nat (length (Server.get_user_tasks Sample.alice
                                            Sample.abc)))
    by (vm_compute; split; discriminate).
  split; [exact Hu|]. split; [exact Hpk|]. split; [exact Hk|].
  destruct (complete_task_twice Sample.env Sample.alice 2 true Sample.abc
              Hu Hpk Hk) as (task & Ht & H1 & _).
  exists task. split; [exact Ht|exact H1].
Defined.

Lemma pending_completed_length (items : list (Z * Task.t)) :
  (length (filter is_pending items) + length (filter is_completed items)
   = length items)%nat.
Proof.
  induction items as [|[idx task] items IH]; [done|].
  rewrite !filter_cons.
  destruct (decide (is_pending (idx, task))) as [Hp|Hp];
    destruct (decide (is_completed (idx, task))) as [Hc|Hc];
    unfold is_pending, is_completed in Hp, Hc; simpl in *; try lia.
  - congruence.
  - by destruct (Task.completed task).
Qed.

Lemma pending_length (start : Z) (l : list Task.t) :
  length (filter is_pending (Server.enumerate start l))
  = length (filter (λ task, Task.completed task = false) l).
Proof.
  revert start. induction l as [|task l IH]; intros start; [done|].
  cbn [Server.enumerate]. rewrite !filter_cons.
  destruct (decide (is_pending (start, task))) as [Hp|Hp];
    unfold is_pending in Hp; simpl in Hp.
  - rewrite decide_True by done. simpl. by rewrite IH.
  - rewrite decide_False by done. by rewrite IH.
Qed.

(** X7.  The summary of a listing adds up: for a non-empty owner with
    [N] tasks, [list_tasks_tool] succeeds, lists [N] entries and reports
    [total = N] and [pending + completed = N], where [pending] counts
    the owner's tasks that are not completed.  An owner without tasks
    gets a successful answer with empty lists and three zero counts,
    not an error. *)
Theorem list_tasks_summary (user_id : pystr) (w : World) :
  user_id ≠ [] →
  let scan := Server.get_user_tasks user_id w in
  let r := (Server.list_tasks_tool {| Server.list_user_id := user_id |} w).1 in
  (∃ pending completed,
     summary_counts r = Some (Z.of_nat (length scan), pending, completed)
     ∧ pending + completed = Z.of_nat (length scan)
     ∧ pending
       = Z.of_nat (length (filter (λ task, Task.completed task = false) scan)))
  ∧ listed_count r = Some (length scan)
  ∧ (scan = [] →
     r = Return (JObj [("success", JBool true);
                       ("tasks", JArr []);
                       ("summary", JObj [("total", JInt 0);
                                         ("pending", JInt 0);
                                         ("completed", JInt 0)]);
                       ("pending_tasks", JArr []);
                       ("completed_tasks", JArr [])])).
Proof.
  intros Hu scan r. unfold r. rewrite list_tasks_tool_listing by done.
  cbn [fst]. unfold tagged_scan. fold scan.
  pose proof (pending_completed_length (Server.enumerate 1 scan)) as Hsum.
  rewrite length_enumerate in Hsum.
  split; [|split].
  - eexists _, _. split.
    + unfold listing, summary_counts. simpl.
      by rewrite length_enumerate.
    + rewrite !length_fmap. split; [lia|]. by rewrite pending_length.
  - unfold listing, listed_count. simpl.
    rewrite length_app, !length_fmap. by rewrite Hsum.
  - intros ->. done.
Qed.

Lemma list_tasks_summary_witness :
  Sample.alice ≠ []
  ∧ summary_counts
      (Server.list_tasks_tool {| Server.list_user_id := Sample.alice |}
         Sample.abc).1 = Some (3, 3, 0)
  ∧ listed_count
      (Server.list_tasks_tool {| Server.list_user_id := Sample.alice |}
         Sample.abc).1
    = Some (length (Server.get_user_tasks Sample.alice Sample.abc)).
Proof.
  assert (Hu : Sample.alice ≠ []) by (intros H; vm_compute in H; discriminate H).
  split; [exact Hu|]. split; [vm_compute; reflexivity|].
  exact (proj1 (proj2 (list_tasks_summary Sample.alice Sample.abc Hu))).
Defined.

(** X8.  [get_task_by_id] finds a row by its own id and owner, and only
    such a row: what it returns is a row of the table with the id and
    the owner asked for; on a table with a primary key, asked for the id
    and owner of a row it returns that row; and an id that no row of
    that owner has, be it the id of another owner's task, raises the
    404. *)
Theorem get_task_by_id_lookup (task_id user_id : pystr) (w : World) :
  (∀ task, get_task_by_id task_id user_id w = Return task →
     task ∈ tasks w ∧ Task.id task = task_id ∧ Task.user_id task = user_id)
  ∧ (∀ task, primary_key w → task ∈ tasks w →
       get_task_by_id (Task.id task) (Task.user_id task) w = Return task)
  ∧ ((∀ task, task ∈ tasks w → Task.id task = task_id →
        Task.user_id task ≠ user_id) →
     get_task_by_id task_id user_id w
     = Raise 404 (py "Task with id " ++ task_id ++ py " not found")).
Proof.
  split; [|split].
  - intros task. unfold get_task_by_id.
    destruct (filter _ (tasks w)) as [|task' rest] eqn:Hf; [done|].
    intros ?; simplify_eq.
    assert (Hin : task ∈ filter (λ t, Task.id t = task_id
                                      ∧ Task.user_id t = user_id) (tasks w))
      by (rewrite Hf; by left).
    apply list_elem_of_filter in Hin as [[? ?] ?]. done.
  - intros task Hpk Hin. unfold get_task_by_id.
    destruct (filter _ (tasks w)) as [|task' rest] eqn:Hf.
    + exfalso.
      assert (Hin' : task ∈ filter (λ t, Task.id t = Task.id task
                                         ∧ Task.user_id t = Task.user_id task)
                               (tasks w))
        by (by apply list_elem_of_filter).
      rewrite Hf in Hin'. by apply elem_of_nil in Hin'.
    + assert (Hin' : task' ∈ filter (λ t, Task.id t = Task.id task
                                          ∧ Task.user_id t = Task.user_id task)
                                (tasks w))
        by (rewrite Hf; by left).
      apply list_elem_of_filter in Hin' as [[Hid _] Hin'].
      apply list_elem_of_lookup_1 in Hin as [i Hi].
      by rewrite (primary_key_user w i task task').
  - intros Hnone. unfold get_task_by_id.
    destruct (filter _ (tasks w)) as [|task' rest] eqn:Hf; [done|].
    exfalso.
    assert (Hin : task' ∈ filter (λ t, Task.id t = task_id
                                       ∧ Task.user_id t = user_id) (tasks w))
      by (rewrite Hf; by left).
    apply list_elem_of_filter in Hin as [[Hid Hu] Hin].
    by apply (Hnone task').
Qed.

Lemma get_task_by_id_lookup_witness :
  primary_key Sample.abc
  ∧ (∃ task, task ∈ tasks Sample.abc
       ∧ Task.id task = py "task-1" ∧ Task.user_id task = Sample.bob
       ∧ get_task_by_id (py "task-1") Sample.bob Sample.abc = Return task)
  ∧ get_task_by_id (py "task-1") Sample.alice Sample.abc
    = Raise 404 (py "Task with id " ++ py "task-1" ++ py " not found").
Proof.
  assert (Hpk : primary_key Sample.abc) by compute_done.
  split; [exact Hpk|].
  destruct (get_task_by_id_lookup (py "task-1") Sample.bob Sample.abc)
    as (Hret & _ & _).
  destruct (get_task_by_id_lookup (py "task-1") Sample.alice Sample.abc)
    as (_ & _ & Hnone).
  split.
  - destruct (get_task_by_id (py "task-1") Sample.bob Sample.abc)
      as [task|] eqn:Hget; [|vm_compute in Hget; discriminate Hget].
    destruct (Hret task eq_refl) as (Hin & Hid & Hu).
    exists task. repeat split; assumption || reflexivity.
  - apply Hnone. intros task Hin Hid Hu.
    vm_compute in Hin.
    repeat (apply elem_of_cons in Hin as [->|Hin];
            [vm_compute in Hid, Hu; congruence|]).
    by apply elem_of_nil in Hin.
Defined.

(** X9.  [add_task_tool] answers "Title is required" exactly for the
    titles made of whitespace only, the empty title among them: a title
    with one character that [strip] keeps passes the title check,
    whatever surrounds it. *)
Theorem add_task_blank_title (E : Env) (request : Server.AddTaskRequest)
    (w : World) :
  (Server.add_task_tool E request w).1 = Raise 400 (py "Title is required")
  ↔ Forall (λ c, isspace c = true) (Server.add_title request).
Proof.
  rewrite <- strip_nil. unfold Server.add_task_tool. split.
  - destruct (falsy (Server.add_title request)) eqn:H1.
    + apply falsy_true in H1. by rewrite H1.
    + destruct (falsy (strip (Server.add_title request))) eqn:H2.
      * by apply falsy_true in H2.
      * simpl. destruct (falsy (Server.add_user_id request)); simpl.
        -- intros H. vm_compute in H. discriminate H.
        -- done.
  - intros Hstrip. rewrite Hstrip. simpl. by rewrite orb_true_r.
Qed.

(** * Further properties of the orchestrators *)

Lemma find_position_items (i : pystr) (k : Z) (task : Task.t)
    (items : list (Z * Task.t)) :
  (∀ item, item ∈ items → Task.id item.2 = i → item = (k, task)) →
  (k, task) ∈ items → Task.id task = i →
  Chat.find_position (JStr i) (as_task_data <$> items) = Some (JInt k).
Proof.
  intros Huniq Hin Hid. induction items as [|[idx t] items IH];
    [by apply elem_of_nil in Hin|].
  rewrite fmap_cons. cbn [Chat.find_position].
  unfold as_task_data at 1. cbn [fst snd]. rewrite task_data_id.
  cbn [default from_option Datatypes.id json_eqb].
  case_bool_decide as Ht.
  - specialize (Huniq (idx, t) ltac:(by left) Ht). simplify_eq. done.
  - apply IH.
    + intros item Hitem. apply Huniq. by right.
    + apply elem_of_cons in Hin as [Heq|Hin]; [|done]. by simplify_eq.
Qed.

Lemma find_position_none (i : pystr) (items : list (Z * Task.t)) :
  (∀ item, item ∈ items → Task.id item.2 ≠ i) →
  Chat.find_position (JStr i) (as_task_data <$> items) = None.
Proof.
  induction items as [|[idx t] items IH]; intros Hnone; [done|].
  rewrite fmap_cons. cbn [Chat.find_position].
  unfold as_task_data at 1. cbn [fst snd]. rewrite task_data_id.
  cbn [default from_option Datatypes.id json_eqb].
  rewrite bool_decide_eq_false_2 by (apply (Hnone (idx, t)); by left).
  apply IH. intros item Hitem. apply Hnone. by right.
Qed.

Lemma elem_of_display (user_id : pystr) (w : World) (item : Z * Task.t) :
  item ∈ filter is_pending (tagged_scan user_id w)
         ++ filter is_completed (tagged_scan user_id w)
  ↔ 1 ≤ item.1
    ∧ Server.select_tasks user_id w !! Z.to_nat (item.1 - 1) = Some item.2.
Proof.
  destruct item as [idx task]. unfold tagged_scan, Server.get_user_tasks.
  rewrite <- elem_of_enumerate, elem_of_app, !list_elem_of_filter.
  unfold is_pending, is_completed. simpl.
  destruct (Task.completed task); intuition congruence.
Qed.

Lemma post_list_tasks (E : Env) (user_id : pystr) (n : Net) :
  user_id ≠ [] → as_str E (JStr user_id) = Some user_id →
  post E "list_tasks" {[ "user_id" := JStr user_id ]} n
  = ((200, listing (tagged_scan user_id (world n))),
     {| world := world n; wire := wire n ++ [list_request user_id] |}).
Proof.
  intros Hu Hstr. unfold post, Server.handle.
  rewrite decide_False by done. rewrite decide_True by done.
  unfold Server.parse_list, Server.field. rewrite lookup_singleton_eq, Hstr.
  cbn [mbind option_bind]. by rewrite list_tasks_tool_listing.
Qed.

Lemma position_from_id_run (E : Env) (user_id task_id : pystr) (n : Net) :
  user_id ≠ [] → as_str E (JStr user_id) = Some user_id →
  Chat.get_task_position_from_id E (JStr task_id) (JStr user_id) n
  = (Chat.find_position (JStr task_id)
       (as_task_data <$> (filter is_pending (tagged_scan user_id (world n))
                          ++ filter is_completed
                               (tagged_scan user_id (world n)))),
     {| world := world n; wire := wire n ++ [list_request user_id] |}).
Proof.
  intros Hu Hstr. unfold Chat.get_task_position_from_id.
  rewrite post_list_tasks by done.
  rewrite bool_decide_eq_true_2 by done. cbn [negb].
  unfold listing. simpl. by rewrite fmap_app.
Qed.

Lemma position_from_id_found (E : Env) (user_id : pystr) (n : Net) (k : Z)
    (task : Task.t) :
  user_id ≠ [] → as_str E (JStr user_id) = Some user_id →
  primary_key (world n) → 1 ≤ k →
  Server.select_tasks user_id (world n) !! Z.to_nat (k - 1) = Some task →
  Chat.get_task_position_from_id E (JStr (Task.id task)) (JStr user_id) n
  = (Some (JInt k),
     {| world := world n; wire := wire n ++ [list_request user_id] |}).
Proof.
  intros Hu Hstr Hpk Hk Ht. rewrite position_from_id_run by done. f_equal.
  apply (find_position_items _ k task); [|by apply elem_of_display|done].
  intros [idx t] [Hidx Hitem]%elem_of_display Hid. cbn [fst snd] in *.
  assert (Z.to_nat (idx - 1) = Z.to_nat (k - 1)) as Heq.
  { eapply (NoDup_lookup _ _ _ (Task.id task));
      [apply (primary_key_select (world n) Hpk user_id)|..];
      rewrite list_lookup_fmap.
    - rewrite Hitem. simpl. congruence.
    - by rewrite Ht. }
  rewrite Heq in Hitem. f_equal; [lia|congruence].
Qed.

(** X10.  [get_task_position_from_id] inverts the listing: for the id of
    the task at position [k] of the user's scan it answers [k], and for
    an id none of the user's tasks has it answers [None]; either way it
    sends one [list_tasks] request for that user and leaves the store as
    it was. *)
Theorem task_position_from_id (E : Env) (user_id : pystr) (n : Net) :
  user_id ≠ [] → as_str E (JStr user_id) = Some user_id →
  primary_key (world n) →
  let n' := {| world := world n; wire := wire n ++ [list_request user_id] |} in
  (∀ k task,
     1 ≤ k →
     Server.get_user_tasks user_id (world n) !! Z.to_nat (k - 1) = Some task →
     Chat.get_task_position_from_id E (JStr (Task.id task)) (JStr user_id) n
     = (Some (JInt k), n'))
  ∧ (∀ task_id,
       (∀ task, task ∈ Server.get_user_tasks user_id (world n) →
                Task.id task ≠ task_id) →
       Chat.get_task_position_from_id E (JStr task_id) (JStr user_id) n
       = (None, n')).
Proof.
  intros Hu Hstr Hpk n'. unfold Server.get_user_tasks. split.
  - intros k task Hk Ht. by apply position_from_id_found.
  - intros task_id Hnone. rewrite position_from_id_run by done. f_equal.
    apply find_position_none.
    intros [idx t] [_ Hitem]%elem_of_display. cbn [fst snd] in *.
    apply Hnone. by eapply list_elem_of_lookup_2.
Qed.

Lemma task_position_from_id_witness :
  Sample.alice ≠ []
  ∧ as_str Sample.env (JStr Sample.alice) = Some Sample.alice
  ∧ primary_key (world (Turns.net Sample.abc))
  ∧ (Chat.get_task_position_from_id Sample.env (JStr (py "task-2"))
       (JStr Sample.alice) (Turns.net Sample.abc)).1 = Some (JInt 2)
  ∧ (Chat.get_task_position_from_id Sample.env (JStr (py "task-1"))
       (JStr Sample.alice) (Turns.net Sample.abc)).1 = None.
Proof.
  assert (Hu : Sample.alice ≠ []) by (intros H; vm_compute in H; discriminate H).
  assert (Hstr : as_str Sample.env (JStr Sample.alice) = Some Sample.alice)
    by reflexivity.
  assert (Hpk : primary_key (world (Turns.net Sample.abc))) by compute_done.
  split; [exact Hu|]. split; [exact Hstr|]. split; [exact Hpk|].
  destruct (task_position_from_id Sample.env Sample.alice (Turns.net Sample.abc)
              Hu Hstr Hpk) as [Hfound _].
  split; [|vm_compute; reflexivity].
  assert (Hsecond : ∃ task,
            Server.get_user_tasks Sample.alice (world (Turns.net Sample.abc))
              !! Z.to_nat (2 - 1) = Some task
            ∧ Task.id task = py "task-2").
  { eexists. split; vm_compute; reflexivity. }
  destruct Hsecond as (task & Ht & Hid).
  rewrite <- Hid. rewrite (Hfound 2 task); [reflexivity|lia|exact Ht].
Defined.

(** X11.  A [task_id] in place of a [task_position] is resolved to the
    position the task has at that moment: for an update, completion or
    deletion whose arguments name the id of the task at position [k] of
    the user's scan, [call_mcp_tool] first sends the [list_tasks]
    request and then the request of the tool with [task_position = k]
    and without [task_id].  For [delete_task] the row deleted is the row
    of that id. *)
Theorem call_mcp_tool_resolves_task_id (E : Env) (user_id : pystr)
    (tool_name : string) (args : gmap string json) (k : Z) (task : Task.t)
    (n : Net) :
  accepts_own_types E → user_id ≠ [] → primary_key (world n) →
  tool_name ∈ ["update_task"; "complete_task"; "delete_task"] →
  args !! "task_id" = Some (JStr (Task.id task)) →
  args !! "task_position" = None →
  args !! "user_id" = Some (JStr user_id) →
  1 ≤ k →
  Server.get_user_tasks user_id (world n) !! Z.to_nat (k - 1) = Some task →
  Chat.call_mcp_tool E tool_name args n
  = Chat.request_tool E tool_name
      (delete "task_id" (<["task_position" := JInt k]> args))
      {| world := world n; wire := wire n ++ [list_request user_id] |}
  ∧ (tool_name = "delete_task" →
     Chat.call_mcp_tool E tool_name args n
     = (Server.deleted_message k,
        {| world := Server.delete_row task (world n);
           wire := wire n
                   ++ [list_request user_id;
                       ("delete_task",
                        delete "task_id" (<["task_position" := JInt k]> args))] |})).
Proof.
  intros (Hint & Hstr & _) Hu Hpk Htool Hid Hpos Huser Hk Ht.
  assert (Hcall : Chat.call_mcp_tool E tool_name args n
    = Chat.request_tool E tool_name
        (delete "task_id" (<["task_position" := JInt k]> args))
        {| world := world n; wire := wire n ++ [list_request user_id] |}).
  { unfold Chat.call_mcp_tool.
    rewrite (bool_decide_eq_true_2 (tool_name ∈ Chat.tool_endpoints)).
    2:{ repeat (apply elem_of_cons in Htool as [->|Htool]; [compute_done|]).
        by apply elem_of_nil in Htool. }
    cbn [negb]. rewrite (bool_decide_eq_true_2 _ Htool).
    rewrite Hid, Hpos, Huser.
    rewrite (bool_decide_eq_true_2 (is_Some (Some _))) by (by eexists).
    rewrite (bool_decide_eq_false_2 (is_Some None)) by (by intros [? ?]).
    cbn [andb negb truthy_opt truthy default from_option Datatypes.id].
    rewrite falsy_false by done. cbn [negb].
    by rewrite (position_from_id_found E user_id n k task). }
  split; [done|]. intros ->. rewrite Hcall.
  unfold Chat.request_tool, post, Server.handle. cbn [world wire].
  rewrite !decide_False by done. rewrite decide_True by done.
  unfold Server.parse_delete, Server.field.
  rewrite (lookup_delete_ne _ "task_id" "task_position") by done.
  rewrite lookup_insert_eq.
  rewrite (lookup_delete_ne _ "task_id" "user_id") by done.
  rewrite lookup_insert_ne, Huser by done.
  rewrite Hint, Hstr. cbn [mbind option_bind].
  destruct (delete_task_tool_in_range user_id k (world n) Hu)
    as (task' & Ht' & ->).
  { split; [done|]. apply lookup_lt_Some in Ht.
    unfold Server.get_user_tasks in Ht. lia. }
  unfold Server.get_user_tasks in Ht. simplify_eq.
  cbn [Server.respond]. rewrite bool_decide_eq_true_2 by done. cbn [negb].
  by rewrite <- app_assoc.
Qed.

Lemma call_mcp_tool_resolves_task_id_witness :
  let args : gmap string json :=
    {[ "task_id" := JStr (py "task-2"); "user_id" := JStr Sample.alice ]} in
  accepts_own_types Sample.env ∧ Sample.alice ≠ []
  ∧ primary_key (world (Turns.net Sample.abc))
  ∧ Sample.titles
      (Server.get_user_tasks Sample.alice
         (world (Chat.call_mcp_tool Sample.env "delete_task" args
                   (Turns.net Sample.abc)).2))
    = [py "A"; py "C"]
  ∧ (Chat.call_mcp_tool Sample.env "delete_task" args (Turns.net Sample.abc)).1
    = Server.deleted_message 2.
Proof.
  intros args.
  assert (Hown : accepts_own_types Sample.env) by (repeat split).
  assert (Hu : Sample.alice ≠ []) by (intros H; vm_compute in H; discriminate H).
  assert (Hpk : primary_key (world (Turns.net Sample.abc))) by compute_done.
  split; [exact Hown|]. split; [exact Hu|]. split; [exact Hpk|].
  split; [vm_compute; reflexivity|].
  assert (Hsecond : ∃ task,
            Server.get_user_tasks Sample.alice (world (Turns.net Sample.abc))
              !! Z.to_nat (2 - 1) = Some task
            ∧ Task.id task = py "task-2").
  { eexists. split; vm_compute; reflexivity. }
  destruct Hsecond as (task & Ht & Hid).
  assert (Htool : "delete_task" ∈ ["update_task"; "complete_task"; "delete_task"])
    by compute_done.
  assert (Hargs : args !! "task_id" = Some (JStr (Task.id task)))
    by (rewrite Hid; vm_compute; reflexivity).
  assert (Hpos : args !! "task_position" = None) by (vm_compute; reflexivity).
  assert (Huser : args !! "user_id" = Some (JStr Sample.alice))
    by (vm_compute; reflexivity).
  assert (Hk : 1 ≤ 2) by lia.
  rewrite (proj2 (call_mcp_tool_resolves_task_id Sample.env Sample.alice
                    "delete_task" args 2 task (Turns.net Sample.abc)
                    Hown Hu Hpk Htool Hargs Hpos Huser Hk Ht) eq_refl).
  reflexivity.
Defined.

Lemma run_tool_calls_cons (E : Env) (current_user_id : pystr)
    (tool_call : ToolCall.t) (rest : list ToolCall.t) (args : gmap string json)
    (cache : gmap pystr json) (n : Net) :
  ToolCall.arguments tool_call = Some args →
  Chat.run_tool_calls E current_user_id (tool_call :: rest) cache n
  = let r := Chat.call_mcp_tool E (ToolCall.name tool_call)
               (<["user_id" := JStr current_user_id]> args) n in
    Chat.run_tool_calls E current_user_id rest
      (<[ToolCall.id tool_call := r.1]> cache) r.2.
Proof.
  intros Hargs. cbn [Chat.run_tool_calls]. rewrite Hargs.
  by destruct (Chat.call_mcp_tool _ _ _ _).
Qed.

Lemma call_results_cons (E : Env) (current_user_id : pystr)
    (tool_call : ToolCall.t) (rest : list ToolCall.t) (args : gmap string json)
    (n : Net) :
  ToolCall.arguments tool_call = Some args →
  call_results E current_user_id (tool_call :: rest) n
  = let r := Chat.call_mcp_tool E (ToolCall.name tool_call)
               (<["user_id" := JStr current_user_id]> args) n in
    r.1 :: call_results E current_user_id rest r.2.
Proof.
  intros Hargs. cbn [call_results]. rewrite Hargs.
  cbn [default from_option Datatypes.id].
  by destruct (Chat.call_mcp_tool _ _ _ _).
Qed.

Lemma tool_messages_ext (cache1 cache2 : gmap pystr json)
    (calls : list ToolCall.t) :
  (∀ tool_call, tool_call ∈ calls →
     cache1 !! ToolCall.id tool_call = cache2 !! ToolCall.id tool_call) →
  Chat.tool_messages cache1 calls = Chat.tool_messages cache2 calls.
Proof.
  induction calls as [|tool_call calls IH]; intros Hext; [done|].
  cbn [Chat.tool_messages].
  rewrite (Hext tool_call) by (by left).
  by rewrite IH by (intros; apply Hext; by right).
Qed.

Lemma run_tool_calls_messages (E : Env) (current_user_id : pystr)
    (calls : list ToolCall.t) (cache : gmap pystr json) (n : Net) :
  NoDup (ToolCall.id <$> calls) → Forall has_arguments calls →
  ∃ cache' n',
    Chat.run_tool_calls E current_user_id calls cache n = (Some cache', n')
    ∧ (∀ id, id ∉ ToolCall.id <$> calls → cache' !! id = cache !! id)
    ∧ Chat.tool_messages cache' calls
      = Some (zip_with ToolResult (call_results E current_user_id calls n)
                (ToolCall.id <$> calls)).
Proof.
  intros Hnd Hargs. revert cache n Hnd.
  induction Hargs as [|tool_call calls [args Hargs] _ IH]; intros cache n Hnd.
  - by exists cache, n.
  - rewrite fmap_cons in Hnd. apply NoDup_cons in Hnd as [Hfresh Hnd].
    rewrite (run_tool_calls_cons _ _ _ _ args) by done.
    rewrite (call_results_cons _ _ _ _ args) by done. cbn zeta.
    destruct (Chat.call_mcp_tool E _ _ n) as [tool_result n1]. cbn [fst snd].
    destruct (IH (<[ToolCall.id tool_call := tool_result]> cache) n1 Hnd)
      as (cache' & n' & -> & Hkeep & Hmessages).
    exists cache', n'. split; [done|]. split.
    + intros id Hid. rewrite fmap_cons in Hid.
      apply not_elem_of_cons in Hid as [Hne Hid].
      rewrite Hkeep by done. by rewrite lookup_insert_ne.
    + cbn [Chat.tool_messages]. rewrite Hkeep by done.
      rewrite lookup_insert_eq. cbn [mbind option_bind].
      rewrite Hmessages. done.
Qed.

(** X12.  Each result is matched with its own call: when the model's
    calls have pairwise distinct ids and every call has a JSON object
    as arguments, the tool loop returns, and the tool messages built
    for the second completion are, in the order of the calls, the
    result of each call under the id of that call. *)
Theorem tool_messages_match_calls (E : Env) (current_user_id : pystr)
    (calls : list ToolCall.t) (n : Net) :
  NoDup (ToolCall.id <$> calls) → Forall has_arguments calls →
  ∃ cache' n',
    Chat.run_tool_calls E current_user_id calls ∅ n = (Some cache', n')
    ∧ Chat.tool_messages cache' calls
      = Some (zip_with ToolResult (call_results E current_user_id calls n)
                (ToolCall.id <$> calls))
    ∧ length (call_results E current_user_id calls n) = length calls.
Proof.
  intros Hnd Hargs.
  destruct (run_tool_calls_messages E current_user_id calls ∅ n Hnd Hargs)
    as (cache' & n' & Hrun & _ & Hmessages).
  exists cache', n'. split; [done|]. split; [done|].
  clear Hrun Hmessages Hnd cache' n'. revert n.
  induction Hargs as [|tool_call calls [args Ha] _ IH]; intros n; [done|].
  rewrite (call_results_cons _ _ _ _ args) by done. cbn zeta.
  simpl. by rewrite IH.
Qed.

Lemma tool_messages_match_calls_witness :
  NoDup (ToolCall.id <$> tool_calls Turns.delete_1_2)
  ∧ Forall has_arguments (tool_calls Turns.delete_1_2)
  ∧ ∃ cache' n',
      Chat.run_tool_calls Sample.env Sample.alice (tool_calls Turns.delete_1_2)
        ∅ (Turns.net Sample.abc) = (Some cache', n')
      ∧ Chat.tool_messages cache' (tool_calls Turns.delete_1_2)
        = Some [ToolResult (Server.deleted_message 1) (py "call_1");
                ToolResult (Server.deleted_message 2) (py "call_2")].
Proof.
  assert (Hnd : NoDup (ToolCall.id <$> tool_calls Turns.delete_1_2))
    by compute_done.
  assert (Hargs : Forall has_arguments (tool_calls Turns.delete_1_2)).
  { repeat constructor; eexists; reflexivity. }
  split; [exact Hnd|]. split; [exact Hargs|].
  destruct (tool_messages_match_calls Sample.env Sample.alice
              (tool_calls Turns.delete_1_2) (Turns.net Sample.abc) Hnd Hargs)
    as (cache' & n' & Hrun & Hmessages & _).
  exists cache', n'. split; [exact Hrun|].
  rewrite Hmessages. vm_compute. reflexivity.
Defined.

(** X13.  What the tools did stays done: the store and the requests
    sent after [chat_endpoint] are those after the tool loop, whatever
    the second completion answers.  When the provider fails on the
    second completion of a turn with tool calls, the turn fails, and
    the tools' effects are still in the store. *)
Theorem turn_keeps_tool_effects (E : Env) (current_user_id : pystr)
    (messages : list Message) (response_message : ModelMessage)
    (create : list Message → option ModelMessage) (n : Net) :
  (Chat.chat_endpoint E current_user_id messages response_message create n).2
    = (Chat.run_tool_calls E current_user_id (tool_calls response_message) ∅ n).2
  ∧ (tool_calls response_message ≠ [] → (∀ api_messages, create api_messages = None) →
     (Chat.chat_endpoint E current_user_id messages response_message create n).1
     = None).
Proof.
  unfold Chat.chat_endpoint. split.
  - case_bool_decide as Hcalls; [by rewrite Hcalls|].
    destruct (Chat.run_tool_calls _ _ _ _ _) as [[cache'|] n']; [|done].
    destruct (Chat.tool_messages _ _); [|done].
    case_bool_decide; [|done]. by destruct (create _).
  - intros Hcalls Hfail. rewrite bool_decide_eq_false_2 by done.
    destruct (Chat.run_tool_calls _ _ _ _ _) as [[cache'|] n']; [|done].
    destruct (Chat.tool_messages _ _); [|done].
    rewrite bool_decide_eq_true_2
      by (destruct (tool_calls response_message); [done|simpl; lia]).
    by rewrite Hfail.
Qed.

Lemma turn_keeps_tool_effects_witness :
  tool_calls Turns.delete_1_2 ≠ []
  ∧ (∀ api_messages : list Message, (λ _, None) api_messages = @None ModelMessage)
  ∧ (Chat.chat_endpoint Sample.env Sample.alice
       (Turns.user_says "delete tasks 1 and 2") Turns.delete_1_2
       (λ _, None) (Turns.net Sample.abc)).1 = None
  ∧ Sample.titles
      (Server.get_user_tasks Sample.alice
         (world (Chat.chat_endpoint Sample.env Sample.alice
                   (Turns.user_says "delete tasks 1 and 2") Turns.delete_1_2
                   (λ _, None) (Turns.net Sample.abc)).2))
    = [py "B"].
Proof.
  assert (Hcalls : tool_calls Turns.delete_1_2 ≠ []) by discriminate.
  assert (Hfail : ∀ api_messages : list Message,
            (λ _, None) api_messages = @None ModelMessage)
    by (intros; reflexivity).
  split; [exact Hcalls|]. split; [exact Hfail|].
  split; [|vm_compute; reflexivity].
  exact (proj2 (turn_keeps_tool_effects Sample.env Sample.alice
                  (Turns.user_says "delete tasks 1 and 2") Turns.delete_1_2
                  (λ _, None) (Turns.net Sample.abc)) Hcalls Hfail).
Defined.

(** X14.  Arguments that are no JSON object stop the tool loop where
    they stand: the calls before have run and their effects stay, the
    call itself and the calls after it send nothing, and the loop
    raises, so the turn fails. *)
Theorem bad_arguments_stop_loop (E : Env) (current_user_id : pystr)
    (before after : list ToolCall.t) (tool_call : ToolCall.t)
    (cache : gmap pystr json) (n : Net) :
  Forall has_arguments before →
  ToolCall.arguments tool_call = None →
  Chat.run_tool_calls E current_user_id (before ++ tool_call :: after) cache n
  = (None, (Chat.run_tool_calls E current_user_id before cache n).2).
Proof.
  intros Hbefore Hbad. revert cache n.
  induction Hbefore as [|c before [args Hargs] _ IH]; intros cache n.
  - cbn [app Chat.run_tool_calls]. by rewrite Hbad.
  - rewrite <- app_comm_cons.
    rewrite !(run_tool_calls_cons _ _ _ _ args) by done. cbn zeta.
    apply IH.
Qed.

Lemma bad_arguments_stop_loop_witness :
  let bad := ToolCall.mk (py "call_2") "delete_task" None in
  Forall has_arguments [delete_call (py "call_1") 1]
  ∧ ToolCall.arguments bad = None
  ∧ (Chat.run_tool_calls Sample.env Sample.alice
       ([delete_call (py "call_1") 1] ++ bad :: [delete_call (py "call_3") 1])
       ∅ (Turns.net Sample.abc)).1 = None
  ∧ Sample.titles
      (Server.get_user_tasks Sample.alice
         (world (Chat.run_tool_calls Sample.env Sample.alice
                   ([delete_call (py "call_1") 1] ++ bad
                    :: [delete_call (py "call_3") 1])
                   ∅ (Turns.net Sample.abc)).2))
    = [py "B"; py "C"].
Proof.
  intros bad.
  assert (Hbefore : Forall has_arguments [delete_call (py "call_1") 1]).
  { repeat constructor; eexists; reflexivity. }
  assert (Hbad : ToolCall.arguments bad = None) by reflexivity.
  split; [exact Hbefore|]. split; [exact Hbad|].
  rewrite (bad_arguments_stop_loop Sample.env Sample.alice _
             [delete_call (py "call_3") 1] bad ∅ (Turns.net Sample.abc)
             Hbefore Hbad).
  split; [reflexivity|vm_compute; reflexivity].
Defined.

(** X15.  Where the model supplies no [user_id], the loop of
    [TodoAgent.process_message] sends what the loop of [chat_endpoint]
    sends: one call per tool call, in the model's order, with the
    caller's id written into the arguments, and one tool message per
    call under the id of the call. *)
Theorem agent_injects_missing_user_id
    (call_mcp_tool : string → gmap string json → json) (user_id : pystr)
    (calls : list ToolCall.t) :
  Forall supplies_no_user_id calls →
  Agent.run_tool_calls call_mcp_tool user_id calls
  = (injected user_id <$> calls,
     Some ((λ tool_call,
              ToolResult
                (call_mcp_tool (injected user_id tool_call).1
                   (injected user_id tool_call).2)
                (ToolCall.id tool_call)) <$> calls)).
Proof.
  induction 1 as [|tool_call calls (args & Hargs & Hnone) _ IH]; [done|].
  cbn [Agent.run_tool_calls]. rewrite Hargs, Hnone.
  rewrite bool_decide_eq_false_2 by (by intros [? ?]).
  rewrite IH, !fmap_cons. unfold injected. cbn [fst snd]. by rewrite Hargs.
Qed.

Lemma agent_injects_missing_user_id_witness :
  Forall supplies_no_user_id (tool_calls Turns.delete_1_2)
  ∧ (Agent.run_tool_calls (λ _ _, JNull) Sample.alice
       (tool_calls Turns.delete_1_2)).1
    = injected Sample.alice <$> tool_calls Turns.delete_1_2.
Proof.
  assert (Hnone : Forall supplies_no_user_id (tool_calls Turns.delete_1_2)).
  { repeat constructor; eexists; (split; [reflexivity|]);
      vm_compute; reflexivity. }
  split; [exact Hnone|].
  rewrite (agent_injects_missing_user_id (λ _ _, JNull) Sample.alice _ Hnone).
  reflexivity.
Defined.

(** * Properties of [execute_tool] *)

Lemma json_eqb_str_true (a : pystr) (v : json) :
  json_eqb (JStr a) v = true → v = JStr a.
Proof.
  destruct v; simpl; try done. intros H. apply bool_decide_eq_true in H.
  by subst.
Qed.

Lemma position_of_found (l : list Task.t) (start : Z) (j : nat)
    (task : Task.t) :
  NoDup (Task.id <$> l) → l !! j = Some task →
  position_of (JStr (Task.id task)) (Server.enumerate start l)
  = Some (start + Z.of_nat j).
Proof.
  revert start j. induction l as [|r l IH]; intros start [|j] Hnd Hj;
    simplify_eq/=; apply NoDup_cons in Hnd as [Hnotin Hnd].
  - rewrite bool_decide_eq_true_2 by done. f_equal. lia.
  - rewrite bool_decide_eq_false_2.
    + rewrite (IH (start + 1) j) by done. f_equal. lia.
    + intros Heq. apply Hnotin. rewrite Heq.
      apply list_elem_of_fmap_2. by eapply list_elem_of_lookup_2.
Qed.

Lemma position_of_none (l : list Task.t) (start : Z) (v : json) :
  (∀ task, task ∈ l → v ≠ JStr (Task.id task)) →
  position_of v (Server.enumerate start l) = None.
Proof.
  revert start. induction l as [|r l IH]; intros start Hnone; [done|].
  cbn [Server.enumerate position_of].
  destruct (json_eqb (JStr (Task.id r)) v) eqn:Heq.
  - apply json_eqb_str_true in Heq. exfalso. apply (Hnone r); [by left|done].
  - apply IH. intros task Htask. apply Hnone. by right.
Qed.

Lemma position_of_Some (l : list Task.t) (start : Z) (v : json) (p : Z) :
  position_of v (Server.enumerate start l) = Some p →
  start ≤ p ∧ ∃ task, l !! Z.to_nat (p - start) = Some task
                      ∧ v = JStr (Task.id task).
Proof.
  revert start. induction l as [|r l IH]; intros start Hp; [done|].
  cbn [Server.enumerate position_of] in Hp.
  destruct (json_eqb (JStr (Task.id r)) v) eqn:Heq.
  - apply json_eqb_str_true in Heq. simplify_eq. split; [lia|].
    exists r. by rewrite Z.sub_diag.
  - apply IH in Hp as (Hle & task & Ht & Hv). split; [lia|].
    exists task. split; [|done].
    replace (Z.to_nat (p - start)) with (S (Z.to_nat (p - (start + 1)))) by lia.
    done.
Qed.

Lemma awaited_snd (r : outcome json * World) (answer : json → json) :
  (awaited r answer).2 = r.2.
Proof. by destruct r as [[result|status_code detail] w]. Qed.

(** The scan and the call of a branch that addresses a task by id, for
    arguments that name the id of a task of the user. *)
Lemma by_task_id_found (R : Runtime) (d : gmap string json)
    (call : Z → json → World → json * World) (w : World) (user_id : pystr)
    (j : nat) (task : Task.t) :
  binds_str R → user_id ≠ [] → Task.id task ≠ [] → primary_key w →
  d !! "user_id" = Some (JStr user_id) →
  d !! "task_id" = Some (JStr (Task.id task)) →
  Server.select_tasks user_id w !! j = Some task →
  by_task_id R d call w = call (1 + Z.of_nat j) (JStr user_id) w.
Proof.
  intros Hbind Hu Hi Hpk Huser Hid Hj. unfold by_task_id.
  rewrite Huser, Hid. cbn [truthy_opt truthy default from_option Datatypes.id].
  rewrite !falsy_false by done. cbn [negb andb]. rewrite Hbind.
  rewrite (position_of_found _ 1 j task); [|by apply primary_key_select|done].
  by rewrite bool_decide_eq_false_2 by lia.
Qed.

Lemma by_task_id_missing (R : Runtime) (d : gmap string json)
    (call : Z → json → World → json * World) (w : World) (user_id : pystr)
    (task_id : pystr) :
  binds_str R → user_id ≠ [] → task_id ≠ [] →
  d !! "user_id" = Some (JStr user_id) →
  d !! "task_id" = Some (JStr task_id) →
  (∀ task, task ∈ Server.select_tasks user_id w → Task.id task ≠ task_id) →
  by_task_id R d call w = (result_text (cross_mark ++ py " Task not found"), w).
Proof.
  intros Hbind Hu Hi Huser Hid Hnone. unfold by_task_id.
  rewrite Huser, Hid. cbn [truthy_opt truthy default from_option Datatypes.id].
  rewrite !falsy_false by done. cbn [negb andb]. rewrite Hbind.
  rewrite position_of_none; [done|].
  intros task Htask Heq. apply (Hnone task Htask). congruence.
Qed.

(** X16.  [execute_tool] deletes by id within the user's own tasks: for
    a [delete_task] request that names a user and the id of one of that
    user's tasks, the row of that id is deleted and the answer is the
    confirmation; for an id that none of that user's tasks has, be it
    the id of another user's task, the answer is "Task not found" and
    the store is as it was. *)
Theorem execute_tool_delete_by_id (E : Env) (R : Runtime)
    (d : gmap string json) (user_id : pystr) (w : World) :
  accepts_own_types E → binds_str R → user_id ≠ [] → primary_key w →
  d !! "user_id" = Some (JStr user_id) →
  (∀ task, task ∈ Server.get_user_tasks user_id w → Task.id task ≠ [] →
     d !! "task_id" = Some (JStr (Task.id task)) →
     execute_tool E R (JStr (py "delete_task")) (Object d) w
     = (result_text (check_mark ++ py " Task deleted successfully!"),
        Server.delete_row task w))
  ∧ (∀ task_id, task_id ≠ [] → d !! "task_id" = Some (JStr task_id) →
       (∀ task, task ∈ Server.get_user_tasks user_id w →
                Task.id task ≠ task_id) →
       execute_tool E R (JStr (py "delete_task")) (Object d) w
       = (result_text (cross_mark ++ py " Task not found"), w))
  ∧ (∀ task, task ∈ tasks w → Task.user_id task ≠ user_id →
       Task.id task ≠ [] → d !! "task_id" = Some (JStr (Task.id task)) →
       execute_tool E R (JStr (py "delete_task")) (Object d) w
       = (result_text (cross_mark ++ py " Task not found"), w)).
Proof.
  intros (Hint & Hstr & Hbool) Hbind Hu Hpk Huser.
  unfold Server.get_user_tasks.
  assert (Hbranch : execute_tool E R (JStr (py "delete_task")) (Object d) w
    = by_task_id R d
        (λ task_position user_id w,
           match as_str E user_id with
           | Some user_id =>
               awaited
                 (Server.delete_task_tool
                    {| Server.del_task_position := task_position;
                       Server.del_user_id := user_id |} w)
                 (λ result,
                    if truthy_opt (jget "success" result) then
                      result_text (check_mark ++ py " Task deleted successfully!")
                    else failed E " Failed to delete task: " result)
           | None =>
               (error_executing
                  (str_of_fault R (ValidationError "DeleteTaskRequest")), w)
           end) w) by reflexivity.
  assert (Hmissing : ∀ task_id, task_id ≠ [] →
            d !! "task_id" = Some (JStr task_id) →
            (∀ task, task ∈ Server.select_tasks user_id w →
                     Task.id task ≠ task_id) →
            execute_tool E R (JStr (py "delete_task")) (Object d) w
            = (result_text (cross_mark ++ py " Task not found"), w)).
  { intros task_id Hi Hid Hnone. rewrite Hbranch.
    by apply (by_task_id_missing R d _ w user_id task_id). }
  split; [|split; [done|]].
  - intros task Hin Hi Hid. apply list_elem_of_lookup_1 in Hin as [j Hj].
    rewrite Hbranch.
    rewrite (by_task_id_found R d _ w user_id j task) by done.
    rewrite Hstr.
    destruct (delete_task_tool_in_range user_id (1 + Z.of_nat j) w Hu)
      as (task' & Ht' & ->).
    { apply lookup_lt_Some in Hj. lia. }
    replace (Z.to_nat (1 + Z.of_nat j - 1)) with j in Ht' by lia.
    by simplify_eq.
  - intros task Hin Hother Hi Hid. apply (Hmissing (Task.id task)); [done..|].
    intros task' Hin' Heq.
    apply list_elem_of_filter in Hin' as [Hu' Hin'].
    apply list_elem_of_lookup_1 in Hin as [i Hi'].
    rewrite (primary_key_user w i task task') in Hu' by done. done.
Qed.

Lemma execute_tool_delete_by_id_witness :
  let mine : gmap string json :=
    {[ "task_id" := JStr (py "task-2"); "user_id" := JStr Sample.alice ]} in
  let other : gmap string json :=
    {[ "task_id" := JStr (py "task-1"); "user_id" := JStr Sample.alice ]} in
  accepts_own_types Sample.env ∧ binds_str sample_runtime
  ∧ Sample.alice ≠ [] ∧ primary_key Sample.abc
  ∧ Sample.titles
      (tasks (execute_tool Sample.env sample_runtime (JStr (py "delete_task"))
                (Object mine) Sample.abc).2)
    = [py "A"; py "X"; py "C"]
  ∧ execute_tool Sample.env sample_runtime (JStr (py "delete_task"))
      (Object other) Sample.abc
    = (result_text (cross_mark ++ py " Task not found"), Sample.abc).
Proof.
  intros mine other.
  assert (Hown : accepts_own_types Sample.env) by (repeat split).
  assert (Hbind : binds_str sample_runtime) by (intros s; reflexivity).
  assert (Hu : Sample.alice ≠ []) by (intros H; vm_compute in H; discriminate H).
  assert (Hpk : primary_key Sample.abc) by compute_done.
  split; [exact Hown|]. split; [exact Hbind|]. split; [exact Hu|].
  split; [exact Hpk|]. split; [vm_compute; reflexivity|].
  assert (Huser : other !! "user_id" = Some (JStr Sample.alice))
    by (vm_compute; reflexivity).
  assert (Hbob : ∃ task, task ∈ tasks Sample.abc
                         ∧ Task.user_id task ≠ Sample.alice
                         ∧ Task.id task = py "task-1").
  { eexists. split; [right; left|]. split; [|vm_compute; reflexivity].
    intros H. vm_compute in H. discriminate H. }
  destruct Hbob as (task & Hin & Hother & Hid).
  apply (proj2 (proj2 (execute_tool_delete_by_id Sample.env sample_runtime
                         other Sample.alice Sample.abc Hown Hbind Hu Hpk Huser))
           task Hin Hother).
  - rewrite Hid. intros H. vm_compute in H. discriminate H.
  - rewrite Hid. vm_compute. reflexivity.
Defined.

Lemma by_task_id_cases (R : Runtime) (d : gmap string json)
    (call : Z → json → World → json * World) (w : World) :
  (by_task_id R d call w).2 = w
  ∨ ∃ task_position,
      by_task_id R d call w
      = call task_position (default JNull (d !! "user_id")) w.
Proof.
  unfold by_task_id. destruct (_ && _); [|by left].
  destruct (bind_text R _) as [owner|]; [|by left].
  destruct (position_of _ _) as [task_position|]; [|by left].
  case_bool_decide; [by left|]. right. by exists task_position.
Qed.

(** A request that changes the store runs one tool, for the owner the
    request models read from [user_id], and is answered with a report
    of the change. *)
Lemma execute_object_store (E : Env) (R : Runtime) (tool_name : json)
    (d : gmap string json) (w : World) :
  (execute_object E R tool_name d w).2 = w
  ∨ ∃ r,
      as_str E (default JNull (d !! "user_id")) = Some (request_user_id r)
      ∧ (execute_object E R tool_name d w).2 = (run_tool E r w).2
      ∧ reports_done (execute_object E R tool_name d w).1.
Proof.
  unfold execute_object.
  destruct (is_tool tool_name "create_task").
  { destruct (as_str E (default (JStr []) (d !! "title"))) as [title|];
      [|by left].
    destruct (as_str E (default (JStr []) (d !! "description")))
      as [description|]; [|by left].
    destruct (as_str E (default JNull (d !! "user_id"))) as [user_id|] eqn:Hu;
      [|by left].
    match goal with |- context [Server.add_task_tool E ?rq w] =>
      destruct (add_task_tool_store E rq w) as [Hw|[_ Heq]];
      [left; by rewrite awaited_snd|];
      right; exists (AddTask rq); cbn [run_tool request_user_id]; rewrite Heq end.
    split; [done|]. split; [done|]. by eexists. }
  destruct (is_tool tool_name "get_tasks").
  { destruct (as_str E (default JNull (d !! "user_id"))) as [user_id|];
      [|by left].
    left. by rewrite awaited_snd, list_tasks_tool_store. }
  destruct (is_tool tool_name "update_task").
  { match goal with |- context [by_task_id R d ?call w] =>
      destruct (by_task_id_cases R d call w) as [Hw|[p ->]]; [by left|] end.
    destruct (as_str E (default JNull (d !! "user_id"))) as [user_id|] eqn:Hu;
      [|by left].
    destruct (Server.optional_str E (default JNull (d !! "title")))
      as [title|]; [|by left].
    destruct (Server.optional_str E (default JNull (d !! "description")))
      as [description|]; [|by left].
    match goal with |- context [Server.update_task_tool E ?rq w] =>
      destruct (update_task_tool_store E rq w) as [Hw|(task & _ & Heq)];
      [left; by rewrite awaited_snd|];
      right; exists (UpdateTask rq); cbn [run_tool request_user_id]; rewrite Heq end.
    split; [done|]. split; [done|]. by eexists. }
  destruct (is_tool tool_name "toggle_task_completion").
  { match goal with |- context [by_task_id R d ?call w] =>
      destruct (by_task_id_cases R d call w) as [Hw|[p ->]]; [by left|] end.
    destruct (as_str E (default JNull (d !! "user_id"))) as [user_id|] eqn:Hu;
      [|by left].
    destruct (as_bool E (default (JBool true) (d !! "completed")))
      as [flag|]; [|by left].
    match goal with |- context [Server.complete_task_tool E ?rq w] =>
      destruct (complete_task_tool_store E rq w) as [Hw|(task & _ & Heq)];
      [left; by rewrite awaited_snd|];
      right; exists (CompleteTask rq); cbn [run_tool request_user_id]; rewrite Heq end.
    split; [done|]. split; [done|]. by eexists. }
  destruct (is_tool tool_name "delete_task"); [|by left].
  match goal with |- context [by_task_id R d ?call w] =>
    destruct (by_task_id_cases R d call w) as [Hw|[p ->]]; [by left|] end.
  destruct (as_str E (default JNull (d !! "user_id"))) as [user_id|] eqn:Hu;
    [|by left].
  match goal with |- context [Server.delete_task_tool ?rq w] =>
    destruct (delete_task_tool_store rq w) as [Hw|(task & _ & Heq)];
    [left; by rewrite awaited_snd|];
    right; exists (DeleteTask rq); cbn [run_tool request_user_id]; rewrite Heq end.
  split; [done|]. split; [done|]. by eexists.
Qed.

Lemma execute_tool_store (E : Env) (R : Runtime) (tool_name : json)
    (args : arguments) (w : World) :
  (execute_tool E R tool_name args w).2 = w
  ∨ ∃ r,
      acts_for E args (request_user_id r)
      ∧ (execute_tool E R tool_name args w).2 = (run_tool E r w).2
      ∧ reports_done (execute_tool E R tool_name args w).1.
Proof.
  destruct args as [d| |]; cbn [execute_tool].
  - destruct (execute_object_store E R tool_name d w)
      as [Hw|(r & Hu & Hw & Hdone)]; [by left|].
    right. exists r. split; [by exists d|done].
  - left. by destruct (known_tool tool_name).
  - by left.
Qed.

(** X17.  [execute_tool] acts for the user named in the arguments only:
    on a table with a primary key, whatever the tool name and the
    arguments, the scan of every owner other than the one the request
    models read from [user_id] is the same afterwards; a request whose
    arguments are no JSON object, or name a tool that is not known,
    changes nothing. *)
Theorem execute_tool_keeps_other_owners (E : Env) (R : Runtime)
    (tool_name : json) (args : arguments) (other : pystr) (w : World) :
  primary_key w → ¬ acts_for E args other →
  Server.get_user_tasks other (execute_tool E R tool_name args w).2
  = Server.get_user_tasks other w.
Proof.
  intros Hpk Hother. unfold Server.get_user_tasks.
  destruct (execute_tool_store E R tool_name args w)
    as [->|(r & Hacts & -> & _)]; [done|].
  apply run_tool_other_owners; [done|]. by intros <-.
Qed.

Lemma execute_tool_keeps_other_owners_witness :
  let d : gmap string json :=
    {[ "task_id" := JStr (py "task-0"); "user_id" := JStr Sample.alice ]} in
  primary_key Sample.abc
  ∧ ¬ acts_for Sample.env (Object d) Sample.bob
  ∧ Server.get_user_tasks Sample.bob
      (execute_tool Sample.env sample_runtime (JStr (py "delete_task"))
         (Object d) Sample.abc).2
    = Server.get_user_tasks Sample.bob Sample.abc
  ∧ Sample.titles
      (Server.get_user_tasks Sample.alice
         (execute_tool Sample.env sample_runtime (JStr (py "delete_task"))
            (Object d) Sample.abc).2)
    = [py "B"; py "C"].
Proof.
  intros d.
  assert (Hpk : primary_key Sample.abc) by compute_done.
  assert (Hother : ¬ acts_for Sample.env (Object d) Sample.bob).
  { intros (d' & Heq & Hu). injection Heq as <-.
    vm_compute in Hu. discriminate Hu. }
  split; [exact Hpk|]. split; [exact Hother|].
  split; [|vm_compute; reflexivity].
  exact (execute_tool_keeps_other_owners Sample.env sample_runtime
           (JStr (py "delete_task")) (Object d) Sample.bob Sample.abc
           Hpk Hother).
Defined.

(** X18.  [execute_tool] changes the store only when it reports the
    change: whatever the request, either the store afterwards is the
    store before, or the answer is a [result] that starts with the check
    mark.  Every error answer (unknown tool, missing [user_id] or
    [task_id], task not found, a request model that rejects the
    arguments, an exception of a tool) comes with the store unchanged. *)
Theorem execute_tool_reports_changes (E : Env) (R : Runtime)
    (tool_name : json) (args : arguments) (w : World) :
  (execute_tool E R tool_name args w).2 = w
  ∨ reports_done (execute_tool E R tool_name args w).1.
Proof.
  destruct (execute_tool_store E R tool_name args w)
    as [Hw|(r & _ & _ & Hdone)]; [by left|by right].
Qed.

(** X19.  [execute_tool] completes by id: a [toggle_task_completion]
    request that names a user and the id of the task at some position of
    that user's scan sets the flag of that task, [True] when [completed]
    is missing, and changes no other position; the answer names the
    task's title and says "completed" or "marked as incomplete" after
    the flag. *)
Theorem execute_tool_toggle_by_id (E : Env) (R : Runtime)
    (d : gmap string json) (user_id : pystr) (j : nat) (task : Task.t)
    (flag : bool) (w : World) :
  accepts_own_types E → binds_str R → user_id ≠ [] → primary_key w →
  d !! "user_id" = Some (JStr user_id) →
  d !! "task_id" = Some (JStr (Task.id task)) → Task.id task ≠ [] →
  Server.get_user_tasks user_id w !! j = Some task →
  completed_flag d = Some flag →
  let r := execute_tool E R (JStr (py "toggle_task_completion")) (Object d) w in
  r.1 = result_text
          (check_mark ++ py " Task "
           ++ (if flag then py "completed" else py "marked as incomplete")
           ++ py ": " ++ Task.title task)
  ∧ Server.get_user_tasks user_id r.2
    = <[j := completed_row E flag task w]> (Server.get_user_tasks user_id w).
Proof.
  intros (Hint & Hstr & Hbool) Hbind Hu Hpk Huser Hid Hi Hj Hflag r.
  unfold Server.get_user_tasks in *.
  assert (Hcompleted : default (JBool true) (d !! "completed") = JBool flag).
  { unfold completed_flag in Hflag.
    destruct (d !! "completed") as [[]|]; by simplify_eq/=. }
  assert (Hbranch : r
    = by_task_id R d
        (λ task_position user_id w,
           match as_str E user_id,
                 as_bool E (default (JBool true) (d !! "completed")) with
           | Some user_id, Some flag =>
               awaited
                 (Server.complete_task_tool E
                    {| Server.cmp_task_position := task_position;
                       Server.cmp_user_id := user_id;
                       Server.cmp_completed := flag |} w)
                 (λ result,
                    if truthy_opt (jget "success" result) then
                      result_text
                        (check_mark ++ py " Task "
                         ++ (if truthy (default (JBool true)
                                          (d !! "completed"))
                             then py "completed"
                             else py "marked as incomplete")
                         ++ py ": " ++ task_title E result)
                    else failed E " Failed to update task: " result)
           | _, _ =>
               (error_executing
                  (str_of_fault R (ValidationError "CompleteTaskRequest")), w)
           end) w) by reflexivity.
  rewrite Hbranch.
  rewrite (by_task_id_found R d _ w user_id j task) by done.
  rewrite Hcompleted, Hstr, Hbool.
  destruct (complete_task_tool_in_range E user_id (1 + Z.of_nat j) flag w Hu)
    as (task' & Ht' & ->).
  { apply lookup_lt_Some in Hj. lia. }
  replace (Z.to_nat (1 + Z.of_nat j - 1)) with j in Ht' by lia.
  simplify_eq. cbn [awaited fst snd]. split; [done|].
  by apply (select_update_row user_id w _ j task).
Qed.

Lemma execute_tool_toggle_by_id_witness :
  let d : gmap string json :=
    {[ "task_id" := JStr (py "task-2"); "user_id" := JStr Sample.alice ]} in
  accepts_own_types Sample.env ∧ binds_str sample_runtime
  ∧ Sample.alice ≠ [] ∧ primary_key Sample.abc
  ∧ completed_flag d = Some true
  ∧ (execute_tool Sample.env sample_runtime
       (JStr (py "toggle_task_completion")) (Object d) Sample.abc).1
    = result_text (check_mark ++ py " Task completed: B").
Proof.
  intros d.
  assert (Hown : accepts_own_types Sample.env) by (repeat split).
  assert (Hbind : binds_str sample_runtime) by (intros s; reflexivity).
  assert (Hu : Sample.alice ≠ []) by (intros H; vm_compute in H; discriminate H).
  assert (Hpk : primary_key Sample.abc) by compute_done.
  assert (Hflag : completed_flag d = Some true) by (vm_compute; reflexivity).
  split; [exact Hown|]. split; [exact Hbind|]. split; [exact Hu|].
  split; [exact Hpk|]. split; [exact Hflag|].
  assert (Hsecond : ∃ task,
            Server.get_user_tasks Sample.alice Sample.abc !! 1%nat = Some task
            ∧ Task.id task = py "task-2" ∧ Task.title task = py "B").
  { eexists. repeat split; vm_compute; reflexivity. }
  destruct Hsecond as (task & Ht & Hid & Htitle).
  assert (Huser : d !! "user_id" = Some (JStr Sample.alice))
    by (vm_compute; reflexivity).
  assert (Htask : d !! "task_id" = Some (JStr (Task.id task)))
    by (rewrite Hid; vm_compute; reflexivity).
  assert (Hne : Task.id task ≠ [])
    by (rewrite Hid; intros H; vm_compute in H; discriminate H).
  rewrite (proj1 (execute_tool_toggle_by_id Sample.env sample_runtime d
                    Sample.alice 1 task true Sample.abc
                    Hown Hbind Hu Hpk Huser Htask Hne Ht Hflag)).
  rewrite Htitle. reflexivity.
Defined.

(** ** Properties of the conversations *)

Lemma insert_by_Permutation {A} (column : A → Z) (row : A) (rows : list A) :
  Backend.insert_by column row rows ≡ₚ row :: rows.
Proof.
  induction rows as [|row' rest IH]; [done|]. simpl.
  destruct (decide (column row ≤ column row')); [done|].
  rewrite IH. apply Permutation_swap.
Qed.

Lemma order_by_Permutation {A} (column : A → Z) (rows : list A) :
  Backend.order_by column rows ≡ₚ rows.
Proof.
  induction rows as [|row rest IH]; [done|].
  unfold Backend.order_by in *. simpl.
  by rewrite insert_by_Permutation, IH.
Qed.

Lemma insert_by_sorted {A} (column : A → Z) (row : A) (rows : list A) :
  StronglySorted (λ a b, column a ≤ column b) rows →
  StronglySorted (λ a b, column a ≤ column b)
                 (Backend.insert_by column row rows).
Proof.
  induction 1 as [|row' rest Hrest IH Hall]; simpl.
  { repeat constructor. }
  destruct (decide (column row ≤ column row')) as [Hle|Hgt].
  - constructor; [by constructor|].
    constructor; [done|].
    eapply Forall_impl; [exact Hall|]. simpl. lia.
  - constructor; [done|].
    rewrite insert_by_Permutation. constructor; [lia|done].
Qed.

Lemma order_by_sorted {A} (column : A → Z) (rows : list A) :
  StronglySorted (λ a b, column a ≤ column b) (Backend.order_by column rows).
Proof.
  induction rows as [|row rest IH]; [constructor|].
  by apply insert_by_sorted.
Qed.

(** Rows already in strictly ascending order are returned as they are,
    however rows of equal [column] are placed. *)
Lemma order_by_ascending {A} (column : A → Z) (rows : list A) :
  StronglySorted (λ a b, column a < column b) rows →
  Backend.order_by column rows = rows.
Proof.
  induction 1 as [|row rest Hrest IH Hall]; [done|].
  unfold Backend.order_by in *. simpl. rewrite IH.
  destruct Hall as [|row' rest' Hlt _]; [done|]. simpl.
  by rewrite decide_True by lia.
Qed.

Lemma filter_ascending {A} (R : relation A) (P : A → Prop)
    `{∀ x, Decision (P x)} (rows : list A) :
  StronglySorted R rows → StronglySorted R (filter P rows).
Proof.
  induction 1 as [|row rest Hrest IH Hall]; [constructor|].
  rewrite filter_cons. destruct (decide (P row)); [|done].
  constructor; [done|].
  apply Forall_forall. intros x Hx.
  apply list_elem_of_filter in Hx as [_ Hx].
  by eapply Forall_forall in Hall.
Qed.

Lemma sorted_weaken {A} (R1 R2 : relation A) (rows : list A) :
  (∀ a b, R1 a b → R2 a b) →
  StronglySorted R1 rows → StronglySorted R2 rows.
Proof.
  intros Himpl. induction 1 as [|row rest Hrest IH Hall]; constructor; [done|].
  eapply Forall_impl; [exact Hall|]. auto.
Qed.

(** X20.  [get_current_user] returns a user only for a header
    ["Bearer <token>"] whose token [verify_token] accepts: the user is a
    row of the user table, and its id is what the database compares
    with the truthy [sub] of the token's payload. *)
Theorem current_user_is_token_subject (O : Backend.Outside) (R : Runtime)
    (authorization : pystr) (db : Backend.Database) (user : User.t) :
  Backend.get_current_user O R authorization db = Return user →
  ∃ token payload sub,
    authorization = py "Bearer " ++ token
    ∧ Backend.verify_token O token = Some payload
    ∧ payload !! "sub" = Some sub
    ∧ truthy sub = true
    ∧ bind_text R sub = Some (User.id user)
    ∧ user ∈ Backend.users db.
Proof.
  unfold Backend.get_current_user, Backend.invalid_credentials.
  destruct (Backend.startswith (py "Bearer ") authorization) eqn:Hprefix;
    [|done].
  cbn [negb].
  unfold Backend.removeprefix. rewrite Hprefix.
  unfold Backend.startswith in Hprefix. apply bool_decide_eq_true in Hprefix.
  destruct (Backend.verify_token O _) as [payload|] eqn:Htoken; [|done].
  destruct (payload !! "sub") as [sub|] eqn:Hsub; [|done].
  cbn [truthy_opt default from_option Datatypes.id].
  destruct (truthy sub) eqn:Htruthy; [|done].
  cbn [negb].
  destruct (bind_text R sub) as [key|] eqn:Hkey; [|done].
  destruct (head _) as [found|] eqn:Hhead; [|done].
  intros [= ->].
  apply head_Some_elem_of, list_elem_of_filter in Hhead as [<- Hin].
  exists (drop (length (py "Bearer ")) authorization), payload, sub.
  split; [|done].
  by rewrite <- Hprefix at 1; rewrite take_drop.
Qed.

Lemma current_user_is_token_subject_witness :
  ∃ token payload sub,
    py "Bearer tok-alice" = py "Bearer " ++ token
    ∧ Backend.verify_token SampleBackend.outside token = Some payload
    ∧ payload !! "sub" = Some sub
    ∧ truthy sub = true
    ∧ bind_text sample_runtime sub = Some Sample.alice
    ∧ User.mk Sample.alice ∈ Backend.users SampleBackend.registered.
Proof.
  apply (current_user_is_token_subject SampleBackend.outside sample_runtime
           (py "Bearer tok-alice") SampleBackend.registered
           (User.mk Sample.alice)).
  vm_compute. reflexivity.
Defined.

(** X21.  [get_conversation_history] answers with rows only to the
    authenticated user of the path and only for a conversation of that
    user: the rows are the messages of that conversation, each once, by
    ascending timestamp. *)
Theorem conversation_history_of_owner (user_id conversation_id : pystr)
    (current_user : User.t) (db : Backend.Database)
    (rows : list MessageRow.t) :
  Backend.get_conversation_history user_id conversation_id current_user db
  = Return rows →
  User.id current_user = user_id
  ∧ (∃ c, c ∈ Backend.conversations db
          ∧ Conversation.id c = conversation_id
          ∧ Conversation.user_id c = user_id)
  ∧ rows ≡ₚ filter (λ msg, MessageRow.conversation_id msg = conversation_id)
                   (Backend.messages db)
  ∧ StronglySorted (λ a b, MessageRow.timestamp a ≤ MessageRow.timestamp b)
                   rows.
Proof.
  unfold Backend.get_conversation_history.
  case_bool_decide as Huser; [done|].
  destruct (head _) as [c|] eqn:Hhead; [|done].
  intros [= <-].
  apply head_Some_elem_of, list_elem_of_filter in Hhead as [Howner Hin].
  apply list_elem_of_filter in Hin as [Hid Hin].
  split; [by destruct (decide (User.id current_user = user_id))|].
  split; [by exists c|].
  unfold Backend.select_messages.
  split; [apply order_by_Permutation | apply order_by_sorted].
Qed.

Lemma conversation_history_of_owner_witness :
  ∃ rows,
    Backend.get_conversation_history Sample.alice (py "id-0")
      (User.mk Sample.alice) SampleBackend.talked = Return rows
    ∧ MessageRow.content <$> rows = [py "hello"; py "bye"]
    ∧ rows ≡ₚ filter (λ msg, MessageRow.conversation_id msg = py "id-0")
                     (Backend.messages SampleBackend.talked).
Proof.
  eexists. split; [vm_compute; reflexivity|].
  split; [vm_compute; reflexivity|].
  apply (conversation_history_of_owner Sample.alice (py "id-0")
           (User.mk Sample.alice) SampleBackend.talked).
  vm_compute. reflexivity.
Defined.

(** X22.  [get_user_conversations] answers with rows only to the
    authenticated user of the path: the rows are the conversations of
    that user, each once, the latest created first. *)
Theorem user_conversations_of_owner (user_id : pystr) (current_user : User.t)
    (db : Backend.Database) (rows : list Conversation.t) :
  Backend.get_user_conversations user_id current_user db = Return rows →
  User.id current_user = user_id
  ∧ rows ≡ₚ filter (λ c, Conversation.user_id c = user_id)
                   (Backend.conversations db)
  ∧ StronglySorted
      (λ a b, Conversation.created_at b ≤ Conversation.created_at a) rows.
Proof.
  unfold Backend.get_user_conversations.
  case_bool_decide as Huser; [done|].
  intros [= <-].
  split; [by destruct (decide (User.id current_user = user_id))|].
  unfold Backend.order_by_desc.
  split; [apply order_by_Permutation|].
  eapply sorted_weaken; [|apply order_by_sorted].
  simpl. intros a b. lia.
Qed.

Lemma user_conversations_of_owner_witness :
  ∃ rows,
    Backend.get_user_conversations Sample.bob (User.mk Sample.bob)
      SampleBackend.talked = Return rows
    ∧ Conversation.id <$> rows = [py "id-2"]
    ∧ rows ≡ₚ filter (λ c, Conversation.user_id c = Sample.bob)
                     (Backend.conversations SampleBackend.talked).
Proof.
  eexists. split; [vm_compute; reflexivity|].
  split; [vm_compute; reflexivity|].
  apply (user_conversations_of_owner Sample.bob (User.mk Sample.bob)
           SampleBackend.talked).
  vm_compute. reflexivity.
Defined.

Lemma history_found (conversation_id : pystr) (db : Backend.Database) :
  has_conversation conversation_id db →
  Backend.reconstruct_conversation_history conversation_id db
  = (λ msg, Text (MessageRow.role msg) (Some (MessageRow.content msg)))
      <$> Backend.select_messages conversation_id db.
Proof.
  intros (c & Hin & Hid). unfold Backend.reconstruct_conversation_history.
  destruct (head _) as [c'|] eqn:Hhead; [done|].
  apply head_None in Hhead.
  assert (c ∈ filter (λ c, Conversation.id c = conversation_id)
                     (Backend.conversations db))
    by by apply list_elem_of_filter.
  rewrite Hhead in *. by apply elem_of_nil in H.
Qed.

Lemma select_messages_saving_order (conversation_id : pystr)
    (db : Backend.Database) :
  in_saving_order db →
  Backend.select_messages conversation_id db
  = filter (λ msg, MessageRow.conversation_id msg = conversation_id)
           (Backend.messages db).
Proof.
  intros Horder. apply order_by_ascending. by apply filter_ascending.
Qed.

Lemma save_message_saving_order (O : Backend.Outside)
    (conversation_id : pystr) (role : string) (content : pystr)
    (db : Backend.Database) :
  in_saving_order db → clock_ahead O db →
  in_saving_order
    (Backend.save_message_to_db O conversation_id role content db).2.
Proof.
  intros Horder Hclock. unfold in_saving_order. simpl.
  apply StronglySorted_app_2; [|done|repeat constructor].
  intros a b Ha ->%list_elem_of_singleton. by apply Hclock.
Qed.

(** X23.  A saved message comes last in the history: when the message
    table is in strictly ascending order of timestamps and the clock
    reads later than all of them, [save_message_to_db] keeps the table
    so, and [reconstruct_conversation_history] of the message's
    conversation is the history before with the new message appended,
    while the history of every other conversation is as before. *)
Theorem saved_message_ends_history (O : Backend.Outside)
    (conversation_id : pystr) (role : string) (content : pystr)
    (db : Backend.Database) :
  in_saving_order db → clock_ahead O db →
  has_conversation conversation_id db →
  let db' := (Backend.save_message_to_db O conversation_id role content db).2 in
  in_saving_order db'
  ∧ Backend.reconstruct_conversation_history conversation_id db'
    = Backend.reconstruct_conversation_history conversation_id db
      ++ [Text role (Some content)]
  ∧ ∀ other, other ≠ conversation_id →
      Backend.reconstruct_conversation_history other db'
      = Backend.reconstruct_conversation_history other db.
Proof.
  intros Horder Hclock Hconv db'.
  assert (Horder' : in_saving_order db')
    by by apply save_message_saving_order.
  split; [done|]. split.
  - rewrite !history_found by done.
    rewrite !select_messages_saving_order by done.
    subst db'. simpl. rewrite filter_app, fmap_app. f_equal.
    rewrite filter_cons, decide_True by done. done.
  - intros other Hother.
    unfold Backend.reconstruct_conversation_history.
    change (Backend.conversations db') with (Backend.conversations db).
    destruct (head _); [|done].
    rewrite !select_messages_saving_order by done.
    subst db'. simpl. rewrite filter_app, filter_cons, decide_False by done.
    by rewrite filter_nil, app_nil_r.
Qed.

Lemma saved_message_ends_history_witness :
  in_saving_order SampleBackend.talked
  ∧ clock_ahead SampleBackend.outside SampleBackend.talked
  ∧ has_conversation (py "id-0") SampleBackend.talked
  ∧ Backend.reconstruct_conversation_history (py "id-0")
      (Backend.save_message_to_db SampleBackend.outside (py "id-0")
         "assistant" (py "Goodbye!") SampleBackend.talked).2
    = [Text "user" (Some (py "hello")); Text "user" (Some (py "bye"));
       Text "assistant" (Some (py "Goodbye!"))].
Proof.
  assert (Horder : in_saving_order SampleBackend.talked).
  { unfold in_saving_order.
    repeat first [ apply SSorted_nil
                 | apply SSorted_cons
                 | apply Forall_nil_2
                 | apply Forall_cons_2; [vm_compute; reflexivity|] ]. }
  assert (Hclock : clock_ahead SampleBackend.outside SampleBackend.talked).
  { intros msg Hin.
    repeat (apply elem_of_cons in Hin as [->|Hin]; [vm_compute; reflexivity|]).
    by apply elem_of_nil in Hin. }
  assert (Hconv : has_conversation (py "id-0") SampleBackend.talked).
  { eexists. split; [apply list_elem_of_here|]. vm_compute. reflexivity. }
  split; [exact Horder|]. split; [exact Hclock|]. split; [exact Hconv|].
  rewrite (proj1 (proj2 (saved_message_ends_history SampleBackend.outside
                           (py "id-0") "assistant" (py "Goodbye!")
                           SampleBackend.talked Horder Hclock Hconv))).
  vm_compute. reflexivity.
Defined.

Lemma find_or_create_found (O : Backend.Outside) (user_id : pystr)
    (db : Backend.Database) :
  let r := Backend.find_or_create O user_id db in
  head (conversations_of user_id r.2) = Some r.1
  ∧ Backend.messages r.2 = Backend.messages db
  ∧ (conversations_of user_id db ≠ [] →
     Backend.conversations r.2 = Backend.conversations db).
Proof.
  unfold Backend.find_or_create, conversations_of.
  destruct (head (filter _ (Backend.conversations db))) as [c|] eqn:Hhead;
    simpl.
  - done.
  - apply head_None in Hhead.
    rewrite filter_app, Hhead, filter_cons, decide_True by done.
    done.
Qed.

(** The database after step 1 and 2 of [chat_endpoint]. *)
Lemma chat_endpoint_database (O : Backend.Outside) (S : Backend.Settings)
    (system_instructions user_id message : pystr) (current_user : User.t)
    (db : Backend.Database) :
  User.id current_user = user_id →
  let found := Backend.find_or_create O user_id db in
  (Backend.chat_endpoint O S system_instructions user_id message
     current_user db).2
  = (Backend.save_message_to_db O (Conversation.id found.1) "user" message
       found.2).2
  ∧ ∀ p, (Backend.chat_endpoint O S system_instructions user_id message
            current_user db).1 = Return p →
         Backend.conversation_id p = Conversation.id found.1
         ∧ Backend.first_messages p
           = [Text "system" (Some system_instructions)]
             ++ Backend.reconstruct_conversation_history
                  (Conversation.id found.1)
                  (Backend.save_message_to_db O (Conversation.id found.1)
                     "user" message found.2).2
             ++ [Text "user" (Some message)].
Proof.
  intros Huser found. unfold Backend.chat_endpoint.
  rewrite bool_decide_eq_false_2 by (by intros ?).
  fold found. destruct found as [conversation db1].
  destruct (Backend.get_openai_client O S) as [c|status detail]; simpl.
  - split; [done|]. by intros p [= <-].
  - split; [done|]. by intros p [=].
Qed.

(** X24.  One conversation per user: once [chat_endpoint] has prepared
    a turn for a user, every later turn of that user uses the
    conversation of that turn and creates none, whatever messages and
    other users' conversations were added meanwhile. *)
Theorem chat_reuses_conversation (O : Backend.Outside)
    (S S' : Backend.Settings)
    (system_instructions user_id message message' : pystr)
    (current_user : User.t) (db db1 db2 db3 : Backend.Database)
    (p p' : Backend.Prepared) :
  Backend.chat_endpoint O S system_instructions user_id message
    current_user db = (Return p, db1) →
  conversations_of user_id db2 = conversations_of user_id db1 →
  Backend.chat_endpoint O S' system_instructions user_id message'
    current_user db2 = (Return p', db3) →
  Backend.conversation_id p' = Backend.conversation_id p
  ∧ Backend.conversations db3 = Backend.conversations db2.
Proof.
  intros Hfirst Hsame Hsecond.
  assert (Huser : User.id current_user = user_id).
  { unfold Backend.chat_endpoint in Hfirst.
    case_bool_decide as Hne; [done|].
    by destruct (decide (User.id current_user = user_id)). }
  destruct (chat_endpoint_database O S system_instructions user_id message
              current_user db Huser) as [Hdb Hp].
  destruct (chat_endpoint_database O S' system_instructions user_id message'
              current_user db2 Huser) as [Hdb' Hp'].
  rewrite Hfirst in Hdb, Hp. rewrite Hsecond in Hdb', Hp'. simpl in *.
  destruct (Hp p eq_refl) as [Hid _]. destruct (Hp' p' eq_refl) as [Hid' _].
  destruct (find_or_create_found O user_id db) as (Hhead & _ & _).
  destruct (find_or_create_found O user_id db2) as (Hhead' & _ & Hkeep).
  assert (Hof : conversations_of user_id db1
                = conversations_of user_id (Backend.find_or_create O user_id db).2)
    by by rewrite Hdb.
  rewrite <- Hof, <- Hsame in Hhead.
  assert (Hne : conversations_of user_id db2 ≠ [])
    by (intros Hnil; by rewrite Hnil in Hhead).
  specialize (Hkeep Hne).
  assert (Hconv : Backend.conversations db3 = Backend.conversations db2)
    by by rewrite Hdb'.
  split; [|done].
  rewrite Hid, Hid'.
  unfold conversations_of in Hhead'. rewrite Hkeep in Hhead'.
  unfold conversations_of in Hhead. rewrite Hhead in Hhead'.
  by injection Hhead' as <-.
Qed.

Lemma chat_reuses_conversation_witness :
  Backend.chat_endpoint SampleBackend.outside SampleBackend.groq_only
    (py "...") Sample.alice (py "hello") (User.mk Sample.alice)
    SampleBackend.registered
  = (Return (SampleBackend.prepared "hello" ["hello"]), SampleBackend.hello)
  ∧ Backend.chat_endpoint SampleBackend.outside SampleBackend.groq_only
      (py "...") Sample.alice (py "bye") (User.mk Sample.alice)
      SampleBackend.hello_hi
    = (Return (SampleBackend.prepared "bye" ["hello"; "bye"]),
       SampleBackend.talked)
  ∧ Backend.conversations SampleBackend.talked
    = Backend.conversations SampleBackend.hello_hi.
Proof.
  assert (Hfirst :
    Backend.chat_endpoint SampleBackend.outside SampleBackend.groq_only
      (py "...") Sample.alice (py "hello") (User.mk Sample.alice)
      SampleBackend.registered
    = (Return (SampleBackend.prepared "hello" ["hello"]), SampleBackend.hello))
    by (vm_compute; reflexivity).
  assert (Hsecond :
    Backend.chat_endpoint SampleBackend.outside SampleBackend.groq_only
      (py "...") Sample.alice (py "bye") (User.mk Sample.alice)
      SampleBackend.hello_hi
    = (Return (SampleBackend.prepared "bye" ["hello"; "bye"]),
       SampleBackend.talked))
    by (vm_compute; reflexivity).
  assert (Hsame : conversations_of Sample.alice SampleBackend.hello_hi
                  = conversations_of Sample.alice SampleBackend.hello)
    by (vm_compute; reflexivity).
  split; [exact Hfirst|]. split; [exact Hsecond|].
  exact (proj2 (chat_reuses_conversation _ _ _ _ _ _ _ _ _ _ _ _ _ _
                  Hfirst Hsame Hsecond)).
Defined.

Lemma find_or_create_has_conversation (O : Backend.Outside) (user_id : pystr)
    (db : Backend.Database) :
  let r := Backend.find_or_create O user_id db in
  has_conversation (Conversation.id r.1) r.2
  ∧ Conversation.user_id r.1 = user_id.
Proof.
  intros r.
  destruct (find_or_create_found O user_id db) as (Hhead & _ & _).
  fold r in Hhead.
  apply head_Some_elem_of, list_elem_of_filter in Hhead as [Howner Hin].
  split; [by exists r.1|done].
Qed.

(** X25.  The model reads the user's message twice: [chat_endpoint]
    saves the message before it rebuilds the history, so the messages
    of the first completion are the system instructions, a history that
    contains the message, and the message again. *)
Theorem first_messages_repeat_user_message (O : Backend.Outside)
    (S : Backend.Settings) (system_instructions user_id message : pystr)
    (current_user : User.t) (db db' : Backend.Database)
    (p : Backend.Prepared) :
  Backend.chat_endpoint O S system_instructions user_id message
    current_user db = (Return p, db') →
  ∃ history,
    Backend.first_messages p
    = [Text "system" (Some system_instructions)] ++ history
      ++ [Text "user" (Some message)]
    ∧ Text "user" (Some message) ∈ history.
Proof.
  intros Hturn.
  assert (Huser : User.id current_user = user_id).
  { unfold Backend.chat_endpoint in Hturn.
    case_bool_decide as Hne; [done|].
    by destruct (decide (User.id current_user = user_id)). }
  destruct (chat_endpoint_database O S system_instructions user_id message
              current_user db Huser) as [_ Hp].
  rewrite Hturn in Hp. destruct (Hp p eq_refl) as [_ ->].
  eexists. split; [done|].
  destruct (find_or_create_has_conversation O user_id db) as [Hconv _].
  rewrite history_found by done.
  set (found := Backend.find_or_create O user_id db) in *.
  pose (row := (Backend.save_message_to_db O (Conversation.id found.1)
                  "user" message found.2).1).
  change (Text "user" (Some message))
    with ((λ msg, Text (MessageRow.role msg) (Some (MessageRow.content msg)))
            row).
  apply list_elem_of_fmap_2. unfold Backend.select_messages.
  rewrite order_by_Permutation.
  apply list_elem_of_filter. split; [done|].
  simpl. apply elem_of_app. right. apply list_elem_of_here.
Qed.

Lemma first_messages_repeat_user_message_witness :
  ∃ history,
    Backend.first_messages (SampleBackend.prepared "bye" ["hello"; "bye"])
    = [Text "system" (Some (py "..."))] ++ history
      ++ [Text "user" (Some (py "bye"))]
    ∧ Text "user" (Some (py "bye")) ∈ history.
Proof.
  apply (first_messages_repeat_user_message SampleBackend.outside
           SampleBackend.groq_only (py "...") Sample.alice (py "bye")
           (User.mk Sample.alice) SampleBackend.hello_hi SampleBackend.talked).
  vm_compute. reflexivity.
Defined.

(** X26.  The user's message is stored whatever comes of the turn:
    for the authenticated user of the path, [chat_endpoint] appends one
    row to the message table, the user's message in the first of the
    user's conversations, and either has prepared the first completion
    for that conversation or answers 500 because [get_openai_client]
    raised. *)
Theorem chat_endpoint_saves_user_message (O : Backend.Outside)
    (S : Backend.Settings) (system_instructions user_id message : pystr)
    (current_user : User.t) (db : Backend.Database) :
  User.id current_user = user_id →
  let r := Backend.chat_endpoint O S system_instructions user_id message
             current_user db in
  ∃ row c,
    Backend.messages r.2 = Backend.messages db ++ [row]
    ∧ user_row (Conversation.id c) message row
    ∧ head (conversations_of user_id r.2) = Some c
    ∧ ((∃ p, r.1 = Return p ∧ Backend.conversation_id p = Conversation.id c)
       ∨ (∃ status_code detail,
            Backend.get_openai_client O S = Raise status_code detail
            ∧ r.1 = Raise 500 (py "Error processing chat request: "
                               ++ str_of_exc status_code detail))).
Proof.
  intros Huser r.
  destruct (chat_endpoint_database O S system_instructions user_id message
              current_user db Huser) as [Hdb Hp].
  destruct (find_or_create_found O user_id db) as (Hhead & Hmessages & _).
  fold r in Hdb, Hp.
  set (found := Backend.find_or_create O user_id db) in *.
  exists (Backend.save_message_to_db O (Conversation.id found.1) "user"
            message found.2).1, found.1.
  rewrite Hdb. split; [by simpl; rewrite Hmessages|].
  split; [done|]. split; [done|].
  subst r. unfold Backend.chat_endpoint in *.
  rewrite bool_decide_eq_false_2 in * by (by intros ?).
  fold found in Hp |- *. destruct found as [conversation db1].
  destruct (Backend.get_openai_client O S) as [c|status_code detail]; simpl.
  - left. eexists. split; [done|]. done.
  - right. by exists status_code, detail.
Qed.

Lemma chat_endpoint_saves_user_message_witness :
  let r := Backend.chat_endpoint SampleBackend.outside SampleBackend.no_key
             (py "...") Sample.bob (py "hi") (User.mk Sample.bob)
             SampleBackend.hello in
  succeeded r.1 = false
  ∧ ∃ row c,
      Backend.messages r.2 = Backend.messages SampleBackend.hello ++ [row]
      ∧ user_row (Conversation.id c) (py "hi") row
      ∧ head (conversations_of Sample.bob r.2) = Some c
      ∧ ((∃ p, r.1 = Return p
               ∧ Backend.conversation_id p = Conversation.id c)
         ∨ (∃ status_code detail,
              Backend.get_openai_client SampleBackend.outside
                SampleBackend.no_key = Raise status_code detail
              ∧ r.1 = Raise 500 (py "Error processing chat request: "
                                 ++ str_of_exc status_code detail))).
Proof.
  intros r. split; [vm_compute; reflexivity|].
  apply (chat_endpoint_saves_user_message SampleBackend.outside
           SampleBackend.no_key (py "...") Sample.bob (py "hi")
           (User.mk Sample.bob) SampleBackend.hello).
  reflexivity.
Defined.

(** X27.  The key and the model belong to one provider: when
    [get_openai_client] creates a client, its key is a setting that is
    not empty, and the model [chat_endpoint] asks by default is the one
    of the provider of that key, OpenRouter before Groq before OpenAI;
    the Groq key goes to [openai_base_url] when that is set. *)
Theorem client_and_model_agree (O : Backend.Outside) (S : Backend.Settings)
    (c : Backend.ClientParams) :
  Backend.get_openai_client O S = Return c →
  Backend.api_key c ≠ []
  ∧ ((Backend.openrouter_api_key S = Some (Backend.api_key c)
      ∧ Backend.model_name S None = py "openai/gpt-4o-mini")
     ∨ (Backend.is_set (Backend.openrouter_api_key S) = false
        ∧ Backend.groq_api_key S = Some (Backend.api_key c)
        ∧ Backend.base_url c
          = Some (or_text (Backend.openai_base_url S) Backend.groq_url)
        ∧ Backend.model_name S None = py "llama3-8b-8192")
     ∨ (Backend.is_set (Backend.openrouter_api_key S) = false
        ∧ Backend.is_set (Backend.groq_api_key S) = false
        ∧ Backend.openai_api_key S = Some (Backend.api_key c)
        ∧ Backend.model_name S None = py "gpt-4-turbo-preview")).
Proof.
  assert (Hset : ∀ v, Backend.is_set v = true →
                      v = Some (default [] v) ∧ default [] v ≠ []).
  { intros [s|] Hv; [|done]. simpl in *. split; [done|].
    intros ->. by vm_compute in Hv. }
  assert (Hgroq : ∀ a, Backend.is_set (Some (or_text a Backend.groq_url))
                       = true).
  { intros [s|]; [|by vm_compute]. simpl.
    unfold falsy at 2. case_bool_decide as Hs.
    - by vm_compute.
    - unfold falsy. by rewrite bool_decide_eq_false_2. }
  unfold Backend.get_openai_client, Backend.model_name.
  destruct (Backend.is_set (Backend.openrouter_api_key S)) eqn:Hrouter;
    [|destruct (Backend.is_set (Backend.groq_api_key S)) eqn:Hgroq_key;
      [|destruct (Backend.is_set (Backend.openai_api_key S)) eqn:Hopenai;
        [|done]]];
    destruct (Backend.client_error O _); try done; intros [= <-];
    unfold Backend.client_params; cbn [Backend.api_key Backend.base_url].
  - destruct (Hset _ Hrouter) as [Hkey Hne]. split; [done|]. by left.
  - destruct (Hset _ Hgroq_key) as [Hkey Hne]. split; [done|].
    right. left. by rewrite Hgroq.
  - destruct (Hset _ Hopenai) as [Hkey Hne]. split; [done|].
    right. right. done.
Qed.

Lemma client_and_model_agree_witness :
  Backend.get_openai_client SampleBackend.outside SampleBackend.groq_only
  = Return (Backend.client_params (py "gsk") (Some Backend.groq_url))
  ∧ Backend.model_name SampleBackend.groq_only None = py "llama3-8b-8192".
Proof.
  assert (Hclient :
    Backend.get_openai_client SampleBackend.outside SampleBackend.groq_only
    = Return (Backend.client_params (py "gsk") (Some Backend.groq_url)))
    by (vm_compute; reflexivity).
  split; [exact Hclient|].
  destruct (client_and_model_agree _ _ _ Hclient)
    as [_ [[Hkey _]|[(_ & _ & _ & Hmodel)|(_ & Hgroq & _)]]].
  - vm_compute in Hkey. discriminate Hkey.
  - exact Hmodel.
  - vm_compute in Hgroq. discriminate Hgroq.
Defined.
